(** * pydataform: a shallow embedding of the workflow wrapper and its manager

    The development follows [pydataform/dataform.py] (configuration, workflow
    handle, service) and [examples/advanced_workflow.py] (the retrying,
    concurrent workflow manager).

    Python objects with mutable attributes live in an explicit store; remote
    calls, sleeps, lock operations and callback invocations are recorded in
    a chronological trace.  Exceptions are an outcome of the computation and
    keep every effect performed before they were raised. *)

From Stdlib Require Import ZArith Ascii String List Lia Bool Floats.SpecFloat.
From stdpp Require Import base gmap strings list functions pretty.

Local Open Scope Z_scope.

(** ** Remote data model *)

(** Modelled from the spec: the state enumeration of an invocation snapshot
    is declared by the remote client library, which is not part of the
    sources; the specification lists PENDING, RUNNING, SUCCEEDED, FAILED and
    CANCELLED. *)
Inductive State := PENDING | RUNNING | SUCCEEDED | FAILED | CANCELLED.

#[global] Instance State_eq_dec : EqDecision State.
Proof. solve_decision. Defined.

Record Timestamp := mkTimestamp { seconds : Z; nanos : Z }.

(** [None] stands for an attribute that is missing or that Python evaluates
    as false ([hasattr] fails or [not x] holds). *)
Record InvocationTiming := mkTiming {
  timing_start_time : option Timestamp;
  timing_end_time : option Timestamp
}.

Record WorkflowInvocation := mkInvocation {
  wi_name : string;
  wi_compilation_result : string;
  wi_state : State;
  wi_invocation_timing : option InvocationTiming
}.

Record CompileRequest := mkCompileRequest {
  cr_parent : string;
  cr_git_commitish : string;
  cr_vars : list (string * string);
  cr_schema_suffix : option string
}.

Record InvokeRequest := mkInvokeRequest {
  ir_parent : string;
  ir_compilation_result : string;
  ir_fully_refresh_incremental_tables_enabled : bool;
  ir_transitive_dependencies_included : bool;
  ir_transitive_dependents_included : bool
}.

(** Failures of the remote endpoint, and the exceptions of the program. *)
Inductive RemoteError := RemoteUnavailable | RemoteRejected | NotFound.

Inductive Exn :=
| Remote (r : RemoteError)
| TimeoutError (timeout_seconds : Z)
| ValueError
| OverflowError
| CallbackError (msg : string).

(** ** Python floats *)

(** A Python float is an IEEE 754 binary64 number, and its operations round
    to nearest, ties to even: the numbers and the operations are those of
    the Standard Library's specification of floating-point arithmetic, at
    precision 53 and maximal exponent 1024. *)
Module PyFloat.

Definition prec : Z := 53.
Definition emax : Z := 1024.

Definition t : Type := spec_float.

Definition add : t -> t -> t := SFadd prec emax.

(** Division by a float that is not zero; a zero divisor raises in Python
    and is none of the divisors of the program. *)
Definition div : t -> t -> t := SFdiv prec emax.

(** [float(z)]: the nearest float, or nothing when [z] is too large to
    convert. *)
Definition of_int (z : Z) : option t :=
  match binary_normalize prec emax z 0 false with
  | S754_infinity _ => None
  | f => Some f
  end.

(** The literal [1e9], which is 1000000000 exactly: 1000000000 * 2^23 is
    8388608000000000. *)
Definition lit_1e9 : t := S754_finite false 8388608000000000 (-23).

(** The float [f] is the integer [z]: nothing was rounded. *)
Definition is_int (f : t) (z : Z) : Prop :=
  match f with
  | S754_zero s => s = false /\ z = 0
  | S754_finite s m e => s = (z <? 0) /\ e <= 0 /\ Z.abs z * 2 ^ (- e) = Zpos m
  | _ => False
  end.

End PyFloat.

(** The remote service is an oracle: the answer to a call depends on the
    number of calls made before it, so that the remote state may change
    between any two calls; [latency] is the time a call takes. *)
Record Env := mkEnv {
  get_workflow_invocation : nat -> string -> RemoteError + WorkflowInvocation;
  create_compilation_result : nat -> CompileRequest -> RemoteError + string;
  create_workflow_invocation : nat -> InvokeRequest -> RemoteError + WorkflowInvocation;
  latency : nat -> Z
}.

(** ** Callbacks, events and the process state *)

(** A user callback is opaque: it is called, and returns or raises. *)
Record Callback := mkCallback { cb_label : string; cb_raises : option string }.

(** The positional list [[on_start, on_complete, on_error]]. *)
Record Callbacks := mkCallbacks {
  on_start : option Callback;     (* callbacks[0] *)
  on_complete : option Callback;  (* callbacks[1] *)
  on_error : option Callback      (* callbacks[2] *)
}.

Inductive Role := OnStart | OnComplete | OnError.

#[global] Instance Role_eq_dec : EqDecision Role.
Proof. solve_decision. Defined.

Inductive Event :=
| EvCompile (req : CompileRequest)
| EvInvoke (req : InvokeRequest)
| EvGet (name : string)
| EvSleep (secs : Z)
| EvAcquire
| EvRelease
| EvRegister (execution_id : string) (workflow : nat)
| EvEvict (execution_id : string)
| EvServiceRun (execution_id : option string) (wait : bool)
               (timeout_seconds : Z) (full_refresh : bool)
| EvCallback (role : Role) (execution_id : string) (cb : Callback)
             (workflow : option nat) (error : option Exn)
| EvLogInfo
| EvLogError (e : Exn).

(** A task handed to the worker pool: the arguments of
    [_run_workflow_with_retry]. *)
Record Task := mkTask {
  task_execution_id : string;
  task_wait : bool;
  task_timeout_seconds : Z;
  task_full_refresh : bool
}.

Record World := mkWorld {
  clock : Z;                                  (* time.time() *)
  ncalls : nat;                               (* remote calls made so far *)
  trace : list Event;
  heap : nat -> WorkflowInvocation;           (* _workflow_invocation of each handle *)
  next_ref : nat;
  latest_workflow : option nat;               (* DataformService.latest_workflow *)
  active_workflows : list (string * nat);     (* insertion-ordered dict *)
  workflow_callbacks : gmap string Callbacks;
  executor_queue : list Task
}.

Definition set_clock (c : Z) (w : World) : World :=
  mkWorld c (ncalls w) (trace w) (heap w) (next_ref w) (latest_workflow w)
          (active_workflows w) (workflow_callbacks w) (executor_queue w).
Definition set_ncalls (n : nat) (w : World) : World :=
  mkWorld (clock w) n (trace w) (heap w) (next_ref w) (latest_workflow w)
          (active_workflows w) (workflow_callbacks w) (executor_queue w).
Definition set_trace (t : list Event) (w : World) : World :=
  mkWorld (clock w) (ncalls w) t (heap w) (next_ref w) (latest_workflow w)
          (active_workflows w) (workflow_callbacks w) (executor_queue w).
Definition set_heap (hp : nat -> WorkflowInvocation) (w : World) : World :=
  mkWorld (clock w) (ncalls w) (trace w) hp (next_ref w) (latest_workflow w)
          (active_workflows w) (workflow_callbacks w) (executor_queue w).
Definition set_next_ref (n : nat) (w : World) : World :=
  mkWorld (clock w) (ncalls w) (trace w) (heap w) n (latest_workflow w)
          (active_workflows w) (workflow_callbacks w) (executor_queue w).
Definition set_latest_workflow (l : option nat) (w : World) : World :=
  mkWorld (clock w) (ncalls w) (trace w) (heap w) (next_ref w) l
          (active_workflows w) (workflow_callbacks w) (executor_queue w).
Definition set_active_workflows (a : list (string * nat)) (w : World) : World :=
  mkWorld (clock w) (ncalls w) (trace w) (heap w) (next_ref w) (latest_workflow w)
          a (workflow_callbacks w) (executor_queue w).
Definition set_workflow_callbacks (c : gmap string Callbacks) (w : World) : World :=
  mkWorld (clock w) (ncalls w) (trace w) (heap w) (next_ref w) (latest_workflow w)
          (active_workflows w) c (executor_queue w).
Definition set_executor_queue (q : list Task) (w : World) : World :=
  mkWorld (clock w) (ncalls w) (trace w) (heap w) (next_ref w) (latest_workflow w)
          (active_workflows w) (workflow_callbacks w) q.

(** ** The effect monad: state, exceptions, and exhausted fuel *)

Inductive Outcome (A : Type) :=
| Ret (a : A)
| Raise (e : Exn)
| Diverge.
Arguments Ret {A} a.
Arguments Raise {A} e.
Arguments Diverge {A}.

Definition M (A : Type) : Type := World -> Outcome A * World.

Definition ret {A} (a : A) : M A := fun w => (Ret a, w).
Definition raise {A} (e : Exn) : M A := fun w => (Raise e, w).
Definition diverge {A} : M A := fun w => (Diverge, w).

Definition bind {A B} (m : M A) (k : A -> M B) : M B :=
  fun w => match m w with
           | (Ret a, w1) => k a w1
           | (Raise e, w1) => (Raise e, w1)
           | (Diverge, w1) => (Diverge, w1)
           end.

(** The protected part of a [try] block: an exception raised inside it is
    handed to the code that follows as a value.  A block in which a local
    variable is assigned is cut at the assignment, so that the handler sees
    the value the variable had when the exception was raised. *)
Definition catch {A} (body : M A) : M (Exn + A) :=
  fun w => match body w with
           | (Ret a, w1) => (Ret (inr a), w1)
           | (Raise e, w1) => (Ret (inl e), w1)
           | (Diverge, w1) => (Diverge, w1)
           end.

Notation "x <- m ;; k" := (bind m (fun x => k))
  (at level 20, m at level 99, k at level 200, only parsing).
Notation "m ;;; k" := (bind m (fun _ => k))
  (at level 98, k at level 200, right associativity, only parsing).

(** An int operand of a float operation is converted first; the conversion
    raises OverflowError when the int is too large. *)
Definition float_of_int (z : Z) : M PyFloat.t :=
  match PyFloat.of_int z with
  | Some f => ret f
  | None => raise OverflowError
  end.

Definition emit (e : Event) : M unit :=
  fun w => (Ret tt, set_trace (trace w ++ [e]) w).

Definition time_time : M Z := fun w => (Ret (clock w), w).

(** [time.sleep] rejects a negative length. *)
Definition time_sleep (secs : Z) : M unit :=
  if secs <? 0 then raise ValueError
  else fun w => (Ret tt, set_clock (clock w + secs) (set_trace (trace w ++ [EvSleep secs]) w)).

Definition logger_info : M unit := emit EvLogInfo.
Definition logger_error (e : Exn) : M unit := emit (EvLogError e).

(** One remote round trip: the event is recorded, the call is counted and
    its latency elapses, whatever the answer. *)
Definition charge (ev : Event) (lat : Z) (w : World) : World :=
  set_clock (clock w + lat) (set_ncalls (S (ncalls w)) (set_trace (trace w ++ [ev]) w)).

Definition remote_call {A} (ev : Event) (lat : Z) (answer : RemoteError + A) : M A :=
  fun w =>
    match answer with
    | inl r => (Raise (Remote r), charge ev lat w)
    | inr a => (Ret a, charge ev lat w)
    end.

(** ** DataformConfig *)

Module DataformConfig.

Record t := mk {
  project_id : string;
  location : string;
  repo_name : string;
  git_branch : string
}.

(** [__init__] with its keyword defaults. *)
Definition init (project_id : string) (location repo_name git_branch : option string) : t :=
  mk project_id
     (default "us-central1"%string location)
     (default "inland-nam-rcs-df-dev-bg"%string repo_name)
     (default "test"%string git_branch).

Definition repo_uri (self : t) : string :=
  "projects/" +:+ project_id self +:+ "/locations/" +:+ location self
    +:+ "/repositories/" +:+ repo_name self.

End DataformConfig.

(** ** DataformWorkflow: the handle on one invocation *)

Module DataformWorkflow.

(** The dict [{'seconds': ..., 'nanos': ...}] built by the accessors. *)
Record TimeDict := mkTimeDict { td_seconds : Z; td_nanos : Z }.

Definition terminal_states : list State := [SUCCEEDED; CANCELLED; FAILED].

Definition state_name (s : State) : string :=
  match s with
  | PENDING => "PENDING" | RUNNING => "RUNNING" | SUCCEEDED => "SUCCEEDED"
  | FAILED => "FAILED" | CANCELLED => "CANCELLED"
  end.

(** [s.split(sep)] for a separator of one character: the segments between
    the occurrences of [sep], at least one. *)
Fixpoint str_split (sep : Ascii.ascii) (s : string) : list string :=
  match s with
  | EmptyString => [EmptyString]
  | String c rest =>
      if Ascii.eqb c sep then EmptyString :: str_split sep rest
      else match str_split sep rest with
           | seg :: segs => String c seg :: segs
           | [] => [String c EmptyString]
           end
  end.

(** [name.split('/')[-1]] *)
Definition last_segment (n : string) : string :=
  List.last (str_split "/"%char n) EmptyString.

Section WithClient.
Variable env : Env.

(** [DataformWorkflow(client, workflow_invocation)] allocates an object. *)
Definition init (workflow_invocation : WorkflowInvocation) : M nat :=
  fun w => let r := next_ref w in
           (Ret r, set_next_ref (S r) (set_heap (<[r := workflow_invocation]> (heap w)) w)).

Definition name (self : nat) : M string :=
  fun w => (Ret (wi_name (heap w self)), w).

Definition compilation_result (self : nat) : M string :=
  fun w => (Ret (wi_compilation_result (heap w self)), w).

Definition client_get_workflow_invocation (n : string) : M WorkflowInvocation :=
  fun w => remote_call (EvGet n) (latency env (ncalls w))
                       (get_workflow_invocation env (ncalls w) n) w.

Definition refresh (self : nat) : M nat :=
  n <- name self ;;
  wi <- client_get_workflow_invocation n ;;
  fun w => (Ret self, set_heap (<[self := wi]> (heap w)) w).

Definition raw_state (self : nat) : M State :=
  refresh self ;;; fun w => (Ret (wi_state (heap w self)), w).

Definition state (self : nat) : M string :=
  refresh self ;;; fun w => (Ret (state_name (wi_state (heap w self))), w).

Definition start_time (self : nat) : M (option TimeDict) :=
  fun w =>
    match wi_invocation_timing (heap w self) with
    | None => (Ret None, w)
    | Some timing =>
        match timing_start_time timing with
        | None => (Ret None, w)
        | Some start => (Ret (Some (mkTimeDict (seconds start) (nanos start))), w)
        end
    end.

Definition end_time (self : nat) : M (option TimeDict) :=
  fun w =>
    match wi_invocation_timing (heap w self) with
    | None => (Ret None, w)
    | Some timing =>
        match timing_end_time timing with
        | None => (Ret None, w)
        | Some e => (Ret (Some (mkTimeDict (seconds e) (nanos e))), w)
        end
    end.

(** The difference of the seconds is an int; the quotient is computed
    first, then the sum, both in floats. *)
Definition duration_seconds (self : nat) : M (option PyFloat.t) :=
  start <- start_time self ;;
  e <- end_time self ;;
  match start, e with
  | Some start, Some e =>
      let whole := td_seconds e - td_seconds start in
      part <- float_of_int (td_nanos e - td_nanos start) ;;
      let fraction := PyFloat.div part PyFloat.lit_1e9 in
      whole <- float_of_int whole ;;
      ret (Some (PyFloat.add whole fraction))
  | _, _ => ret None
  end.

Definition is_complete (self : nat) : M bool :=
  refresh self ;;;
  fun w => (Ret (bool_decide (wi_state (heap w self) ∈ terminal_states)), w).

Definition is_successful (self : nat) : M bool :=
  refresh self ;;;
  fun w => (Ret (bool_decide (wi_state (heap w self) = SUCCEEDED)), w).

Definition is_failed (self : nat) : M bool :=
  refresh self ;;;
  fun w => (Ret (bool_decide (wi_state (heap w self) = FAILED)), w).

Definition is_cancelled (self : nat) : M bool :=
  refresh self ;;;
  fun w => (Ret (bool_decide (wi_state (heap w self) = CANCELLED)), w).

Definition is_running (self : nat) : M bool :=
  refresh self ;;;
  fun w => (Ret (bool_decide (wi_state (heap w self) = RUNNING)), w).

(** The [while] loop of [wait_for_completion]; [fuel] bounds the number
    of iterations. *)
Fixpoint wait_loop (fuel : nat) (self : nat) (poll_interval_seconds timeout_seconds : Z)
         (start_time : Z) : M nat :=
  match fuel with
  | O => diverge
  | S fuel' =>
      now <- time_time ;;
      if now - start_time <? timeout_seconds then
        refresh self ;;;
        c <- is_complete self ;;
        if c : bool then ret self
        else
          logger_info ;;;
          time_sleep poll_interval_seconds ;;;
          wait_loop fuel' self poll_interval_seconds timeout_seconds start_time
      else raise (TimeoutError timeout_seconds)
  end.

Definition wait_for_completion (fuel : nat) (self : nat)
           (poll_interval_seconds timeout_seconds : Z) : M nat :=
  start_time <- time_time ;;
  wait_loop fuel self poll_interval_seconds timeout_seconds start_time.

(** The loop as the specification words it: sleep, refresh, check. *)
Fixpoint wait_loop_as_specified (fuel : nat) (self : nat)
         (poll_interval_seconds timeout_seconds : Z) (start_time : Z) : M nat :=
  match fuel with
  | O => diverge
  | S fuel' =>
      now <- time_time ;;
      if now - start_time <? timeout_seconds then
        time_sleep poll_interval_seconds ;;;
        refresh self ;;;
        c <- is_complete self ;;
        if c : bool then ret self
        else wait_loop_as_specified fuel' self poll_interval_seconds
                                    timeout_seconds start_time
      else raise (TimeoutError timeout_seconds)
  end.

Definition wait_for_completion_as_specified (fuel : nat) (self : nat)
           (poll_interval_seconds timeout_seconds : Z) : M nat :=
  start_time <- time_time ;;
  wait_loop_as_specified fuel self poll_interval_seconds timeout_seconds start_time.

(** The format string reads the name of the stored snapshot first, then the
    state, which refreshes. *)
Definition __str__ (self : nat) : M string :=
  n <- name self ;;
  st <- state self ;;
  ret ("DataformWorkflow(name=" +:+ last_segment n +:+ ", state=" +:+ st +:+ ")").

Definition __repr__ (self : nat) : M string := __str__ self.

End WithClient.

End DataformWorkflow.

(** ** DataformService *)

Module DataformService.

(** Truth value of an optional string: [None] and the empty string are
    false. *)
Definition truthy (s : option string) : bool :=
  match s with
  | Some s => negb (String.eqb s "")
  | None => false
  end.

Section WithClient.
Variable env : Env.
Variable config : DataformConfig.t.

Definition compile (params : option (list (string * string)))
           (schema_suffix : option string) : M string :=
  let vars := match params with
              | Some (p :: ps) => p :: ps
              | _ => []
              end in
  let suffix := if truthy schema_suffix then schema_suffix else None in
  let request := mkCompileRequest (DataformConfig.repo_uri config)
                                  (DataformConfig.git_branch config) vars suffix in
  fun w => remote_call (EvCompile request) (latency env (ncalls w))
                       (create_compilation_result env (ncalls w) request) w.

Definition _invoke_workflow (compilation_name : string)
           (full_refresh include_dependencies include_dependents : bool)
  : M WorkflowInvocation :=
  let request := mkInvokeRequest (DataformConfig.repo_uri config) compilation_name
                                 full_refresh include_dependencies include_dependents in
  fun w => remote_call (EvInvoke request) (latency env (ncalls w))
                       (create_workflow_invocation env (ncalls w) request) w.

Definition create_workflow (compilation_name : string)
           (full_refresh include_dependencies include_dependents : bool) : M nat :=
  workflow_invocation <- _invoke_workflow compilation_name full_refresh
                                          include_dependencies include_dependents ;;
  workflow <- DataformWorkflow.init workflow_invocation ;;
  (fun w => (Ret tt, set_latest_workflow (Some workflow) w)) ;;;
  ret workflow.

Definition get_workflow (workflow_name : string) : M nat :=
  workflow_invocation <- DataformWorkflow.client_get_workflow_invocation env workflow_name ;;
  DataformWorkflow.init workflow_invocation.

(** [fuel] bounds the polling loop of the optional wait, which uses the
    default poll interval of 30 seconds. *)
Definition run_workflow (fuel : nat) (execution_id : option string) (wait : bool)
           (timeout_seconds : Z) (full_refresh : bool) : M nat :=
  emit (EvServiceRun execution_id wait timeout_seconds full_refresh) ;;;
  let params := match execution_id with
                | Some i => if truthy execution_id
                            then [("defaultExecutionId"%string, i)] else []
                | None => []
                end in
  compilation_name <- compile (Some params) None ;;
  workflow <- create_workflow compilation_name full_refresh true true ;;
  (if wait
   then DataformWorkflow.wait_for_completion env fuel workflow 30 timeout_seconds
   else ret workflow) ;;;
  ret workflow.

(** The list call of the client is one more oracle of the remote; it is
    counted and takes its time like the other calls, and leaves no event in
    the trace. *)
Variable list_workflow_invocations :
  nat -> string -> Z -> RemoteError + list WorkflowInvocation.

(** The [for] loop that wraps each invocation of the response. *)
Fixpoint wrap_invocations (response : list WorkflowInvocation) (workflows : list nat)
  : M (list nat) :=
  match response with
  | [] => ret workflows
  | workflow_invocation :: rest =>
      workflow <- DataformWorkflow.init workflow_invocation ;;
      wrap_invocations rest (workflows ++ [workflow])
  end.

Definition list_recent_workflows (limit : Z) : M (list nat) :=
  response <- (fun w =>
                 let w1 := set_clock (clock w + latency env (ncalls w))
                                     (set_ncalls (S (ncalls w)) w) in
                 match list_workflow_invocations (ncalls w)
                         (DataformConfig.repo_uri config) limit with
                 | inl r => (Raise (Remote r), w1)
                 | inr l => (Ret l, w1)
                 end) ;;
  wrap_invocations response [].

End WithClient.

End DataformService.

(** ** WorkflowManager *)

Module WorkflowManager.

Record t := mk {
  config : DataformConfig.t;
  max_retries : Z;
  retry_delay_seconds : Z;
  max_concurrent_workflows : Z;
  object_id : Z                (* id(self) *)
}.

(** The insertion-ordered dict [active_workflows]. *)
Fixpoint dict_get {V} (k : string) (d : list (string * V)) : option V :=
  match d with
  | [] => None
  | (k', v) :: d' => if String.eqb k k' then Some v else dict_get k d'
  end.

Fixpoint dict_set {V} (k : string) (v : V) (d : list (string * V)) : list (string * V) :=
  match d with
  | [] => [(k, v)]
  | (k', v') :: d' => if String.eqb k k' then (k, v) :: d' else (k', v') :: dict_set k v d'
  end.

Definition dict_del {V} (k : string) (d : list (string * V)) : list (string * V) :=
  List.filter (fun kv => negb (String.eqb k (fst kv))) d.

(** [__init__] with its keyword defaults: the tables start empty and the
    service it creates has no latest workflow.  The poller it starts is
    [_monitor_workflows]; [object_id] is the identity the new object
    gets. *)
Definition init (config : DataformConfig.t)
           (max_retries retry_delay_seconds max_concurrent_workflows : option Z)
           (object_id : Z) : M t :=
  fun w =>
    (Ret (mk config (default 3 max_retries) (default 60 retry_delay_seconds)
             (default 3 max_concurrent_workflows) object_id),
     set_executor_queue []
       (set_workflow_callbacks ∅ (set_active_workflows [] (set_latest_workflow None w)))).

Section WithManager.
Variable env : Env.
Variable self : t.
(** Bound on the iterations of each polling loop started by a worker. *)
Variable fuel : nat.

(** [with self.lock: body]; the lock is released however the body
    exits. *)
Definition with_lock {A} (body : M A) : M A :=
  emit EvAcquire ;;;
  fun w => let '(r, w1) := body w in (r, set_trace (trace w1 ++ [EvRelease]) w1).

Definition call_callback (role : Role) (execution_id : string) (cb : Callback)
           (workflow : option nat) (error : option Exn) : M unit :=
  emit (EvCallback role execution_id cb workflow error) ;;;
  match cb_raises cb with
  | Some msg => raise (CallbackError msg)
  | None => ret tt
  end.

Definition lookup_callbacks (execution_id : string) : M (option Callbacks) :=
  fun w => (Ret (workflow_callbacks w !! execution_id), w).

(** [if callbacks and callbacks[i]: callbacks[i](...)] *)
Definition fire (role : Role) (execution_id : string) (callbacks : option Callbacks)
           (workflow : option nat) (error : option Exn) : M unit :=
  match callbacks with
  | Some cbs =>
      match (match role with
             | OnStart => on_start cbs
             | OnComplete => on_complete cbs
             | OnError => on_error cbs
             end) with
      | Some cb => call_callback role execution_id cb workflow error
      | None => ret tt
      end
  | None => ret tt
  end.

(** *** The background poller *)

(** The body of the [for] loop for one registered entry. *)
Definition monitor_entry (entry : string * nat) (completed : list string)
  : M (list string) :=
  let '(execution_id, workflow) := entry in
  observed <- catch (DataformWorkflow.refresh env workflow ;;;
                     DataformWorkflow.is_complete env workflow) ;;
  match observed with
  | inl e => logger_error e ;;; ret completed
  | inr false => ret completed
  | inr true =>
      let completed := completed ++ [execution_id] in
      called <- catch (callbacks <- lookup_callbacks execution_id ;;
                       fire OnComplete execution_id callbacks (Some workflow) None) ;;
      match called with
      | inl e => logger_error e ;;; ret completed
      | inr _ => ret completed
      end
  end.

Fixpoint monitor_entries (entries : list (string * nat)) (completed : list string)
  : M (list string) :=
  match entries with
  | [] => ret completed
  | entry :: rest =>
      completed <- monitor_entry entry completed ;;
      monitor_entries rest completed
  end.

Definition evict (execution_id : string) : M unit :=
  fun w =>
    let w1 := match dict_get execution_id (active_workflows w) with
              | Some _ => set_active_workflows
                            (dict_del execution_id (active_workflows w))
                            (set_trace (trace w ++ [EvEvict execution_id]) w)
              | None => w
              end in
    let w2 := match workflow_callbacks w1 !! execution_id with
              | Some _ => set_workflow_callbacks
                            (delete execution_id (workflow_callbacks w1)) w1
              | None => w1
              end in
    (Ret tt, w2).

Fixpoint remove_completed (completed : list string) : M unit :=
  match completed with
  | [] => ret tt
  | execution_id :: rest => evict execution_id ;;; remove_completed rest
  end.

(** One iteration of [while True] without its final sleep. *)
Definition monitor_pass : M unit :=
  with_lock (entries <- (fun w => (Ret (active_workflows w), w)) ;;
             completed <- monitor_entries entries [] ;;
             remove_completed completed).

Fixpoint _monitor_workflows (passes : nat) : M unit :=
  match passes with
  | O => diverge
  | S passes' => monitor_pass ;;; time_sleep 5 ;;; _monitor_workflows passes'
  end.

(** *** Submission with retry *)

Definition register (execution_id : string) (workflow : nat) : M unit :=
  with_lock (fun w =>
    (Ret tt, set_active_workflows
               (dict_set execution_id workflow (active_workflows w))
               (set_trace (trace w ++ [EvRegister execution_id workflow]) w))).

(** The [try] block after [workflow] has been assigned. *)
Definition after_submission (execution_id : string) (wait : bool)
           (timeout_seconds : Z) (workflow : nat) : M unit :=
  register execution_id workflow ;;;
  callbacks <- lookup_callbacks execution_id ;;
  fire OnStart execution_id callbacks (Some workflow) None ;;;
  if wait
  then DataformWorkflow.wait_for_completion env fuel workflow 30 timeout_seconds ;;; ret tt
  else ret tt.

(** The [except] block; it returns the incremented retry count. *)
Definition on_failure (execution_id : string) (retries : Z)
           (workflow : option nat) (e : Exn) : M Z :=
  let retries := retries + 1 in
  callbacks <- lookup_callbacks execution_id ;;
  fire OnError execution_id callbacks workflow (Some e) ;;;
  logger_error e ;;;
  (if retries <=? max_retries self
   then logger_info ;;; time_sleep (retry_delay_seconds self)
   else ret tt) ;;;
  ret retries.

Fixpoint retry_loop (iterations : nat) (execution_id : string) (wait : bool)
         (timeout_seconds : Z) (full_refresh : bool)
         (retries : Z) (workflow : option nat) : M unit :=
  match iterations with
  | O => diverge
  | S iterations' =>
      if retries <=? max_retries self then
        submitted <- catch (DataformService.run_workflow env (config self) fuel
                              (Some execution_id) false timeout_seconds full_refresh) ;;
        match submitted with
        | inl e =>
            retries <- on_failure execution_id retries workflow e ;;
            retry_loop iterations' execution_id wait timeout_seconds full_refresh
                       retries workflow
        | inr wf =>
            finished <- catch (after_submission execution_id wait timeout_seconds wf) ;;
            match finished with
            | inl e =>
                retries <- on_failure execution_id retries (Some wf) e ;;
                retry_loop iterations' execution_id wait timeout_seconds full_refresh
                           retries (Some wf)
            | inr _ => ret tt
            end
        end
      else ret tt
  end.

(** Every iteration but the last increases [retries], which starts at 0:
    [max_retries + 1] iterations and the final test suffice. *)
Definition _run_workflow_with_retry (execution_id : string) (wait : bool)
           (timeout_seconds : Z) (full_refresh : bool) : M unit :=
  retry_loop (S (Z.to_nat (max_retries self + 1))) execution_id wait
             timeout_seconds full_refresh 0 None.

(** *** Public operations *)

Definition executor_submit (task : Task) : M unit :=
  fun w => (Ret tt, set_executor_queue (executor_queue w ++ [task]) w).

Definition run_task (task : Task) : M unit :=
  _run_workflow_with_retry (task_execution_id task) (task_wait task)
                           (task_timeout_seconds task) (task_full_refresh task).

Definition run_workflow (execution_id : option string) (wait : bool)
           (timeout_seconds : Z) (full_refresh : bool)
           (on_start on_complete on_error : option Callback) : M string :=
  execution_id <-
    match execution_id with
    | Some i => if DataformService.truthy execution_id then ret i
                else now <- time_time ;;
                     ret ("workflow-" +:+ pretty now +:+ "-" +:+ pretty (object_id self))
    | None => now <- time_time ;;
              ret ("workflow-" +:+ pretty now +:+ "-" +:+ pretty (object_id self))
    end ;;
  (fun w => (Ret tt, set_workflow_callbacks
                       (<[execution_id := mkCallbacks on_start on_complete on_error]>
                          (workflow_callbacks w)) w)) ;;;
  executor_submit (mkTask execution_id wait timeout_seconds full_refresh) ;;;
  ret execution_id.

Definition get_workflow (execution_id : string) : M (option nat) :=
  with_lock (fun w => (Ret (dict_get execution_id (active_workflows w)), w)).

Definition get_all_workflows : M (list nat) :=
  with_lock (fun w => (Ret (List.map snd (active_workflows w)), w)).




End WithManager.

End WorkflowManager.

(** ** Vocabulary of the properties *)

(** Every answer of the remote is an invocation that has not finished. *)
Definition never_terminal (env : Env) : Prop :=
  forall k n, exists wi,
    get_workflow_invocation env k n = inr wi
    /\ wi_state wi ∉ DataformWorkflow.terminal_states.

(** The events of one unsuccessful polling iteration, in order: the
    refresh, the refresh made by the completion test, the log line, the
    sleep. *)
Definition polling_iteration (poll_interval_seconds : Z) (evs : list Event) : Prop :=
  exists n n', evs = [EvGet n; EvGet n'; EvLogInfo; EvSleep poll_interval_seconds].

(** *** Counting and classifying events *)

Definition count_events (q : Event -> bool) (t : list Event) : nat :=
  length (List.filter q t).

Definition is_callback (r : Role) (e : Event) : bool :=
  match e with
  | EvCallback r' _ _ _ _ => bool_decide (r' = r)
  | _ => false
  end.

Definition count_role (r : Role) : list Event -> nat := count_events (is_callback r).

Definition is_get (e : Event) : bool :=
  match e with EvGet _ => true | _ => false end.

Definition is_remote (e : Event) : bool :=
  match e with EvCompile _ | EvInvoke _ | EvGet _ => true | _ => false end.

(** What a polling loop may emit. *)
Definition polling_event (e : Event) : bool :=
  match e with EvGet _ | EvLogInfo | EvSleep _ => true | _ => false end.

(** What a non-blocking run of the service may emit. *)
Definition submission_event (e : Event) : bool :=
  match e with
  | EvServiceRun _ false _ _ | EvCompile _ | EvInvoke _ => true
  | _ => false
  end.

(** No call of the service asks it to wait. *)
Definition nonblocking_submission (e : Event) : bool :=
  match e with EvServiceRun _ wait _ _ => negb wait | _ => true end.

(** What the body of the poller's critical section may emit. *)
Definition poller_event (e : Event) : bool :=
  match e with
  | EvGet _ | EvCallback OnComplete _ _ _ _ | EvLogError _ | EvEvict _ => true
  | _ => false
  end.

(** What a worker may emit while it does not hold the lock. *)
Definition worker_event (e : Event) : bool :=
  match e with
  | EvAcquire | EvRelease | EvRegister _ _ | EvEvict _ => false
  | EvServiceRun _ wait _ _ => negb wait
  | EvCallback OnComplete _ _ _ _ => false
  | _ => true
  end.

(** The events of a worker for [execution_id] come in blocks: a block is
    one event emitted while the lock is free, or the write of the worker's
    own entry of the registry with the acquire before it and the release
    after it.  In a sequence of such blocks the lock is held exactly while
    the registry is written. *)
Definition worker_block (execution_id : string) (evs : list Event) : Prop :=
  (exists e, evs = [e] /\ worker_event e = true)
  \/ (exists workflow, evs = [EvAcquire; EvRegister execution_id workflow; EvRelease]).

Definition worker_blocks (execution_id : string) (evs : list Event) : Prop :=
  exists blocks, evs = concat blocks /\ Forall (worker_block execution_id) blocks.

(** *** Effects of a computation, as a relation between worlds *)

Definition respects (R : World -> World -> Prop) {A} (m : M A) : Prop :=
  forall w, R w (snd (m w)).

(** The trace grows by a sequence of events that satisfies [P]. *)
Definition emits (P : list Event -> Prop) (w w' : World) : Prop :=
  exists evs, trace w' = trace w ++ evs /\ P evs.

Definition all_events (q : Event -> bool) (evs : list Event) : Prop :=
  forallb q evs = true.

(** The registry is untouched and the trace grows by events in [q]. *)
Definition quiet_step (q : Event -> bool) (w w' : World) : Prop :=
  workflow_callbacks w' = workflow_callbacks w
  /\ active_workflows w' = active_workflows w
  /\ emits (all_events q) w w'.

(** *** Lock discipline on a sequence of events *)

(** The lock is not reentrant; [permitted held e] tells whether [e] may
    happen while the lock is, or is not, held.  The scan yields the final
    state of the lock, or nothing when the discipline is broken. *)
Definition lock_step (permitted : bool -> Event -> bool) (st : option bool) (e : Event)
  : option bool :=
  match st with
  | None => None
  | Some held =>
      match e with
      | EvAcquire => if held then None else Some true
      | EvRelease => if held then Some false else None
      | _ => if permitted held e then Some held else None
      end
  end.

Definition lock_scan (permitted : bool -> Event -> bool) (held : bool) (evs : list Event)
  : option bool :=
  fold_left (lock_step permitted) evs (Some held).

(** Remote calls happen only while the lock is free. *)
Definition remote_outside_lock (held : bool) (e : Event) : bool :=
  negb (held && is_remote e).

(** Remote calls happen only while the lock is held. *)
Definition remote_inside_lock (held : bool) (e : Event) : bool :=
  held || negb (is_remote e).

(** The events start and end with the lock free and keep the discipline. *)
Definition disciplined (permitted : bool -> Event -> bool) (evs : list Event) : Prop :=
  lock_scan permitted false evs = Some false.

(** The discipline of a worker for [execution_id]: while the lock is held
    nothing happens but the write of the worker's own entry; the registry is
    not written, and nothing of the poller happens, while it is free. *)
Definition worker_lock_discipline (execution_id : string) (held : bool) (e : Event)
  : bool :=
  if held
  then match e with
       | EvRegister i _ => String.eqb i execution_id
       | _ => false
       end
  else worker_event e.

(** The event of the on_start callback registered for an execution, if
    there is one. *)
Definition started (execution_id : string) (w : World) (wf : nat) : list Event :=
  match workflow_callbacks w !! execution_id ≫= on_start with
  | Some cb => [EvCallback OnStart execution_id cb (Some wf) None]
  | None => []
  end.

(** [c in s] *)
Fixpoint str_contains (c : Ascii.ascii) (s : string) : bool :=
  match s with
  | EmptyString => false
  | String c' rest => Ascii.eqb c' c || str_contains c rest
  end.

(** The operations of a handle touch its snapshot, the clock, the call
    counter and the trace, and nothing else. *)
Definition handle_step (w w' : World) : Prop :=
  next_ref w' = next_ref w
  /\ latest_workflow w' = latest_workflow w
  /\ active_workflows w' = active_workflows w
  /\ workflow_callbacks w' = workflow_callbacks w
  /\ executor_queue w' = executor_queue w.

Definition is_service_run (e : Event) : bool :=
  match e with EvServiceRun _ _ _ _ => true | _ => false end.

(** The lengths of the sleeps recorded in a trace, in order. *)
Definition sleep_length (e : Event) : option Z :=
  match e with EvSleep secs => Some secs | _ => None end.

Definition sleeps (t : list Event) : list Z := omap sleep_length t.

(** The keys of the registry, in the order of the dict. *)
Definition registry_keys (w : World) : list string := List.map fst (active_workflows w).

(** What a worker for [execution_id] may do to the tables of the manager:
    it leaves the callbacks alone, touches no entry of another id, removes
    none of its own, keeps the keys of the registry distinct, and runs the
    service only through the calls counted apart. *)
Definition worker_step (execution_id : string) (w w' : World) : Prop :=
  workflow_callbacks w' = workflow_callbacks w
  /\ (forall j, j <> execution_id ->
        WorkflowManager.dict_get j (active_workflows w')
        = WorkflowManager.dict_get j (active_workflows w))
  /\ (is_Some (WorkflowManager.dict_get execution_id (active_workflows w)) ->
      is_Some (WorkflowManager.dict_get execution_id (active_workflows w')))
  /\ (NoDup (registry_keys w) -> NoDup (registry_keys w')).

Definition quiet_worker_step (execution_id : string) (w w' : World) : Prop :=
  worker_step execution_id w w'
  /\ emits (all_events (fun e => negb (is_service_run e))) w w'.

(** The on_error callback registered for [execution_id], when there is one,
    returns normally. *)
Definition on_error_returns (execution_id : string) (w : World) : Prop :=
  forall cbs cb,
    workflow_callbacks w !! execution_id = Some cbs ->
    on_error cbs = Some cb ->
    cb_raises cb = None.

(** What a pass of the poller emits when it finds nothing finished. *)
Definition idle_pass_event (e : Event) : bool :=
  match e with EvGet _ | EvLogError _ => true | _ => false end.

(** ** Concrete scenarios used to exercise the model *)

Module Scenario.

Definition snapshot (n : string) (st : State) : WorkflowInvocation :=
  mkInvocation n "compilationResults/1" st None.

Definition timed_snapshot (n : string) (st : State) (s e : option Timestamp)
  : WorkflowInvocation :=
  mkInvocation n "compilationResults/1" st (Some (mkTiming s e)).

(** A remote whose invocations all stay in state [st]. *)
Definition remote_in (st : State) : Env :=
  mkEnv (fun _ n => inr (snapshot n st))
        (fun _ _ => inr "compilationResults/1"%string)
        (fun _ _ => inr (snapshot "workflowInvocations/1" st))
        (fun _ => 0).

(** A remote that rejects every compilation and knows no invocation. *)
Definition remote_down : Env :=
  mkEnv (fun _ _ => inl NotFound)
        (fun _ _ => inl RemoteUnavailable)
        (fun _ _ => inl RemoteRejected)
        (fun _ => 0).

(** A remote that answers a request for "a" with the invocation "b". *)
Definition remote_renaming : Env :=
  mkEnv (fun _ n => if String.eqb n "a" then inr (snapshot "b" RUNNING)
                    else inr (snapshot n SUCCEEDED))
        (fun _ _ => inr "compilationResults/1"%string)
        (fun _ _ => inr (snapshot "a" RUNNING))
        (fun _ => 0).

(** A process holding one handle, object 0, on invocation [n]. *)
Definition world_with (wi : WorkflowInvocation) : World :=
  mkWorld 0 0 [] (fun _ => wi) 1 None [] ∅ [].

Definition world0 : World := world_with (snapshot "workflowInvocations/1" RUNNING).

Definition test_config : DataformConfig.t :=
  DataformConfig.init "test-project" (Some "us-central1"%string)
                      (Some "test-repo"%string) None.

Definition manager (retries : Z) : WorkflowManager.t :=
  WorkflowManager.mk test_config retries 30 2 77.

Definition quiet (label : string) : Callback := mkCallback label None.

(** The process after object 0 was registered as "job" with callbacks. *)
Definition world_registered : World :=
  set_workflow_callbacks
    {[ "job"%string := mkCallbacks (Some (quiet "start")) (Some (quiet "complete"))
                                   (Some (quiet "error")) ]}
    (set_active_workflows [("job"%string, 0%nat)] world0).

(** A callback that raises. *)
Definition faulty (label : string) : Callback := mkCallback label (Some label).

(** The first answer of the remote is a failure, the later ones are
    finished invocations. *)
Definition remote_recovering : Env :=
  mkEnv (fun k n => if (k <? 1)%nat then inl RemoteUnavailable
                    else inr (snapshot n SUCCEEDED))
        (fun _ _ => inr "compilationResults/1"%string)
        (fun _ _ => inr (snapshot "workflowInvocations/1" RUNNING))
        (fun _ => 0).

(** Two registered handles, objects 0 and 1, with their callbacks. *)
Definition world_two_registered : World :=
  set_workflow_callbacks
    {[ "first"%string := mkCallbacks None (Some (quiet "first done")) None;
       "second"%string := mkCallbacks None (Some (quiet "second done")) None ]}
    (set_active_workflows [("first"%string, 0%nat); ("second"%string, 1%nat)] world0).

(** A finished invocation that started at 100.25 s and ended at
    160.25 s. *)
Definition world_timed : World :=
  world_with (timed_snapshot "workflowInvocations/1" SUCCEEDED
                (Some (mkTimestamp 100 250000000)) (Some (mkTimestamp 160 250000000))).

(** The process after "job" was submitted with an on_error callback that
    raises. *)
Definition world_faulty_on_error : World :=
  set_workflow_callbacks
    {[ "job"%string := mkCallbacks None None (Some (faulty "boom")) ]} world0.

End Scenario.

(** * Properties *)

(** ** Reasoning about the monad *)

Lemma bind_ret_eq {A B} (m : M A) (k : A -> M B) w a w1 :
  m w = (Ret a, w1) -> bind m k w = k a w1.
Proof. intros H. unfold bind. now rewrite H. Qed.

Lemma bind_raise_eq {A B} (m : M A) (k : A -> M B) w e w1 :
  m w = (Raise e, w1) -> bind m k w = (Raise e, w1).
Proof. intros H. unfold bind. now rewrite H. Qed.

Lemma bind_diverge_eq {A B} (m : M A) (k : A -> M B) w w1 :
  m w = (Diverge, w1) -> bind m k w = (Diverge, w1).
Proof. intros H. unfold bind. now rewrite H. Qed.

(** ** The configuration *)

(** C8: the repository URI is the concatenation
    projects/{projectId}/locations/{location}/repositories/{repoName}, that
    is, the six segments joined by a slash; for project "test-project",
    location "us-central1" and repository "test-repo" it is
    "projects/test-project/locations/us-central1/repositories/test-repo". *)
Theorem repo_uri_concatenation :
  (forall cfg : DataformConfig.t,
      DataformConfig.repo_uri cfg =
      ("projects/" +:+ DataformConfig.project_id cfg +:+ "/locations/"
         +:+ DataformConfig.location cfg +:+ "/repositories/"
         +:+ DataformConfig.repo_name cfg)%string
      /\ DataformConfig.repo_uri cfg =
         String.concat "/" ["projects"; DataformConfig.project_id cfg;
                            "locations"; DataformConfig.location cfg;
                            "repositories"; DataformConfig.repo_name cfg]%string)
  /\ DataformConfig.repo_uri
       (DataformConfig.init "test-project" (Some "us-central1") (Some "test-repo") None)
     = "projects/test-project/locations/us-central1/repositories/test-repo"%string.
Proof.
  split; [intros cfg; split|]; reflexivity.
Qed.

(** ** The workflow handle *)

Section Handle.
Variable env : Env.

Lemma refresh_eq self w :
  DataformWorkflow.refresh env self w =
  let w1 := charge (EvGet (wi_name (heap w self))) (latency env (ncalls w)) w in
  match get_workflow_invocation env (ncalls w) (wi_name (heap w self)) with
  | inl r => (Raise (Remote r), w1)
  | inr wi => (Ret self, set_heap (<[self := wi]> (heap w)) w1)
  end.
Proof.
  unfold DataformWorkflow.refresh, DataformWorkflow.name,
    DataformWorkflow.client_get_workflow_invocation, remote_call, bind.
  destruct (get_workflow_invocation env (ncalls w) (wi_name (heap w self))); reflexivity.
Qed.

Lemma is_complete_eq self w :
  DataformWorkflow.is_complete env self w =
  let w1 := charge (EvGet (wi_name (heap w self))) (latency env (ncalls w)) w in
  match get_workflow_invocation env (ncalls w) (wi_name (heap w self)) with
  | inl r => (Raise (Remote r), w1)
  | inr wi => (Ret (bool_decide (wi_state wi ∈ DataformWorkflow.terminal_states)),
               set_heap (<[self := wi]> (heap w)) w1)
  end.
Proof.
  unfold DataformWorkflow.is_complete, bind. rewrite refresh_eq. cbv zeta.
  destruct (get_workflow_invocation env (ncalls w) (wi_name (heap w self))); cbn;
    [reflexivity|].
  now rewrite fn_lookup_insert.
Qed.

Lemma terminal_states_spec (s : State) :
  s ∈ DataformWorkflow.terminal_states <-> s = SUCCEEDED \/ s = FAILED \/ s = CANCELLED.
Proof.
  unfold DataformWorkflow.terminal_states.
  rewrite !elem_of_cons, elem_of_nil. tauto.
Qed.

End Handle.

(** C7: is_complete refreshes the handle and returns true exactly when the
    state of the snapshot it fetched is SUCCEEDED, FAILED or CANCELLED; it
    returns false for PENDING and RUNNING. *)
Theorem is_complete_iff_terminal (env : Env) (self : nat) (w : World)
        (snapshot : WorkflowInvocation)
        (Hfetch : get_workflow_invocation env (ncalls w) (wi_name (heap w self))
                  = inr snapshot) :
  exists b w',
    DataformWorkflow.is_complete env self w = (Ret b, w')
    /\ heap w' self = snapshot
    /\ (b = true <-> wi_state snapshot = SUCCEEDED \/ wi_state snapshot = FAILED
                     \/ wi_state snapshot = CANCELLED)
    /\ (wi_state snapshot = PENDING \/ wi_state snapshot = RUNNING -> b = false).
Proof.
  rewrite is_complete_eq, Hfetch. cbv zeta.
  eexists _, _. split; [reflexivity|]. split; [cbn; apply fn_lookup_insert|].
  split.
  - rewrite bool_decide_eq_true. apply terminal_states_spec.
  - intros H. apply bool_decide_eq_false. rewrite terminal_states_spec.
    destruct H as [H|H]; rewrite H; intuition discriminate.
Qed.

(** C9: two refreshes in a row, against a remote that answers the second
    call as the first and names each invocation as it was requested, end
    alike and leave the same snapshot in the handle. *)
Theorem refresh_idempotent (env : Env) (self : nat) (w : World)
        (Hunchanged : forall n, get_workflow_invocation env (S (ncalls w)) n
                                = get_workflow_invocation env (ncalls w) n)
        (Hnamed : forall n wi, get_workflow_invocation env (ncalls w) n = inr wi ->
                               wi_name wi = n) :
  exists r w1 w2,
    DataformWorkflow.refresh env self w = (r, w1)
    /\ DataformWorkflow.refresh env self w1 = (r, w2)
    /\ heap w2 self = heap w1 self
    /\ (forall wi, get_workflow_invocation env (ncalls w) (wi_name (heap w self)) = inr wi ->
                   r = Ret self /\ heap w1 self = wi).
Proof.
  rewrite refresh_eq. cbv zeta.
  destruct (get_workflow_invocation env (ncalls w) (wi_name (heap w self)))
    as [r|wi] eqn:Hget.
  - eexists _, _, _. split; [reflexivity|].
    rewrite refresh_eq. cbn. rewrite Hunchanged, Hget.
    split; [reflexivity|]. split; [reflexivity|]. intros wi; discriminate.
  - eexists _, _, _. split; [reflexivity|].
    rewrite refresh_eq. cbn. rewrite fn_lookup_insert, (Hnamed _ _ Hget), Hunchanged, Hget.
    split; [reflexivity|]. cbn. rewrite !fn_lookup_insert.
    split; [reflexivity|]. intros wi' [= <-]. auto.
Qed.

Lemma refresh_idempotent_witness :
  (forall n, get_workflow_invocation (Scenario.remote_in RUNNING)
               (S (ncalls Scenario.world0)) n
             = get_workflow_invocation (Scenario.remote_in RUNNING)
                 (ncalls Scenario.world0) n)
  /\ exists r w1 w2,
      DataformWorkflow.refresh (Scenario.remote_in RUNNING) 0 Scenario.world0 = (r, w1)
      /\ DataformWorkflow.refresh (Scenario.remote_in RUNNING) 0 w1 = (r, w2)
      /\ heap w2 0%nat = heap w1 0%nat
      /\ (forall wi, get_workflow_invocation (Scenario.remote_in RUNNING)
                       (ncalls Scenario.world0) (wi_name (heap Scenario.world0 0%nat))
                     = inr wi ->
                     r = Ret 0%nat /\ heap w1 0%nat = wi).
Proof.
  split; [reflexivity|].
  apply (refresh_idempotent (Scenario.remote_in RUNNING) 0 Scenario.world0).
  - reflexivity.
  - intros n wi H. cbn in H. injection H as <-. reflexivity.
Defined.

Lemma is_complete_iff_terminal_witness :
  get_workflow_invocation (Scenario.remote_in SUCCEEDED) (ncalls Scenario.world0)
    (wi_name (heap Scenario.world0 0%nat))
  = inr (Scenario.snapshot "workflowInvocations/1" SUCCEEDED)
  /\ exists b w',
      DataformWorkflow.is_complete (Scenario.remote_in SUCCEEDED) 0 Scenario.world0
      = (Ret b, w')
      /\ heap w' 0%nat = Scenario.snapshot "workflowInvocations/1" SUCCEEDED
      /\ (b = true <-> SUCCEEDED = SUCCEEDED \/ SUCCEEDED = FAILED \/ SUCCEEDED = CANCELLED)
      /\ (SUCCEEDED = PENDING \/ SUCCEEDED = RUNNING -> b = false).
Proof.
  split; [reflexivity|].
  exact (is_complete_iff_terminal (Scenario.remote_in SUCCEEDED) 0 Scenario.world0
           (Scenario.snapshot "workflowInvocations/1" SUCCEEDED) eq_refl).
Defined.

(** Without the naming contract the second refresh asks for another
    invocation, and the snapshots differ. *)
Example refresh_under_renaming_remote :
  let w := Scenario.world_with (Scenario.snapshot "a" RUNNING) in
  let w1 := snd (DataformWorkflow.refresh Scenario.remote_renaming 0 w) in
  let w2 := snd (DataformWorkflow.refresh Scenario.remote_renaming 0 w1) in
  wi_state (heap w1 0%nat) = RUNNING /\ wi_state (heap w2 0%nat) = SUCCEEDED.
Proof. split; reflexivity. Qed.

(** The accessors in closed form: each returns a value read from the stored
    snapshot and the world it was given. *)
Lemma start_time_eq (self : nat) (w : World) :
  DataformWorkflow.start_time self w
  = (Ret ((fun t => DataformWorkflow.mkTimeDict (seconds t) (nanos t))
            <$> (wi_invocation_timing (heap w self) ≫= timing_start_time)), w).
Proof.
  unfold DataformWorkflow.start_time.
  destruct (wi_invocation_timing (heap w self)) as [[[s|] e]|]; reflexivity.
Qed.

Lemma end_time_eq (self : nat) (w : World) :
  DataformWorkflow.end_time self w
  = (Ret ((fun t => DataformWorkflow.mkTimeDict (seconds t) (nanos t))
            <$> (wi_invocation_timing (heap w self) ≫= timing_end_time)), w).
Proof.
  unfold DataformWorkflow.end_time.
  destruct (wi_invocation_timing (heap w self)) as [[s [e|]]|]; reflexivity.
Qed.

(** The outcome of the arithmetic of [duration_seconds] on two
    timestamps. *)
Lemma duration_seconds_eq (self : nat) (w : World) :
  DataformWorkflow.duration_seconds self w
  = (match wi_invocation_timing (heap w self) ≫= timing_start_time,
           wi_invocation_timing (heap w self) ≫= timing_end_time with
     | Some s, Some e =>
         match PyFloat.of_int (seconds e - seconds s),
               PyFloat.of_int (nanos e - nanos s) with
         | Some whole, Some part =>
             Ret (Some (PyFloat.add whole (PyFloat.div part PyFloat.lit_1e9)))
         | _, _ => Raise OverflowError
         end
     | _, _ => Ret None
     end, w).
Proof.
  unfold DataformWorkflow.duration_seconds.
  rewrite (bind_ret_eq _ _ _ _ _ (start_time_eq self w)).
  rewrite (bind_ret_eq _ _ _ _ _ (end_time_eq self w)).
  destruct (wi_invocation_timing (heap w self)) as [[[s|] [e|]]|]; try reflexivity.
  cbn. unfold float_of_int, bind, ret, raise.
  destruct (PyFloat.of_int (nanos e - nanos s));
    destruct (PyFloat.of_int (seconds e - seconds s)); reflexivity.
Qed.

(** *** Converting an int that has at most 53 bits *)

Lemma digits2_pos_iter p k :
  digits2_pos (Pos.iter xO p k) = (digits2_pos p + k)%positive.
Proof.
  induction k as [|k IH] using Pos.peano_ind.
  - cbn. now rewrite Pos.add_1_r.
  - rewrite Pos.iter_succ. cbn [digits2_pos]. rewrite IH. lia.
Qed.

Lemma Zpos_iter_xO p k : Zpos (Pos.iter xO p k) = Zpos p * 2 ^ Zpos k.
Proof.
  induction k as [|k IH] using Pos.peano_ind.
  - cbn. lia.
  - rewrite Pos.iter_succ, Pos2Z.inj_xO, IH, Pos2Z.inj_succ, Z.pow_succ_r by lia. lia.
Qed.

Lemma digits2_pos_bounds p :
  2 ^ (Zpos (digits2_pos p) - 1) <= Zpos p < 2 ^ Zpos (digits2_pos p).
Proof.
  induction p as [p IH|p IH|]; cbn [digits2_pos]; [| |cbn; lia];
    rewrite Pos2Z.inj_succ;
    replace (Z.succ (Zpos (digits2_pos p)) - 1) with (Z.succ (Zpos (digits2_pos p) - 1))
      by lia;
    rewrite !Z.pow_succ_r by lia; lia.
Qed.

(** A mantissa that already has the exponent of its format is not
    rounded. *)
Lemma binary_round_aux_canonical sx m e :
  fexp PyFloat.prec PyFloat.emax (Zpos (digits2_pos m) + e) = e ->
  e <= 971 ->
  binary_round_aux PyFloat.prec PyFloat.emax sx (Zpos m) e loc_Exact = S754_finite sx m e.
Proof.
  intros Hcan He. unfold binary_round_aux, shr_fexp.
  cbn [Zdigits2 shr_record_of_loc]. rewrite Hcan, Z.sub_diag.
  cbn [shr shr_m loc_of_shr_record round_nearest_even Zdigits2 shr_record_of_loc].
  rewrite Hcan, Z.sub_diag. cbn [shr shr_m].
  replace (e <=? PyFloat.emax - PyFloat.prec) with true; [reflexivity|].
  symmetry. apply Z.leb_le. unfold PyFloat.emax, PyFloat.prec. lia.
Qed.

Lemma binary_round_small sx p :
  Zpos p < 2 ^ 53 ->
  exists m e,
    binary_round PyFloat.prec PyFloat.emax sx p 0 = S754_finite sx m e
    /\ e <= 0 /\ Zpos p * 2 ^ (- e) = Zpos m.
Proof.
  intros Hsmall.
  pose proof (digits2_pos_bounds p) as [Hlow _].
  assert (Hd : Zpos (digits2_pos p) <= 53).
  { destruct (Z_le_gt_dec (Zpos (digits2_pos p)) 53) as [H|H]; [exact H|].
    assert (2 ^ 53 <= 2 ^ (Zpos (digits2_pos p) - 1)) by (apply Z.pow_le_mono_r; lia).
    lia. }
  assert (Hfexp : fexp PyFloat.prec PyFloat.emax (Zpos (digits2_pos p) + 0)
                  = Zpos (digits2_pos p) - 53).
  { unfold fexp, emin, PyFloat.prec, PyFloat.emax. lia. }
  unfold binary_round. rewrite Hfexp. unfold shl_align.
  destruct (Zpos (digits2_pos p) - 53 - 0) as [|k|k] eqn:Hk; [|lia|].
  - exists p, 0. split; [|lia].
    apply binary_round_aux_canonical; [|lia]. rewrite Hfexp. lia.
  - exists (Pos.iter xO p k), (Zpos (digits2_pos p) - 53).
    split; [|split; [lia|]].
    + apply binary_round_aux_canonical; [|lia].
      rewrite digits2_pos_iter. unfold fexp, emin, PyFloat.prec, PyFloat.emax. lia.
    + rewrite Zpos_iter_xO. f_equal. f_equal. lia.
Qed.

(** An int below 2^53 in absolute value converts without rounding, and
    without an error. *)
Lemma of_int_exact z :
  Z.abs z < 2 ^ 53 -> exists f, PyFloat.of_int z = Some f /\ PyFloat.is_int f z.
Proof.
  intros Hz. unfold PyFloat.of_int. destruct z as [|p|p]; cbn [binary_normalize].
  - exists (S754_zero false). repeat split.
  - destruct (binary_round_small false p Hz) as (m & e & -> & He & Hm).
    eexists. split; [reflexivity|]. cbn. auto.
  - destruct (binary_round_small true p Hz) as (m & e & -> & He & Hm).
    eexists. split; [reflexivity|]. cbn. auto.
Qed.

Lemma lit_1e9_is_int :
  PyFloat.of_int 1000000000 = Some PyFloat.lit_1e9
  /\ PyFloat.is_int PyFloat.lit_1e9 1000000000.
Proof. split; [reflexivity|]. cbn. repeat split; lia. Qed.

(** C6: duration_seconds is none whenever the start or the end timestamp
    is absent from the snapshot; when both are present it is
    (end.seconds - start.seconds) + (end.nanos - start.nanos) / 1e9, as
    Python computes it: the two differences are ints, the quotient and the
    sum are those of the floats, each rounded to the nearest float, and 1e9
    is 1000000000.  A difference that is too large to convert raises
    OverflowError; differences below 2^53 in absolute value, as those of
    valid timestamps are, convert without rounding and nothing is raised.
    The snapshot is only read. *)
Theorem duration_seconds_spec (self : nat) (w : World) :
  let start := wi_invocation_timing (heap w self) ≫= timing_start_time in
  let finish := wi_invocation_timing (heap w self) ≫= timing_end_time in
  exists r,
    DataformWorkflow.duration_seconds self w = (r, w)
    /\ (start = None \/ finish = None -> r = Ret None)
    /\ (forall s e, start = Some s -> finish = Some e ->
         r = match PyFloat.of_int (seconds e - seconds s),
                   PyFloat.of_int (nanos e - nanos s) with
             | Some whole, Some part =>
                 Ret (Some (PyFloat.add whole (PyFloat.div part PyFloat.lit_1e9)))
             | _, _ => Raise OverflowError
             end)
    /\ (forall s e, start = Some s -> finish = Some e ->
         Z.abs (seconds e - seconds s) < 2 ^ 53 ->
         Z.abs (nanos e - nanos s) < 2 ^ 53 ->
         exists whole part,
           PyFloat.is_int whole (seconds e - seconds s)
           /\ PyFloat.is_int part (nanos e - nanos s)
           /\ r = Ret (Some (PyFloat.add whole (PyFloat.div part PyFloat.lit_1e9))))
    /\ PyFloat.is_int PyFloat.lit_1e9 1000000000.
Proof.
  cbv zeta. rewrite duration_seconds_eq. eexists. split; [reflexivity|].
  split; [|split; [|split; [|apply lit_1e9_is_int]]].
  - intros [->| ->]; [reflexivity|].
    now destruct (wi_invocation_timing (heap w self) ≫= timing_start_time).
  - intros s e -> ->. reflexivity.
  - intros s e -> -> Hs Hn.
    destruct (of_int_exact _ Hs) as (whole & -> & Hwhole).
    destruct (of_int_exact _ Hn) as (part & -> & Hpart).
    exists whole, part. auto.
Qed.

(** From 10.5 s to 12 s: 2 + (-0.5) is 1.5, which is 3 * 2^51 * 2^-52. *)
Example duration_seconds_example :
  let w := Scenario.world_with
             (Scenario.timed_snapshot "workflowInvocations/1" SUCCEEDED
                (Some (mkTimestamp 10 500000000)) (Some (mkTimestamp 12 0))) in
  fst (DataformWorkflow.duration_seconds 0 w)
  = Ret (Some (S754_finite false 6755399441055744 (-52))).
Proof. vm_compute. reflexivity. Qed.

(** The quotient is rounded before the sum is: from 0.999999999 s to 1 s the
    result is 4835703141695488 * 2^-82, about 9.999999717e-10, and not the
    float nearest to 1e-9, which is 1 / 1e9. *)
Example duration_seconds_rounds_twice :
  let w := Scenario.world_with
             (Scenario.timed_snapshot "workflowInvocations/1" SUCCEEDED
                (Some (mkTimestamp 0 999999999)) (Some (mkTimestamp 1 0))) in
  fst (DataformWorkflow.duration_seconds 0 w)
  = Ret (Some (S754_finite false 4835703141695488 (-82)))
  /\ PyFloat.div (S754_finite false 4503599627370496 (-52)) PyFloat.lit_1e9
     = S754_finite false 4835703278458517 (-82).
Proof. vm_compute. split; reflexivity. Qed.

(** A difference of the seconds beyond the range of the floats. *)
Example duration_seconds_overflow :
  let w := Scenario.world_with
             (Scenario.timed_snapshot "workflowInvocations/1" SUCCEEDED
                (Some (mkTimestamp 0 0)) (Some (mkTimestamp (2 ^ 1024) 0))) in
  DataformWorkflow.duration_seconds 0 w = (Raise OverflowError, w).
Proof. vm_compute. reflexivity. Qed.

(** ** Waiting for completion *)

Section Waiting.
Variable env : Env.
Variables (self : nat) (poll timeout start : Z).

Lemma time_sleep_eq secs w :
  0 <= secs ->
  time_sleep secs w = (Ret tt, set_clock (clock w + secs) (set_trace (trace w ++ [EvSleep secs]) w)).
Proof.
  intros H. unfold time_sleep. destruct (secs <? 0) eqn:E; [lia|reflexivity].
Qed.

Lemma wait_loop_S fuel w :
  DataformWorkflow.wait_loop env (S fuel) self poll timeout start w =
  if clock w - start <? timeout then
    match DataformWorkflow.refresh env self w with
    | (Ret _, w1) =>
        match DataformWorkflow.is_complete env self w1 with
        | (Ret true, w2) => (Ret self, w2)
        | (Ret false, w2) =>
            match time_sleep poll (set_trace (trace w2 ++ [EvLogInfo]) w2) with
            | (Ret _, w3) => DataformWorkflow.wait_loop env fuel self poll timeout start w3
            | (Raise e, w3) => (Raise e, w3)
            | (Diverge, w3) => (Diverge, w3)
            end
        | (Raise e, w2) => (Raise e, w2)
        | (Diverge, w2) => (Diverge, w2)
        end
    | (Raise e, w1) => (Raise e, w1)
    | (Diverge, w1) => (Diverge, w1)
    end
  else (Raise (TimeoutError timeout), w).
Proof.
  cbn [DataformWorkflow.wait_loop]. unfold bind at 1. unfold time_time.
  destruct (clock w - start <? timeout); [|reflexivity].
  unfold bind at 1.
  destruct (DataformWorkflow.refresh env self w) as [[?| |] w1]; try reflexivity.
  unfold bind at 1.
  destruct (DataformWorkflow.is_complete env self w1) as [[[|]| |] w2]; try reflexivity.
Qed.

Lemma wait_loop_timeout_late fuel : forall w t w',
  DataformWorkflow.wait_loop env fuel self poll timeout start w
  = (Raise (TimeoutError t), w') ->
  t = timeout /\ timeout <= clock w' - start.
Proof.
  induction fuel as [|fuel IH]; intros w t w'; [discriminate|].
  rewrite wait_loop_S.
  destruct (clock w - start <? timeout) eqn:Hnow.
  - rewrite refresh_eq. cbv zeta.
    destruct (get_workflow_invocation env (ncalls w) (wi_name (heap w self)));
      [discriminate|].
    rewrite is_complete_eq. cbv zeta.
    match goal with |- context [get_workflow_invocation env ?k ?n] =>
      destruct (get_workflow_invocation env k n) end; [discriminate|].
    destruct (bool_decide _); [discriminate|].
    unfold time_sleep. destruct (poll <? 0); [discriminate|]. apply IH.
  - apply Z.ltb_ge in Hnow. intros [= <- <-]. auto.
Qed.

Variable L : Z.
Hypothesis Hrunning : never_terminal env.
Hypothesis Hpoll : 1 <= poll.
Hypothesis Hlat : forall k, 0 <= latency env k <= L.

Lemma wait_loop_running fuel : forall w,
  (Z.to_nat (timeout - (clock w - start)) < fuel)%nat ->
  exists w' blocks,
    DataformWorkflow.wait_loop env fuel self poll timeout start w
    = (Raise (TimeoutError timeout), w')
    /\ trace w' = trace w ++ concat blocks
    /\ Forall (polling_iteration poll) blocks
    /\ timeout <= clock w' - start
    /\ (clock w' = clock w \/ clock w' - start < timeout + poll + 2 * L).
Proof.
  induction fuel as [|fuel IH]; intros w Hfuel; [lia|].
  rewrite wait_loop_S.
  destruct (clock w - start <? timeout) eqn:Hnow.
  - apply Z.ltb_lt in Hnow.
    rewrite refresh_eq. cbv zeta.
    destruct (Hrunning (ncalls w) (wi_name (heap w self))) as (wi1 & -> & _).
    rewrite is_complete_eq. cbn.
    rewrite fn_lookup_insert.
    destruct (Hrunning (S (ncalls w)) (wi_name wi1)) as (wi2 & -> & Hwi2).
    rewrite bool_decide_eq_false_2 by exact Hwi2.
    rewrite time_sleep_eq by lia.
    pose proof (Hlat (ncalls w)). pose proof (Hlat (S (ncalls w))).
    match goal with |- context [DataformWorkflow.wait_loop _ _ _ _ _ _ ?w4] =>
      destruct (IH w4) as (w' & blocks & Hrun & Htr & Hbl & Hlate & Hup) end.
    { cbn. lia. }
    exists w', ([EvGet (wi_name (heap w self)); EvGet (wi_name wi1); EvLogInfo; EvSleep poll] :: blocks).
    split; [exact Hrun|]. cbn in Htr, Hup |- *.
    split; [rewrite Htr, <- !app_assoc; reflexivity|].
    split; [constructor; [eexists _, _; reflexivity|exact Hbl]|].
    split; [exact Hlate|]. right. lia.
  - apply Z.ltb_ge in Hnow. exists w, []. cbn. rewrite app_nil_r.
    repeat split; auto; lia.
Qed.
End Waiting.

(** C2 (as the code has it): each iteration of wait_for_completion first
    refreshes, then tests for a terminal state (a second refresh), and sleeps
    only after an unsuccessful test.  Against a remote whose invocations never
    finish, with a poll interval of at least one time unit and calls that take
    between 0 and [L], the call raises Timeout after a sequence of such
    iterations, no earlier than [timeout_seconds] after it started and less
    than a poll interval and two calls later.  Whatever the remote does,
    Timeout is raised only once the deadline has elapsed. *)
Theorem wait_for_completion_times_out (env : Env) (self : nat)
        (poll_interval_seconds timeout_seconds L : Z) (fuel : nat) (w : World)
        (Hrunning : never_terminal env)
        (Hpoll : 1 <= poll_interval_seconds)
        (Hlat : forall k, 0 <= latency env k <= L)
        (Hfuel : (Z.to_nat timeout_seconds < fuel)%nat) :
  (exists w' blocks,
      DataformWorkflow.wait_for_completion env fuel self poll_interval_seconds
                                           timeout_seconds w
      = (Raise (TimeoutError timeout_seconds), w')
      /\ trace w' = trace w ++ concat blocks
      /\ Forall (polling_iteration poll_interval_seconds) blocks
      /\ timeout_seconds <= clock w' - clock w
      /\ clock w' - clock w < Z.max 0 timeout_seconds + poll_interval_seconds + 2 * L)
  /\ (forall env' fuel' self' poll' timeout' w0 t w1,
         DataformWorkflow.wait_for_completion env' fuel' self' poll' timeout' w0
         = (Raise (TimeoutError t), w1) ->
         t = timeout' /\ timeout' <= clock w1 - clock w0).
Proof.
  split.
  - unfold DataformWorkflow.wait_for_completion, bind, time_time.
    destruct (wait_loop_running env self poll_interval_seconds timeout_seconds (clock w) L
                Hrunning Hpoll Hlat fuel w)
      as (w' & blocks & Hrun & Htr & Hbl & Hlate & Hup).
    { replace (clock w - clock w) with 0 by lia. rewrite Z.sub_0_r. exact Hfuel. }
    pose proof (Hlat 0%nat). exists w', blocks. repeat split; auto; lia.
  - intros env' fuel' self' poll' timeout' w0 t w1.
    unfold DataformWorkflow.wait_for_completion, bind, time_time.
    apply wait_loop_timeout_late.
Qed.

Lemma never_terminal_remote_in_RUNNING : never_terminal (Scenario.remote_in RUNNING).
Proof.
  intros k n. eexists. split; [reflexivity|].
  cbn. rewrite terminal_states_spec. intuition discriminate.
Qed.

Lemma wait_for_completion_times_out_witness :
  never_terminal (Scenario.remote_in RUNNING)
  /\ 1 <= 1
  /\ (forall k, 0 <= latency (Scenario.remote_in RUNNING) k <= 0)
  /\ (Z.to_nat 2 < 3)%nat
  /\ exists w' blocks,
      DataformWorkflow.wait_for_completion (Scenario.remote_in RUNNING) 3 0 1 2
        Scenario.world0 = (Raise (TimeoutError 2), w')
      /\ trace w' = trace Scenario.world0 ++ concat blocks
      /\ Forall (polling_iteration 1) blocks
      /\ 2 <= clock w' - clock Scenario.world0
      /\ clock w' - clock Scenario.world0 < Z.max 0 2 + 1 + 2 * 0.
Proof.
  assert (Hlat : forall k, 0 <= latency (Scenario.remote_in RUNNING) k <= 0)
    by (intros k; cbn; lia).
  assert (Hfuel : (Z.to_nat 2 < 3)%nat) by (cbn; lia).
  split; [exact never_terminal_remote_in_RUNNING|]. split; [lia|].
  split; [exact Hlat|]. split; [exact Hfuel|].
  refine (proj1 (wait_for_completion_times_out (Scenario.remote_in RUNNING) 0 1 2 0 3
                   Scenario.world0 never_terminal_remote_in_RUNNING _ Hlat Hfuel)).
  lia.
Defined.

(** The scenario of the specification: poll interval 1, timeout 2, a
    handle that stays RUNNING.  Timeout is raised at time 2, after two
    iterations. *)
Example wait_for_completion_scenario :
  let r := DataformWorkflow.wait_for_completion (Scenario.remote_in RUNNING) 3 0 1 2
             Scenario.world0 in
  fst r = Raise (TimeoutError 2)
  /\ clock (snd r) = 2
  /\ trace (snd r) =
     [EvGet "workflowInvocations/1"; EvGet "workflowInvocations/1"; EvLogInfo; EvSleep 1;
      EvGet "workflowInvocations/1"; EvGet "workflowInvocations/1"; EvLogInfo; EvSleep 1].
Proof. repeat split; reflexivity. Qed.

(** C2 (as stated) fails: the loop does not sleep first.  A handle that is
    already finished is returned after two fetches at time 0 and without any
    sleep, whereas the loop that sleeps, refreshes and then tests returns at
    time 1. *)
Lemma wait_for_completion_does_not_sleep_first :
  let code := DataformWorkflow.wait_for_completion (Scenario.remote_in SUCCEEDED) 3 0 1 2
                Scenario.world0 in
  let spec := DataformWorkflow.wait_for_completion_as_specified
                (Scenario.remote_in SUCCEEDED) 3 0 1 2 Scenario.world0 in
  fst code = Ret 0%nat
  /\ trace (snd code) = [EvGet "workflowInvocations/1"; EvGet "workflowInvocations/1"]
  /\ clock (snd code) = 0
  /\ trace (snd spec)
     = [EvSleep 1; EvGet "workflowInvocations/1"; EvGet "workflowInvocations/1"]
  /\ clock (snd spec) = 1
  /\ trace (snd code) <> trace (snd spec).
Proof. repeat split; try reflexivity. discriminate. Qed.

(** ** The timing accessors *)

Ltac state_query :=
  unfold DataformWorkflow.raw_state, DataformWorkflow.state, DataformWorkflow.is_complete,
    DataformWorkflow.is_successful, DataformWorkflow.is_failed,
    DataformWorkflow.is_cancelled, DataformWorkflow.is_running, bind;
  rewrite refresh_eq; cbv zeta;
  match goal with |- context [get_workflow_invocation ?e ?k ?n] =>
    destruct (get_workflow_invocation e k n) end; split; reflexivity.

(** C10: start_time, end_time and duration_seconds leave the whole process
    state as it was (no remote call, no event, the same snapshot) and their
    result is a function of the stored snapshot alone, whereas each
    state-querying operation makes one remote fetch. *)
Theorem timing_accessors_do_not_refresh (env : Env) (self : nat) (w : World) :
  (snd (DataformWorkflow.start_time self w) = w
   /\ snd (DataformWorkflow.end_time self w) = w
   /\ snd (DataformWorkflow.duration_seconds self w) = w)
  /\ (forall self' w', heap w' self' = heap w self ->
        fst (DataformWorkflow.start_time self' w') = fst (DataformWorkflow.start_time self w)
        /\ fst (DataformWorkflow.end_time self' w') = fst (DataformWorkflow.end_time self w)
        /\ fst (DataformWorkflow.duration_seconds self' w')
           = fst (DataformWorkflow.duration_seconds self w))
  /\ (let fetched (w' : World) :=
         ncalls w' = S (ncalls w)
         /\ trace w' = trace w ++ [EvGet (wi_name (heap w self))] in
      fetched (snd (DataformWorkflow.raw_state env self w))
      /\ fetched (snd (DataformWorkflow.state env self w))
      /\ fetched (snd (DataformWorkflow.is_complete env self w))
      /\ fetched (snd (DataformWorkflow.is_successful env self w))
      /\ fetched (snd (DataformWorkflow.is_failed env self w))
      /\ fetched (snd (DataformWorkflow.is_cancelled env self w))
      /\ fetched (snd (DataformWorkflow.is_running env self w))).
Proof.
  split; [rewrite start_time_eq, end_time_eq, duration_seconds_eq; auto|]. split.
  - intros self' w' Hheap.
    rewrite !start_time_eq, !end_time_eq, !duration_seconds_eq, Hheap. auto.
  - cbv zeta. repeat split; state_query.
Qed.

(** ** Effects of the handle and of the service *)

Section Respects.
Variable R : World -> World -> Prop.
Hypothesis R_refl : forall w, R w w.
Hypothesis R_trans : forall a b c, R a b -> R b c -> R a c.

Lemma respects_ret {A} (a : A) : respects R (ret a).
Proof. intros w. apply R_refl. Qed.

Lemma respects_raise {A} e : respects R (@raise A e).
Proof. intros w. apply R_refl. Qed.

Lemma respects_diverge {A} : respects R (@diverge A).
Proof. intros w. apply R_refl. Qed.

Lemma respects_read {A} (f : World -> A) : respects R (fun w => (Ret (f w), w)).
Proof. intros w. apply R_refl. Qed.

Lemma respects_bind {A B} (m : M A) (k : A -> M B) :
  respects R m -> (forall a, respects R (k a)) -> respects R (bind m k).
Proof.
  intros Hm Hk w. unfold bind. specialize (Hm w).
  destruct (m w) as [[a|e|] w1]; cbn in *; auto.
  eapply R_trans; [exact Hm|apply Hk].
Qed.

Lemma respects_catch {A} (m : M A) : respects R m -> respects R (catch m).
Proof.
  intros Hm w. unfold catch. specialize (Hm w).
  destruct (m w) as [[a|e|] w1]; cbn in *; auto.
Qed.
End Respects.

Lemma emits_refl (P : list Event -> Prop) : P [] -> forall w, emits P w w.
Proof. intros HP w. exists []. rewrite app_nil_r. auto. Qed.

Lemma emits_trans (P : list Event -> Prop) :
  (forall a b, P a -> P b -> P (a ++ b)) ->
  forall a b c, emits P a b -> emits P b c -> emits P a c.
Proof.
  intros HP a b c (e1 & H1 & P1) (e2 & H2 & P2). exists (e1 ++ e2).
  split; [rewrite H2, H1, app_assoc; reflexivity|auto].
Qed.

Lemma emits_weaken (P Q : list Event -> Prop) w w' :
  (forall evs, P evs -> Q evs) -> emits P w w' -> emits Q w w'.
Proof. intros H (evs & Ht & HP). exists evs. auto. Qed.

Lemma all_events_app q a b : all_events q a -> all_events q b -> all_events q (a ++ b).
Proof. unfold all_events. rewrite forallb_app. intros -> ->. reflexivity. Qed.

Lemma all_events_weaken (q q' : Event -> bool) evs :
  (forall e, q e = true -> q' e = true) -> all_events q evs -> all_events q' evs.
Proof.
  unfold all_events. intros H. rewrite !forallb_forall. auto.
Qed.

Lemma quiet_refl q w : quiet_step q w w.
Proof. repeat split. apply emits_refl. reflexivity. Qed.

Lemma quiet_trans q a b c : quiet_step q a b -> quiet_step q b c -> quiet_step q a c.
Proof.
  intros (H1 & H2 & H3) (K1 & K2 & K3). repeat split; try congruence.
  eapply emits_trans; eauto using all_events_app.
Qed.

Lemma quiet_weaken (q q' : Event -> bool) w w' :
  (forall e, q e = true -> q' e = true) -> quiet_step q w w' -> quiet_step q' w w'.
Proof.
  intros H (H1 & H2 & H3). repeat split; auto.
  eapply emits_weaken; [|exact H3]. intros evs. now apply all_events_weaken.
Qed.


Section QuietSteps.
Variable q : Event -> bool.

Lemma quiet_ret {A} (a : A) : respects (quiet_step q) (ret a).
Proof. apply respects_ret, quiet_refl. Qed.

Lemma quiet_raise {A} e : respects (quiet_step q) (@raise A e).
Proof. apply respects_raise, quiet_refl. Qed.

Lemma quiet_diverge {A} : respects (quiet_step q) (@diverge A).
Proof. apply respects_diverge, quiet_refl. Qed.

Lemma quiet_read {A} (f : World -> A) : respects (quiet_step q) (fun w => (Ret (f w), w)).
Proof. apply respects_read, quiet_refl. Qed.

Lemma quiet_bind {A B} (m : M A) (k : A -> M B) :
  respects (quiet_step q) m -> (forall a, respects (quiet_step q) (k a)) ->
  respects (quiet_step q) (bind m k).
Proof. apply respects_bind, quiet_trans. Qed.

Lemma quiet_catch {A} (m : M A) :
  respects (quiet_step q) m -> respects (quiet_step q) (catch m).
Proof. apply respects_catch. Qed.
End QuietSteps.

(** A step whose only effect on the trace is the event [e]. *)
Lemma quiet_one q e w w' :
  trace w' = trace w ++ [e] ->
  workflow_callbacks w' = workflow_callbacks w ->
  active_workflows w' = active_workflows w ->
  q e = true ->
  quiet_step q w w'.
Proof.
  intros H3 H1 H2 Hq. repeat split; auto. exists [e]. split; auto.
  unfold all_events. cbn. now rewrite Hq.
Qed.

Lemma quiet_silent q w w' :
  workflow_callbacks w' = workflow_callbacks w ->
  active_workflows w' = active_workflows w ->
  trace w' = trace w ->
  quiet_step q w w'.
Proof.
  intros H1 H2 H3. repeat split; auto. exists []. rewrite app_nil_r. split; auto.
  reflexivity.
Qed.

Section HandleEffects.
Variable env : Env.
Variable q : Event -> bool.
Hypothesis Hget : forall n, q (EvGet n) = true.
Hypothesis Hsleep : forall secs, q (EvSleep secs) = true.
Hypothesis Hlog : q EvLogInfo = true.

Lemma refresh_quiet self : respects (quiet_step q) (DataformWorkflow.refresh env self).
Proof.
  intros w. rewrite refresh_eq. cbv zeta.
  destruct (get_workflow_invocation env (ncalls w) (wi_name (heap w self)));
    eapply quiet_one; try reflexivity; auto.
Qed.

Lemma is_complete_quiet self : respects (quiet_step q) (DataformWorkflow.is_complete env self).
Proof.
  intros w. rewrite is_complete_eq. cbv zeta.
  destruct (get_workflow_invocation env (ncalls w) (wi_name (heap w self)));
    eapply quiet_one; try reflexivity; auto.
Qed.

Lemma time_sleep_quiet secs : respects (quiet_step q) (time_sleep secs).
Proof.
  intros w. unfold time_sleep. destruct (secs <? 0); [apply quiet_refl|].
  eapply quiet_one; try reflexivity. auto.
Qed.

Lemma logger_info_quiet : respects (quiet_step q) logger_info.
Proof. intros w. eapply quiet_one; try reflexivity. auto. Qed.

Lemma wait_loop_quiet fuel self poll timeout start :
  respects (quiet_step q) (DataformWorkflow.wait_loop env fuel self poll timeout start).
Proof.
  induction fuel as [|fuel IH]; cbn [DataformWorkflow.wait_loop].
  - apply quiet_diverge.
  - apply quiet_bind; [apply quiet_read|intros now].
    destruct (now - start <? timeout); [|apply quiet_raise].
    apply quiet_bind; [apply refresh_quiet|intros _].
    apply quiet_bind; [apply is_complete_quiet|intros c].
    destruct c; [apply quiet_ret|].
    apply quiet_bind; [apply logger_info_quiet|intros _].
    apply quiet_bind; [apply time_sleep_quiet|intros _].
    exact IH.
Qed.

Lemma wait_for_completion_quiet fuel self poll timeout :
  respects (quiet_step q) (DataformWorkflow.wait_for_completion env fuel self poll timeout).
Proof.
  apply quiet_bind; [apply quiet_read|intros now]. apply wait_loop_quiet.
Qed.
End HandleEffects.

Section ServiceEffects.
Variable env : Env.
Variable cfg : DataformConfig.t.
Variable q : Event -> bool.
Hypothesis Hq : forall e, submission_event e = true -> q e = true.

Lemma init_quiet wi : respects (quiet_step q) (DataformWorkflow.init wi).
Proof. intros w. apply quiet_silent; reflexivity. Qed.

Lemma compile_quiet params suffix :
  respects (quiet_step q) (DataformService.compile env cfg params suffix).
Proof.
  intros w. unfold DataformService.compile, remote_call.
  match goal with |- context [create_compilation_result env ?k ?r] =>
    destruct (create_compilation_result env k r) end;
    eapply quiet_one; try reflexivity; now apply Hq.
Qed.

Lemma create_workflow_quiet name fr deps dependents :
  respects (quiet_step q) (DataformService.create_workflow env cfg name fr deps dependents).
Proof.
  unfold DataformService.create_workflow.
  apply quiet_bind; [|intros wi].
  - intros w. unfold DataformService._invoke_workflow, remote_call.
    match goal with |- context [create_workflow_invocation env ?k ?r] =>
      destruct (create_workflow_invocation env k r) end;
      eapply quiet_one; try reflexivity; now apply Hq.
  - apply quiet_bind; [apply init_quiet|intros wf].
    apply quiet_bind; [intros w; apply quiet_silent; reflexivity|intros _].
    apply quiet_ret.
Qed.

(** The service, when it is not asked to wait. *)
Lemma run_workflow_quiet fuel execution_id timeout fr :
  respects (quiet_step q)
           (DataformService.run_workflow env cfg fuel execution_id false timeout fr).
Proof.
  unfold DataformService.run_workflow.
  apply quiet_bind; [|intros _].
  - intros w. eapply quiet_one; try reflexivity. now apply Hq.
  - apply quiet_bind; [apply compile_quiet|intros name].
    apply quiet_bind; [apply create_workflow_quiet|intros wf].
    apply quiet_bind; [apply quiet_ret|intros _]. apply quiet_ret.
Qed.
End ServiceEffects.

(** ** Counting events *)

Lemma count_events_app q a b :
  count_events q (a ++ b) = (count_events q a + count_events q b)%nat.
Proof. unfold count_events. now rewrite List.filter_app, length_app. Qed.

Lemma count_events_none (q1 q2 : Event -> bool) evs :
  (forall e, q1 e = true -> q2 e = false) ->
  all_events q1 evs -> count_events q2 evs = 0%nat.
Proof.
  intros H. unfold all_events, count_events.
  induction evs as [|e evs IH]; cbn; [reflexivity|].
  intros [He Hevs]%andb_prop. rewrite (H e He). auto.
Qed.

Lemma quiet_step_count (q1 q2 : Event -> bool) w w' :
  (forall e, q1 e = true -> q2 e = false) ->
  quiet_step q1 w w' -> count_events q2 (trace w') = count_events q2 (trace w).
Proof.
  intros H (_ & _ & evs & -> & Hevs).
  rewrite count_events_app, (count_events_none q1 q2 evs H Hevs). lia.
Qed.

Lemma submission_not_callback r e : submission_event e = true -> is_callback r e = false.
Proof. destruct e; cbn; auto; discriminate. Qed.

(** ** The retry loop when every submission fails *)

Section AlwaysFails.
Variable env : Env.
Variable self : WorkflowManager.t.
Variable fuel : nat.
Variables (execution_id : string) (wait : bool) (timeout_seconds : Z) (full_refresh : bool).
Variables (cbs : Callbacks) (cb : Callback).

Hypothesis Hfails : forall w0, exists e w1,
    DataformService.run_workflow env (WorkflowManager.config self) fuel (Some execution_id)
                                 false timeout_seconds full_refresh w0 = (Raise e, w1).
Hypothesis Hcb : on_error cbs = Some cb.
Hypothesis Hquiet : cb_raises cb = None.
Hypothesis Hdelay : 0 <= WorkflowManager.retry_delay_seconds self.

Lemma on_failure_calls_on_error retries workflow e w :
  workflow_callbacks w !! execution_id = Some cbs ->
  exists w',
    WorkflowManager.on_failure self execution_id retries workflow e w = (Ret (retries + 1), w')
    /\ workflow_callbacks w' = workflow_callbacks w
    /\ forall r, count_role r (trace w')
                 = (count_role r (trace w) + if bool_decide (r = OnError) then 1 else 0)%nat.
Proof.
  intros Hreg.
  unfold WorkflowManager.on_failure, WorkflowManager.lookup_callbacks, WorkflowManager.fire,
    WorkflowManager.call_callback, logger_error, logger_info, emit, bind, ret.
  rewrite Hreg, Hcb. cbn. rewrite Hquiet.
  destruct (retries + 1 <=? WorkflowManager.max_retries self).
  - unfold time_sleep. destruct (WorkflowManager.retry_delay_seconds self <? 0) eqn:E; [lia|].
    eexists. split; [reflexivity|]. split; [reflexivity|]. intros r.
    cbn [trace set_trace set_clock]. unfold count_role.
    rewrite <- !app_assoc, count_events_app. destruct r; reflexivity.
  - eexists. split; [reflexivity|]. split; [reflexivity|]. intros r.
    cbn [trace set_trace set_clock]. unfold count_role.
    rewrite <- !app_assoc, count_events_app. destruct r; reflexivity.
Qed.

Lemma retry_loop_always_fails iterations : forall retries workflow w,
  0 <= retries ->
  (Z.to_nat (WorkflowManager.max_retries self + 1 - retries) < iterations)%nat ->
  workflow_callbacks w !! execution_id = Some cbs ->
  exists w',
    WorkflowManager.retry_loop env self fuel iterations execution_id wait timeout_seconds
                               full_refresh retries workflow w = (Ret tt, w')
    /\ forall r, count_role r (trace w')
                 = (count_role r (trace w)
                    + if bool_decide (r = OnError)
                      then Z.to_nat (WorkflowManager.max_retries self + 1 - retries)
                      else 0)%nat.
Proof.
  induction iterations as [|n IH]; intros retries workflow w Hpos Hfuel Hreg; [lia|].
  cbn [WorkflowManager.retry_loop].
  destruct (retries <=? WorkflowManager.max_retries self) eqn:Hmore.
  - apply Z.leb_le in Hmore.
    destruct (Hfails w) as (e & w1 & Hrun).
    pose proof (run_workflow_quiet env (WorkflowManager.config self) submission_event
                  (fun _ H => H) fuel (Some execution_id) timeout_seconds full_refresh w)
      as Hstep.
    rewrite Hrun in Hstep. cbn in Hstep.
    unfold bind at 1, catch. rewrite Hrun.
    destruct (on_failure_calls_on_error retries workflow e w1) as (w2 & Hfail & Hsame & Hcount).
    { destruct Hstep as (-> & _). exact Hreg. }
    unfold bind at 1. rewrite Hfail.
    destruct (IH (retries + 1) workflow w2) as (w' & Hloop & Hcount');
      [lia | lia | rewrite Hsame, (proj1 Hstep); exact Hreg |].
    exists w'. split; [exact Hloop|]. intros r. rewrite Hcount', Hcount.
    assert (Hc : count_role r (trace w1) = count_role r (trace w)).
    { apply (quiet_step_count submission_event); [apply submission_not_callback|exact Hstep]. }
    rewrite Hc. destruct (bool_decide (r = OnError)); lia.
  - apply Z.leb_gt in Hmore. exists w. split; [reflexivity|]. intros r.
    destruct (bool_decide (r = OnError)); lia.
Qed.
End AlwaysFails.

(** C1: when every submission raises, a call of the manager's
    run_workflow, followed by the task it handed to the pool, invokes the
    on_error callback once per attempt, max_retries + 1 times in all, and
    invokes neither on_start nor on_complete.  The callback is given and
    returns normally; the retry delay is a valid sleep length. *)
Theorem always_failing_submission_calls_on_error
        (env : Env) (self : WorkflowManager.t) (fuel : nat)
        (execution_id : option string) (wait : bool) (timeout_seconds : Z)
        (full_refresh : bool) (cb_start cb_complete : option Callback)
        (cb_error : Callback) (w : World)
        (Hfails : forall eid w0, exists e w1,
            DataformService.run_workflow env (WorkflowManager.config self) fuel (Some eid)
                                         false timeout_seconds full_refresh w0
            = (Raise e, w1))
        (Hquiet : cb_raises cb_error = None)
        (Hdelay : 0 <= WorkflowManager.retry_delay_seconds self)
        (Hretries : -1 <= WorkflowManager.max_retries self) :
  exists eid w1 w2,
    WorkflowManager.run_workflow self execution_id wait timeout_seconds full_refresh
                                 cb_start cb_complete (Some cb_error) w = (Ret eid, w1)
    /\ executor_queue w1
       = executor_queue w ++ [mkTask eid wait timeout_seconds full_refresh]
    /\ WorkflowManager.run_task env self fuel
         (mkTask eid wait timeout_seconds full_refresh) w1 = (Ret tt, w2)
    /\ Z.of_nat (count_role OnError (trace w2))
       = Z.of_nat (count_role OnError (trace w)) + (WorkflowManager.max_retries self + 1)
    /\ count_role OnStart (trace w2) = count_role OnStart (trace w)
    /\ count_role OnComplete (trace w2) = count_role OnComplete (trace w).
Proof.
  assert (Hrun : exists eid w1,
             WorkflowManager.run_workflow self execution_id wait timeout_seconds full_refresh
                                          cb_start cb_complete (Some cb_error) w
             = (Ret eid, w1)
             /\ executor_queue w1
                = executor_queue w ++ [mkTask eid wait timeout_seconds full_refresh]
             /\ trace w1 = trace w
             /\ workflow_callbacks w1 !! eid
                = Some (mkCallbacks cb_start cb_complete (Some cb_error))).
  { unfold WorkflowManager.run_workflow, WorkflowManager.executor_submit, time_time, bind, ret.
    destruct execution_id as [i|]; [destruct (DataformService.truthy (Some i))|];
      eexists _, _; (split; [reflexivity|]); cbn;
      (split; [reflexivity|]); (split; [reflexivity|]); apply lookup_insert_eq. }
  destruct Hrun as (eid & w1 & Hrun & Hqueue & Htrace & Hreg).
  destruct (retry_loop_always_fails env self fuel eid wait timeout_seconds full_refresh
              (mkCallbacks cb_start cb_complete (Some cb_error)) cb_error
              (Hfails eid) eq_refl Hquiet Hdelay
              (S (Z.to_nat (WorkflowManager.max_retries self + 1))) 0 None w1)
    as (w2 & Hloop & Hcount); [lia | rewrite Z.sub_0_r; lia | exact Hreg |].
  exists eid, w1, w2. split; [exact Hrun|]. split; [exact Hqueue|].
  split; [exact Hloop|]. rewrite !Hcount, Htrace.
  rewrite (bool_decide_eq_true_2 _ (eq_refl OnError)).
  rewrite !bool_decide_eq_false_2 by discriminate. repeat split; lia.
Qed.

(** ** What a worker emits *)

Lemma polling_is_worker e : polling_event e = true -> worker_event e = true.
Proof. destruct e; cbn; auto; discriminate. Qed.

Lemma submission_is_worker e : submission_event e = true -> worker_event e = true.
Proof. destruct e as [| | | | | | | |? [|] ? ?| | |]; cbn; auto; discriminate. Qed.

Section WorkerEmits.
Variable P : list Event -> Prop.
Hypothesis P_nil : P [].
Hypothesis P_app : forall a b, P a -> P b -> P (a ++ b).
Hypothesis P_event : forall e, worker_event e = true -> P [e].
Hypothesis P_register : forall i wf, P [EvAcquire; EvRegister i wf; EvRelease].

Variable env : Env.
Variable self : WorkflowManager.t.
Variable fuel : nat.

Lemma P_all evs : all_events worker_event evs -> P evs.
Proof.
  unfold all_events. induction evs as [|e evs IH]; cbn; [auto|].
  intros [He Hevs]%andb_prop. apply (P_app [e] evs); auto.
Qed.

Lemma emits_of_quiet q {A} (m : M A) :
  (forall e, q e = true -> worker_event e = true) ->
  respects (quiet_step q) m -> respects (emits P) m.
Proof.
  intros Hq Hm w. destruct (Hm w) as (_ & _ & evs & Ht & Hevs).
  exists evs. split; [exact Ht|]. apply P_all. eapply all_events_weaken; eauto.
Qed.

Lemma emits_bind {A B} (m : M A) (k : A -> M B) :
  respects (emits P) m -> (forall a, respects (emits P) (k a)) ->
  respects (emits P) (bind m k).
Proof. apply respects_bind, emits_trans, P_app. Qed.

Lemma emits_ret {A} (a : A) : respects (emits P) (ret a).
Proof. apply respects_ret, emits_refl, P_nil. Qed.

Lemma emits_event e : worker_event e = true -> respects (emits P) (emit e).
Proof. intros He w. exists [e]. split; [reflexivity|auto]. Qed.

Lemma fire_emits role i cbs wf err :
  role <> OnComplete -> respects (emits P) (WorkflowManager.fire role i cbs wf err).
Proof.
  intros Hrole. unfold WorkflowManager.fire.
  destruct cbs as [cbs|]; [|apply emits_ret].
  destruct (match role with
            | OnStart => on_start cbs
            | OnComplete => on_complete cbs
            | OnError => on_error cbs
            end) as [cb|]; [|apply emits_ret].
  unfold WorkflowManager.call_callback.
  apply emits_bind; [apply emits_event; destruct role; auto; congruence|intros _].
  destruct (cb_raises cb); [apply respects_raise, emits_refl, P_nil|apply emits_ret].
Qed.

Lemma register_emits i wf : respects (emits P) (WorkflowManager.register i wf).
Proof. intros w. exists [EvAcquire; EvRegister i wf; EvRelease]. split; [|auto].
  cbn. now rewrite <- !app_assoc. Qed.

Lemma lookup_callbacks_emits i : respects (emits P) (WorkflowManager.lookup_callbacks i).
Proof. apply respects_read, emits_refl, P_nil. Qed.

Lemma after_submission_emits i wait timeout wf :
  respects (emits P) (WorkflowManager.after_submission env fuel i wait timeout wf).
Proof.
  unfold WorkflowManager.after_submission.
  apply emits_bind; [apply register_emits|intros _].
  apply emits_bind; [apply lookup_callbacks_emits|intros cbs].
  apply emits_bind; [apply fire_emits; discriminate|intros _].
  destruct wait; [|apply emits_ret].
  apply emits_bind; [|intros _; apply emits_ret].
  apply (emits_of_quiet polling_event);
    [apply polling_is_worker | apply wait_for_completion_quiet; reflexivity].
Qed.

Lemma on_failure_emits i retries wf e :
  respects (emits P) (WorkflowManager.on_failure self i retries wf e).
Proof.
  unfold WorkflowManager.on_failure.
  apply emits_bind; [apply lookup_callbacks_emits|intros cbs].
  apply emits_bind; [apply fire_emits; discriminate|intros _].
  apply emits_bind; [apply emits_event; reflexivity|intros _].
  apply emits_bind; [|intros _; apply emits_ret].
  destruct (retries + 1 <=? WorkflowManager.max_retries self); [|apply emits_ret].
  apply emits_bind; [apply emits_event; reflexivity|intros _].
  apply (emits_of_quiet polling_event);
    [apply polling_is_worker | apply time_sleep_quiet; reflexivity].
Qed.

Lemma retry_loop_emits iterations i wait timeout fr : forall retries wf,
  respects (emits P)
           (WorkflowManager.retry_loop env self fuel iterations i wait timeout fr retries wf).
Proof.
  induction iterations as [|n IH]; intros retries wf; cbn [WorkflowManager.retry_loop].
  - apply respects_diverge, emits_refl, P_nil.
  - destruct (retries <=? WorkflowManager.max_retries self); [|apply emits_ret].
    apply emits_bind.
    { apply respects_catch, (emits_of_quiet submission_event), run_workflow_quiet;
        auto using submission_is_worker. }
    intros [e|wf'].
    + apply emits_bind; [apply on_failure_emits|intros r; apply IH].
    + apply emits_bind; [apply respects_catch, after_submission_emits|].
      intros [e|[]]; [|apply emits_ret].
      apply emits_bind; [apply on_failure_emits|intros r; apply IH].
Qed.

Lemma run_task_emits task : respects (emits P) (WorkflowManager.run_task env self fuel task).
Proof. apply retry_loop_emits. Qed.
End WorkerEmits.

(** ** Lock discipline *)

Lemma lock_scan_broken permitted evs : fold_left (lock_step permitted) evs None = None.
Proof. induction evs; cbn; auto. Qed.

Lemma lock_scan_app permitted held a b :
  lock_scan permitted held (a ++ b)
  = match lock_scan permitted held a with
    | Some held' => lock_scan permitted held' b
    | None => None
    end.
Proof.
  unfold lock_scan. rewrite fold_left_app.
  destruct (fold_left (lock_step permitted) a (Some held)); [reflexivity|].
  apply lock_scan_broken.
Qed.

Lemma disciplined_app permitted a b :
  disciplined permitted a -> disciplined permitted b -> disciplined permitted (a ++ b).
Proof. unfold disciplined. intros Ha Hb. now rewrite lock_scan_app, Ha. Qed.

Lemma worker_event_outside e :
  worker_event e = true -> disciplined remote_outside_lock [e].
Proof. destruct e; cbn; try discriminate; reflexivity. Qed.

(** Events other than lock operations keep a held lock held, whatever they
    are, under the discipline of the poller. *)
Lemma inside_lock_body evs :
  all_events poller_event evs -> lock_scan remote_inside_lock true evs = Some true.
Proof.
  unfold all_events, lock_scan. induction evs as [|e evs IH]; cbn; [reflexivity|].
  intros [He Hevs]%andb_prop. destruct e; try discriminate; cbn; auto.
Qed.

Lemma critical_section_inside body :
  all_events poller_event body ->
  disciplined remote_inside_lock (EvAcquire :: body ++ [EvRelease]).
Proof.
  intros H. unfold disciplined.
  change (EvAcquire :: body ++ [EvRelease]) with ([EvAcquire] ++ body ++ [EvRelease]).
  rewrite lock_scan_app. cbn. rewrite lock_scan_app, (inside_lock_body body H). reflexivity.
Qed.

(** ** Waiting ends in a terminal state *)

Lemma wait_loop_returns_terminal env fuel self poll timeout start : forall w r w',
  DataformWorkflow.wait_loop env fuel self poll timeout start w = (Ret r, w') ->
  r = self /\ wi_state (heap w' self) ∈ DataformWorkflow.terminal_states.
Proof.
  induction fuel as [|fuel IH]; intros w r w'; [discriminate|].
  rewrite wait_loop_S.
  destruct (clock w - start <? timeout); [|discriminate].
  rewrite refresh_eq. cbv zeta.
  destruct (get_workflow_invocation env (ncalls w) (wi_name (heap w self)));
    [discriminate|].
  rewrite is_complete_eq. cbv zeta.
  match goal with |- context [get_workflow_invocation env ?k ?n] =>
    destruct (get_workflow_invocation env k n) as [|wi] end; [discriminate|].
  destruct (bool_decide _) eqn:Hterm.
  - intros [= <- <-]. split; [reflexivity|]. cbn. rewrite fn_lookup_insert.
    now apply bool_decide_eq_true in Hterm.
  - unfold time_sleep. destruct (poll <? 0); [discriminate|]. apply IH.
Qed.

Lemma wait_for_completion_returns_terminal env fuel self poll timeout w r w' :
  DataformWorkflow.wait_for_completion env fuel self poll timeout w = (Ret r, w') ->
  r = self /\ wi_state (heap w' self) ∈ DataformWorkflow.terminal_states.
Proof. apply wait_loop_returns_terminal. Qed.

(** ** The registry as a dictionary *)

Lemma dict_get_set_eq {V} k (v : V) d :
  WorkflowManager.dict_get k (WorkflowManager.dict_set k v d) = Some v.
Proof.
  induction d as [|[k' v'] d IH]; cbn.
  - now rewrite String.eqb_refl.
  - destruct (String.eqb k k') eqn:E; cbn; [now rewrite String.eqb_refl|].
    now rewrite E.
Qed.

Lemma dict_get_del {V} k j (d : list (string * V)) :
  WorkflowManager.dict_get j (WorkflowManager.dict_del k d)
  = if String.eqb k j then None else WorkflowManager.dict_get j d.
Proof.
  unfold WorkflowManager.dict_del.
  induction d as [|[k' v'] d IH]; cbn.
  - now destruct (String.eqb k j).
  - destruct (String.eqb k k') eqn:E; cbn.
    + apply String.eqb_eq in E. subst k'. rewrite IH.
      destruct (String.eqb k j) eqn:E'; [reflexivity|].
      now rewrite String.eqb_sym, E'.
    + rewrite IH. destruct (String.eqb j k') eqn:E'; [|reflexivity].
      apply String.eqb_eq in E'. subst k'. now rewrite E.
Qed.

Lemma dict_del_absent {V} k (d : list (string * V)) :
  WorkflowManager.dict_get k d = None -> WorkflowManager.dict_del k d = d.
Proof.
  unfold WorkflowManager.dict_del.
  induction d as [|[k' v'] d IH]; cbn; [reflexivity|].
  destruct (String.eqb k k'); [discriminate|]. cbn. intros H. now rewrite IH.
Qed.

(** ** One attempt of the retry loop that submits successfully *)

Section Submission.
Variable env : Env.
Variable self : WorkflowManager.t.
Variable fuel : nat.
Variables (execution_id : string) (wait : bool) (timeout_seconds : Z) (full_refresh : bool).

Lemma after_submission_start wf w1 :
  (forall cb, workflow_callbacks w1 !! execution_id ≫= on_start = Some cb ->
              cb_raises cb = None) ->
  exists w2,
    trace w2 = trace w1 ++ [EvAcquire; EvRegister execution_id wf; EvRelease]
                        ++ started execution_id w1 wf
    /\ WorkflowManager.dict_get execution_id (active_workflows w2) = Some wf
    /\ WorkflowManager.after_submission env fuel execution_id wait timeout_seconds wf w1
       = (if wait
          then bind (DataformWorkflow.wait_for_completion env fuel wf 30 timeout_seconds)
                    (fun _ => ret tt)
          else ret tt) w2.
Proof.
  intros Hcb. unfold WorkflowManager.after_submission, started in *.
  set (k := if wait then _ else _).
  unfold WorkflowManager.register, WorkflowManager.with_lock,
    WorkflowManager.lookup_callbacks, WorkflowManager.fire, WorkflowManager.call_callback,
    emit, bind, ret.
  cbn [workflow_callbacks set_trace set_active_workflows trace active_workflows].
  destruct (workflow_callbacks w1 !! execution_id) as [cbs|]; cbn [mbind option_bind] in *.
  - destruct (on_start cbs) as [cb|]; cbn [mbind option_bind] in *.
    + rewrite (Hcb cb eq_refl). eexists. split; [|split; [|reflexivity]].
      * cbn. now rewrite <- !app_assoc.
      * cbn. apply dict_get_set_eq.
    + eexists. split; [|split; [|reflexivity]].
      * cbn. now rewrite <- !app_assoc.
      * cbn. apply dict_get_set_eq.
  - eexists. split; [|split; [|reflexivity]].
    + cbn. now rewrite <- !app_assoc.
    + cbn. apply dict_get_set_eq.
Qed.

Lemma successful_attempt iterations retries workflow w wf w1 :
  retries <= WorkflowManager.max_retries self ->
  DataformService.run_workflow env (WorkflowManager.config self) fuel (Some execution_id)
                               false timeout_seconds full_refresh w = (Ret wf, w1) ->
  (forall cb, workflow_callbacks w1 !! execution_id ≫= on_start = Some cb ->
              cb_raises cb = None) ->
  exists w2,
    trace w2 = trace w1 ++ [EvAcquire; EvRegister execution_id wf; EvRelease]
                        ++ started execution_id w1 wf
    /\ WorkflowManager.dict_get execution_id (active_workflows w2) = Some wf
    /\ (wait = false ->
        WorkflowManager.retry_loop env self fuel (S iterations) execution_id wait
          timeout_seconds full_refresh retries workflow w = (Ret tt, w2))
    /\ (wait = true ->
        forall r w3,
          DataformWorkflow.wait_for_completion env fuel wf 30 timeout_seconds w2 = (r, w3) ->
          match r with
          | Ret _ =>
              WorkflowManager.retry_loop env self fuel (S iterations) execution_id wait
                timeout_seconds full_refresh retries workflow w = (Ret tt, w3)
              /\ wi_state (heap w3 wf) ∈ DataformWorkflow.terminal_states
          | Raise e =>
              WorkflowManager.retry_loop env self fuel (S iterations) execution_id wait
                timeout_seconds full_refresh retries workflow w
              = bind (WorkflowManager.on_failure self execution_id retries (Some wf) e)
                     (fun retries' =>
                        WorkflowManager.retry_loop env self fuel iterations execution_id
                          wait timeout_seconds full_refresh retries' (Some wf)) w3
          | Diverge =>
              WorkflowManager.retry_loop env self fuel (S iterations) execution_id wait
                timeout_seconds full_refresh retries workflow w = (Diverge, w3)
          end).
Proof.
  intros Hretries Hrun Hcb.
  destruct (after_submission_start wf w1 Hcb) as (w2 & Htrace & Hdict & Hafter).
  exists w2. split; [exact Htrace|]. split; [exact Hdict|].
  cbn [WorkflowManager.retry_loop].
  apply Z.leb_le in Hretries. rewrite Hretries.
  assert (Hsub : catch (DataformService.run_workflow env (WorkflowManager.config self) fuel
                          (Some execution_id) false timeout_seconds full_refresh) w
                 = (Ret (inr wf), w1)).
  { unfold catch. now rewrite Hrun. }
  rewrite (bind_ret_eq _ _ _ _ _ Hsub).
  split.
  - intros ->. unfold bind, catch. rewrite Hafter. reflexivity.
  - intros -> r w3 Hwait.
    assert (Hcatch : catch (WorkflowManager.after_submission env fuel execution_id true
                              timeout_seconds wf) w1
                     = match r with
                       | Ret _ => (Ret (inr tt), w3)
                       | Raise e => (Ret (inl e), w3)
                       | Diverge => (Diverge, w3)
                       end).
    { unfold catch. rewrite Hafter. unfold bind. rewrite Hwait.
      destruct r; reflexivity. }
    destruct r as [r| e |].
    + rewrite (bind_ret_eq _ _ _ _ _ Hcatch). split; [reflexivity|].
      now destruct (wait_for_completion_returns_terminal _ _ _ _ _ _ _ _ Hwait).
    + rewrite (bind_ret_eq _ _ _ _ _ Hcatch). reflexivity.
    + rewrite (bind_diverge_eq _ _ _ _ Hcatch). reflexivity.
Qed.
End Submission.

(** ** The background poller *)

Lemma quiet_of_events q evs w w' :
  trace w' = trace w ++ evs ->
  workflow_callbacks w' = workflow_callbacks w ->
  active_workflows w' = active_workflows w ->
  all_events q evs ->
  quiet_step q w w'.
Proof. intros H3 H1 H2 H4. repeat split; auto. exists evs. auto. Qed.

Section Poller.
Variable env : Env.

Lemma observe_spec wf w :
  let r := bind (DataformWorkflow.refresh env wf)
                (fun _ => DataformWorkflow.is_complete env wf) w in
  quiet_step poller_event w (snd r)
  /\ (exists post, trace (snd r) = trace w ++ EvGet (wi_name (heap w wf)) :: post)
  /\ fst r <> Diverge.
Proof.
  cbv zeta. unfold bind. rewrite refresh_eq. cbv zeta.
  destruct (get_workflow_invocation env (ncalls w) (wi_name (heap w wf))) as [r|wi].
  - split; [eapply quiet_one; reflexivity|]. split; [exists []; reflexivity|discriminate].
  - rewrite is_complete_eq. cbv zeta.
    match goal with |- context [get_workflow_invocation env ?k ?n] =>
      destruct (get_workflow_invocation env k n) end;
      (split; [eapply (quiet_of_events _ [_; _]);
               [cbn; rewrite <- app_assoc; reflexivity|reflexivity..]|]);
      (split; [eexists [_]; cbn; now rewrite <- app_assoc|discriminate]).
Qed.

Lemma notify_spec i wf w1 :
  exists res w2,
    catch (bind (WorkflowManager.lookup_callbacks i)
                (fun cbs => WorkflowManager.fire OnComplete i cbs (Some wf) None)) w1
    = (Ret res, w2)
    /\ quiet_step poller_event w1 w2
    /\ (forall cbs cb, workflow_callbacks w1 !! i = Some cbs -> on_complete cbs = Some cb ->
                       trace w2
                       = trace w1 ++ [EvCallback OnComplete i cb (Some wf) None]).
Proof.
  unfold catch, bind, WorkflowManager.lookup_callbacks, WorkflowManager.fire,
    WorkflowManager.call_callback, emit, ret, raise.
  destruct (workflow_callbacks w1 !! i) as [cbs|].
  - destruct (on_complete cbs) as [cb|] eqn:Hoc.
    + destruct (cb_raises cb); eexists _, _; (split; [reflexivity|]);
        (split; [eapply quiet_one; reflexivity|]);
        intros cbs' cb' [= <-] Hc; rewrite Hoc in Hc; injection Hc as <-; reflexivity.
    + eexists _, _. split; [reflexivity|]. split; [apply quiet_refl|].
      intros cbs' cb' [= <-] Hc. rewrite Hoc in Hc. discriminate.
  - eexists _, _. split; [reflexivity|]. split; [apply quiet_refl|]. discriminate.
Qed.

(** One entry: the loop body always ends normally; the handle is fetched;
    an entry seen in a terminal state is recorded and its on_complete
    callback is invoked. *)
Lemma monitor_entry_spec i wf completed w :
  exists completed' w',
    WorkflowManager.monitor_entry env (i, wf) completed w = (Ret completed', w')
    /\ quiet_step poller_event w w'
    /\ (exists post, trace w' = trace w ++ EvGet (wi_name (heap w wf)) :: post)
    /\ (completed' = completed \/ completed' = completed ++ [i])
    /\ (forall w1,
          bind (DataformWorkflow.refresh env wf)
               (fun _ => DataformWorkflow.is_complete env wf) w = (Ret true, w1) ->
          completed' = completed ++ [i]
          /\ forall cbs cb,
              workflow_callbacks w !! i = Some cbs -> on_complete cbs = Some cb ->
              exists post,
                trace w' = trace w1 ++ EvCallback OnComplete i cb (Some wf) None :: post).
Proof.
  destruct (observe_spec wf w) as (Hq & (post & Hpost) & Hdiv).
  cbv zeta in *. unfold WorkflowManager.monitor_entry.
  unfold bind at 1, catch at 1.
  destruct (bind (DataformWorkflow.refresh env wf)
                 (fun _ => DataformWorkflow.is_complete env wf) w)
    as [[[|]|e|] w1] eqn:Hobs; cbn [fst snd] in *; [| | |congruence].
  - destruct (notify_spec i wf w1) as (res & w2 & Hcall & Hq2 & Hev).
    unfold bind at 1. rewrite Hcall.
    assert (Htr2 : exists post2, trace w2 = trace w1 ++ post2)
      by (destruct Hq2 as (_ & _ & evs & ? & _); eauto).
    destruct Htr2 as (post2 & Htr2).
    destruct res as [e|[]].
    + unfold logger_error, emit, bind, ret. eexists _, _. split; [reflexivity|].
      split; [eapply quiet_trans; [exact Hq|]; eapply quiet_trans; [exact Hq2|];
              eapply quiet_one; reflexivity|].
      split; [eexists; cbn; rewrite Htr2, Hpost, <- !app_assoc; reflexivity|].
      split; [auto|]. intros w1' [= <-]. split; [reflexivity|].
      intros cbs cb Hreg Hcb. eexists. cbn.
      rewrite (Hev cbs cb); [|rewrite (proj1 Hq); exact Hreg|exact Hcb].
      rewrite <- app_assoc. reflexivity.
    + unfold ret. eexists _, _. split; [reflexivity|].
      split; [eapply quiet_trans; eauto|].
      split; [eexists; rewrite Htr2, Hpost, <- !app_assoc; reflexivity|].
      split; [auto|]. intros w1' [= <-]. split; [reflexivity|].
      intros cbs cb Hreg Hcb. exists [].
      apply (Hev cbs cb); [rewrite (proj1 Hq); exact Hreg|exact Hcb].
  - unfold ret. eexists _, _. split; [reflexivity|]. split; [exact Hq|].
    split; [eauto|]. split; [auto|]. discriminate.
  - unfold logger_error, emit, bind, ret. eexists _, _. split; [reflexivity|].
    split; [eapply quiet_trans; [exact Hq|]; eapply quiet_one; reflexivity|].
    split; [eexists; cbn; rewrite Hpost, <- app_assoc; reflexivity|].
    split; [auto|]. discriminate.
Qed.

Lemma monitor_entries_spec entries : forall completed w,
  exists completed' w',
    WorkflowManager.monitor_entries env entries completed w = (Ret completed', w')
    /\ quiet_step poller_event w w'
    /\ (exists more, completed' = completed ++ more).
Proof.
  induction entries as [|[i wf] rest IH]; intros completed w;
    cbn [WorkflowManager.monitor_entries].
  - exists completed, w. split; [reflexivity|]. split; [apply quiet_refl|].
    exists []. now rewrite app_nil_r.
  - destruct (monitor_entry_spec i wf completed w) as (c1 & w1 & Hentry & Hq1 & _ & Hc1 & _).
    rewrite (bind_ret_eq _ _ _ _ _ Hentry).
    destruct (IH c1 w1) as (c2 & w2 & Hrest & Hq2 & more & Hmore).
    exists c2, w2. split; [exact Hrest|]. split; [eapply quiet_trans; eauto|].
    destruct Hc1 as [->| ->]; [eauto|].
    exists ([i] ++ more). now rewrite Hmore, <- app_assoc.
Qed.

Lemma monitor_entries_app prefix rest : forall completed w c1 w1,
  WorkflowManager.monitor_entries env prefix completed w = (Ret c1, w1) ->
  WorkflowManager.monitor_entries env (prefix ++ rest) completed w
  = WorkflowManager.monitor_entries env rest c1 w1.
Proof.
  induction prefix as [|[i wf] prefix IH]; intros completed w c1 w1;
    cbn [WorkflowManager.monitor_entries app].
  - intros [= <- <-]. reflexivity.
  - destruct (monitor_entry_spec i wf completed w) as (c0 & w0 & Hentry & _).
    rewrite !(bind_ret_eq _ _ _ _ _ Hentry). apply IH.
Qed.

Lemma evict_spec i w :
  exists w',
    WorkflowManager.evict i w = (Ret tt, w')
    /\ emits (all_events poller_event) w w'
    /\ active_workflows w' = WorkflowManager.dict_del i (active_workflows w)
    /\ workflow_callbacks w' = delete i (workflow_callbacks w).
Proof.
  unfold WorkflowManager.evict. eexists. split; [reflexivity|].
  destruct (WorkflowManager.dict_get i (active_workflows w)) eqn:Hact;
    cbn [workflow_callbacks set_workflow_callbacks set_active_workflows set_trace].
  - destruct (workflow_callbacks w !! i) eqn:Hcb; cbn;
      (split; [exists [EvEvict i]; split; reflexivity|]);
      (split; [reflexivity|]); [reflexivity|].
    symmetry. now apply delete_id.
  - rewrite (dict_del_absent _ _ Hact).
    destruct (workflow_callbacks w !! i) eqn:Hcb; cbn;
      (split; [exists []; rewrite app_nil_r; split; reflexivity|]);
      (split; [reflexivity|]); [reflexivity|].
    symmetry. now apply delete_id.
Qed.

Lemma remove_completed_spec completed : forall w,
  exists w',
    WorkflowManager.remove_completed completed w = (Ret tt, w')
    /\ emits (all_events poller_event) w w'
    /\ (forall j, WorkflowManager.dict_get j (active_workflows w) = None ->
                  WorkflowManager.dict_get j (active_workflows w') = None)
    /\ (forall j, workflow_callbacks w !! j = None -> workflow_callbacks w' !! j = None)
    /\ (forall j, In j completed ->
                  WorkflowManager.dict_get j (active_workflows w') = None
                  /\ workflow_callbacks w' !! j = None).
Proof.
  induction completed as [|i rest IH]; intros w; cbn [WorkflowManager.remove_completed].
  - exists w. split; [reflexivity|]. split; [apply emits_refl; reflexivity|].
    repeat split; auto; contradiction.
  - destruct (evict_spec i w) as (w1 & Hev & He1 & Hact & Hcbs).
    rewrite (bind_ret_eq _ _ _ _ _ Hev).
    destruct (IH w1) as (w' & Hrest & He2 & Hkeep1 & Hkeep2 & Hgone).
    exists w'. split; [exact Hrest|].
    split; [eapply emits_trans; eauto using all_events_app|].
    assert (Ha : forall j, WorkflowManager.dict_get j (active_workflows w) = None ->
                           WorkflowManager.dict_get j (active_workflows w1) = None).
    { intros j Hj. rewrite Hact, dict_get_del, Hj. now destruct (String.eqb i j). }
    assert (Hc : forall j, workflow_callbacks w !! j = None ->
                           workflow_callbacks w1 !! j = None).
    { intros j Hj. rewrite Hcbs. apply lookup_delete_None. auto. }
    split; [auto|]. split; [auto|].
    intros j [<-|Hj]; [|auto]. split.
    + apply Hkeep1. rewrite Hact, dict_get_del. now rewrite String.eqb_refl.
    + apply Hkeep2. rewrite Hcbs. apply lookup_delete_eq.
Qed.
End Poller.

Lemma quiet_step_trace q w w' : quiet_step q w w' -> exists evs, trace w' = trace w ++ evs.
Proof. intros (_ & _ & evs & H & _). eauto. Qed.

Lemma quiet_step_events q w w' :
  quiet_step q w w' -> exists evs, trace w' = trace w ++ evs /\ all_events q evs.
Proof. intros (_ & _ & H). exact H. Qed.

Section Pass.
Variable env : Env.

Lemma monitor_pass_eq w :
  let wa := set_trace (trace w ++ [EvAcquire]) w in
  exists completed w1 w2,
    WorkflowManager.monitor_entries env (active_workflows w) [] wa = (Ret completed, w1)
    /\ WorkflowManager.remove_completed completed w1 = (Ret tt, w2)
    /\ WorkflowManager.monitor_pass env w
       = (Ret tt, set_trace (trace w2 ++ [EvRelease]) w2).
Proof.
  cbv zeta.
  destruct (monitor_entries_spec env (active_workflows w) []
              (set_trace (trace w ++ [EvAcquire]) w)) as (c & w1 & Hentries & _).
  destruct (remove_completed_spec c w1) as (w2 & Hremove & _).
  exists c, w1, w2. split; [exact Hentries|]. split; [exact Hremove|].
  unfold WorkflowManager.monitor_pass, WorkflowManager.with_lock, emit.
  unfold bind at 1. unfold bind at 1. cbn [active_workflows set_trace].
  unfold bind at 1. rewrite Hentries, Hremove. reflexivity.
Qed.

Lemma monitor_entries_fetches entries : forall completed w c' w',
  WorkflowManager.monitor_entries env entries completed w = (Ret c', w') ->
  (count_events is_get (trace w) + length entries <= count_events is_get (trace w'))%nat.
Proof.
  induction entries as [|[i wf] rest IH]; intros completed w c' w';
    cbn [WorkflowManager.monitor_entries length].
  - intros [= <- <-]. lia.
  - destruct (monitor_entry_spec env i wf completed w)
      as (c1 & w1 & Hentry & _ & (post & Hpost) & _).
    rewrite (bind_ret_eq _ _ _ _ _ Hentry). intros Hrest.
    specialize (IH _ _ _ _ Hrest). rewrite Hpost in IH.
    rewrite count_events_app in IH. cbn in IH. lia.
Qed.
End Pass.

(** C5: a pass of the poller always runs to its end.  Whatever happened to
    the entries before it (a refresh error is caught and logged), each
    registered entry is fetched in its turn; an entry seen in a terminal
    state is evicted from the registry and from the callback table by the
    end of the pass, and its on_complete callback, when one is registered,
    is invoked right after the observation. *)
Theorem poller_pass_is_nonfatal_and_evicts (env : Env) (w : World) :
  exists w',
    WorkflowManager.monitor_pass env w = (Ret tt, w')
    /\ forall prefix i wf rest,
        active_workflows w = prefix ++ (i, wf) :: rest ->
        exists completed wi,
          WorkflowManager.monitor_entries env prefix []
            (set_trace (trace w ++ [EvAcquire]) w) = (Ret completed, wi)
          /\ (exists post, trace w' = trace wi ++ EvGet (wi_name (heap wi wf)) :: post)
          /\ forall w1,
              bind (DataformWorkflow.refresh env wf)
                   (fun _ => DataformWorkflow.is_complete env wf) wi = (Ret true, w1) ->
              WorkflowManager.dict_get i (active_workflows w') = None
              /\ workflow_callbacks w' !! i = None
              /\ forall cbs cb,
                  workflow_callbacks w !! i = Some cbs -> on_complete cbs = Some cb ->
                  exists post,
                    trace w' = trace w1 ++ EvCallback OnComplete i cb (Some wf) None :: post.
Proof.
  destruct (monitor_pass_eq env w) as (c & w1 & w2 & Hentries & Hremove & Hpass).
  cbv zeta in Hentries.
  eexists. split; [exact Hpass|].
  intros prefix i wf rest Hreg. rewrite Hreg in Hentries.
  set (wa := set_trace (trace w ++ [EvAcquire]) w) in *.
  destruct (monitor_entries_spec env prefix [] wa) as (c0 & wi & Hprefix & Hqi & _).
  exists c0, wi. split; [exact Hprefix|].
  rewrite (monitor_entries_app env prefix _ _ _ _ _ Hprefix) in Hentries.
  cbn [WorkflowManager.monitor_entries] in Hentries.
  destruct (monitor_entry_spec env i wf c0 wi)
    as (c1 & wj & Hentry & Hqj & (postj & Hpostj) & _ & Hterm).
  rewrite (bind_ret_eq _ _ _ _ _ Hentry) in Hentries.
  destruct (monitor_entries_spec env rest c1 wj) as (c2 & wk & Hrest & Hqk & more & Hmore).
  rewrite Hrest in Hentries. injection Hentries as <- <-.
  destruct (quiet_step_trace _ _ _ Hqk) as (evk & Hevk).
  destruct (remove_completed_spec c2 wk) as (w2' & Hremove' & (evr & Hevr & _) & _ & _ & Hgone).
  rewrite Hremove in Hremove'. injection Hremove' as <-.
  cbn [trace set_trace active_workflows workflow_callbacks].
  split.
  - eexists. rewrite Hevr, Hevk, Hpostj, <- !app_assoc. cbn. reflexivity.
  - intros wobs Hobs. destruct (Hterm wobs Hobs) as (Hc1 & Hcall).
    assert (Hin : In i c2).
    { rewrite Hmore, Hc1. apply in_or_app. left. apply in_or_app. right. now left. }
    destruct (Hgone i Hin) as (Hact & Hcbs).
    split; [exact Hact|]. split; [exact Hcbs|].
    intros cbs cb Hcbs0 Hcb.
    destruct (Hcall cbs cb) as (post & Hpost); [|exact Hcb|].
    { rewrite (proj1 Hqi). exact Hcbs0. }
    eexists. rewrite Hevr, Hevk, Hpost, <- !app_assoc. cbn. reflexivity.
Qed.

(** ** The critical sections of a worker *)

Lemma worker_blocks_nil i : worker_blocks i [].
Proof. exists []. split; [reflexivity|constructor]. Qed.

Lemma worker_blocks_app i a b :
  worker_blocks i a -> worker_blocks i b -> worker_blocks i (a ++ b).
Proof.
  intros (ba & -> & Ha) (bb & -> & Hb). exists (ba ++ bb).
  split; [now rewrite concat_app|]. apply Forall_app. auto.
Qed.

Lemma worker_blocks_event i e : worker_event e = true -> worker_blocks i [e].
Proof.
  intros He. exists [[e]]. split; [reflexivity|].
  constructor; [left; eauto|constructor].
Qed.

Lemma worker_blocks_write i wf : worker_blocks i [EvAcquire; EvRegister i wf; EvRelease].
Proof.
  exists [[EvAcquire; EvRegister i wf; EvRelease]]. split; [reflexivity|].
  constructor; [right; eauto|constructor].
Qed.

Lemma worker_blocks_disciplined i evs :
  worker_blocks i evs -> disciplined (worker_lock_discipline i) evs.
Proof.
  intros (blocks & -> & Hblocks).
  induction Hblocks as [|block blocks Hblock _ IH]; [reflexivity|].
  cbn [concat]. apply disciplined_app; [|exact IH].
  destruct Hblock as [(e & -> & He)|(wf & ->)].
  - unfold disciplined, lock_scan. cbn.
    destruct e; cbn in *; try discriminate; rewrite ?He; reflexivity.
  - unfold disciplined, lock_scan. cbn. now rewrite String.eqb_refl.
Qed.

(** Anything else than the write between an acquire and a release breaks
    the discipline. *)
Example worker_lock_discipline_rejects :
  lock_scan (worker_lock_discipline "job") false
            [EvAcquire; EvRegister "job" 0; EvLogInfo; EvSleep 3600; EvRelease] = None
  /\ lock_scan (worker_lock_discipline "job") false
               [EvAcquire; EvGet "workflowInvocations/1"; EvRelease] = None
  /\ lock_scan (worker_lock_discipline "job") false
               [EvAcquire; EvRegister "other" 0; EvRelease] = None
  /\ lock_scan (worker_lock_discipline "job") false [EvRegister "job" 0] = None.
Proof. repeat split. Qed.

Section WorkerSections.
Variable env : Env.
Variable self : WorkflowManager.t.
Variable fuel : nat.
Variable execution_id : string.

Let B := emits (worker_blocks execution_id).

Lemma B_bind {A C} (m : M A) (k : A -> M C) :
  respects B m -> (forall a, respects B (k a)) -> respects B (bind m k).
Proof. apply respects_bind, emits_trans, worker_blocks_app. Qed.

Lemma B_ret {A} (a : A) : respects B (ret a).
Proof. apply respects_ret, emits_refl, worker_blocks_nil. Qed.

Lemma B_quiet q {A} (m : M A) :
  (forall e, q e = true -> worker_event e = true) ->
  respects (quiet_step q) m -> respects B m.
Proof.
  intros Hq Hm.
  apply (emits_of_quiet (worker_blocks execution_id)) with (q := q);
    auto using worker_blocks_nil, worker_blocks_app, worker_blocks_event.
Qed.

Lemma fire_blocks role cbs wf err :
  role <> OnComplete ->
  respects B (WorkflowManager.fire role execution_id cbs wf err).
Proof.
  intros Hrole.
  apply fire_emits;
    auto using worker_blocks_nil, worker_blocks_app, worker_blocks_event.
Qed.

Lemma register_blocks wf : respects B (WorkflowManager.register execution_id wf).
Proof.
  intros w. exists [EvAcquire; EvRegister execution_id wf; EvRelease].
  split; [|apply worker_blocks_write]. cbn. now rewrite <- !app_assoc.
Qed.

Lemma after_submission_blocks wait timeout wf :
  respects B (WorkflowManager.after_submission env fuel execution_id wait timeout wf).
Proof.
  unfold WorkflowManager.after_submission.
  apply B_bind; [apply register_blocks|intros _].
  apply B_bind; [apply respects_read, emits_refl, worker_blocks_nil|intros cbs].
  apply B_bind; [apply fire_blocks; discriminate|intros _].
  destruct wait; [|apply B_ret].
  apply B_bind; [|intros _; apply B_ret].
  apply (B_quiet polling_event);
    [apply polling_is_worker|apply wait_for_completion_quiet; reflexivity].
Qed.

Lemma on_failure_blocks retries wf e :
  respects B (WorkflowManager.on_failure self execution_id retries wf e).
Proof.
  apply on_failure_emits;
    auto using worker_blocks_nil, worker_blocks_app, worker_blocks_event.
Qed.

Lemma retry_loop_blocks iterations wait timeout fr : forall retries wf,
  respects B (WorkflowManager.retry_loop env self fuel iterations execution_id wait timeout
                fr retries wf).
Proof.
  induction iterations as [|n IH]; intros retries wf; cbn [WorkflowManager.retry_loop].
  - apply respects_diverge, emits_refl, worker_blocks_nil.
  - destruct (retries <=? WorkflowManager.max_retries self); [|apply B_ret].
    apply B_bind.
    { apply respects_catch, (B_quiet submission_event), run_workflow_quiet;
        auto using submission_is_worker. }
    intros [e|wf'].
    + apply B_bind; [apply on_failure_blocks|intros r; apply IH].
    + apply B_bind; [apply respects_catch, after_submission_blocks|].
      intros [e|[]]; [|apply B_ret].
      apply B_bind; [apply on_failure_blocks|intros r; apply IH].
Qed.
End WorkerSections.

(** The readers: the lookup is all that happens under the lock. *)
Lemma reader_world (w : World) :
  set_trace (trace (set_trace (trace w ++ [EvAcquire]) w) ++ [EvRelease])
            (set_trace (trace w ++ [EvAcquire]) w)
  = set_trace (trace w ++ [EvAcquire; EvRelease]) w.
Proof. unfold set_trace. cbn. now rewrite <- app_assoc. Qed.

(** C4 (as the code has it): a worker holds the lock only while it writes
    the registry.  Its events are a sequence of blocks, each of them one
    event emitted with the lock free (a remote call of the compilation, of
    the invocation or of a wait, a callback, a log line, a sleep) or the
    write of its own entry alone between an acquire and a release; hence
    while the lock is held nothing happens but that write, and all its
    remote calls happen while the lock is free.  The two readers
    hold the lock only to read: they return what the registry holds and
    leave, between the acquire and the release, no event and no change.
    The poller holds the lock for a whole pass: the events of a pass are one
    critical section, and the refreshes of the registered handles, at least
    one per entry, happen inside it. *)
Theorem lock_spans_registry_access_and_poller_pass
        (env : Env) (self : WorkflowManager.t) (fuel : nat) :
  (forall task w,
      emits (worker_blocks (task_execution_id task)) w
            (snd (WorkflowManager.run_task env self fuel task w))
      /\ emits (disciplined (worker_lock_discipline (task_execution_id task))) w
               (snd (WorkflowManager.run_task env self fuel task w))
      /\ emits (disciplined remote_outside_lock) w
               (snd (WorkflowManager.run_task env self fuel task w)))
  /\ (forall i w, WorkflowManager.get_workflow i w
                  = (Ret (WorkflowManager.dict_get i (active_workflows w)),
                     set_trace (trace w ++ [EvAcquire; EvRelease]) w))
  /\ (forall w, WorkflowManager.get_all_workflows w
                = (Ret (List.map snd (active_workflows w)),
                   set_trace (trace w ++ [EvAcquire; EvRelease]) w))
  /\ (forall w, exists body,
         trace (snd (WorkflowManager.monitor_pass env w))
         = trace w ++ EvAcquire :: body ++ [EvRelease]
         /\ all_events poller_event body
         /\ disciplined remote_inside_lock (EvAcquire :: body ++ [EvRelease])
         /\ (length (active_workflows w) <= count_events is_get body)%nat).
Proof.
  split; [|split; [|split]].
  - intros task w. split; [|split].
    + apply retry_loop_blocks.
    + eapply emits_weaken; [apply worker_blocks_disciplined|].
      apply retry_loop_blocks.
    + apply (run_task_emits (disciplined remote_outside_lock)); try reflexivity.
      * apply disciplined_app.
      * apply worker_event_outside.
  - intros i w.
    unfold WorkflowManager.get_workflow, WorkflowManager.with_lock, emit, bind.
    cbn [active_workflows set_trace]. now rewrite reader_world.
  - intros w.
    unfold WorkflowManager.get_all_workflows, WorkflowManager.with_lock, emit, bind.
    cbn [active_workflows set_trace]. now rewrite reader_world.
  - intros w.
    destruct (monitor_pass_eq env w) as (c & w1 & w2 & Hentries & Hremove & Hpass).
    cbv zeta in Hentries. rewrite Hpass. cbn [snd trace set_trace].
    pose proof (monitor_entries_fetches env _ _ _ _ _ Hentries) as Hcount.
    destruct (monitor_entries_spec env (active_workflows w) []
                (set_trace (trace w ++ [EvAcquire]) w)) as (c' & w1' & Hentries' & Hq & _).
    rewrite Hentries in Hentries'. injection Hentries' as <- <-.
    destruct (quiet_step_events _ _ _ Hq) as (ev1 & Hev1 & Hall1).
    destruct (remove_completed_spec c w1) as (w2' & Hremove' & (ev2 & Hev2 & Hall2) & _).
    rewrite Hremove in Hremove'. injection Hremove' as <-.
    exists (ev1 ++ ev2).
    assert (Hall : all_events poller_event (ev1 ++ ev2)) by now apply all_events_app.
    split; [rewrite Hev2, Hev1; cbn; rewrite <- !app_assoc; reflexivity|].
    split; [exact Hall|]. split; [now apply critical_section_inside|].
    rewrite Hev1 in Hcount. cbn [trace set_trace] in Hcount.
    rewrite !count_events_app in Hcount. cbn in Hcount.
    rewrite count_events_app.
    lia.
Qed.

(** C4 (as stated) fails for the poller: with one registered handle, its
    pass fetches the remote snapshot twice between acquiring and releasing
    the lock. *)
Lemma poller_refreshes_while_holding_the_lock :
  let w' := snd (WorkflowManager.monitor_pass (Scenario.remote_in RUNNING)
                   Scenario.world_registered) in
  trace w' = [EvAcquire; EvGet "workflowInvocations/1"; EvGet "workflowInvocations/1";
              EvRelease]
  /\ lock_scan remote_outside_lock false (trace w') = None
  /\ ~ disciplined remote_outside_lock (trace w').
Proof.
  cbv zeta.
  assert (H : trace (snd (WorkflowManager.monitor_pass (Scenario.remote_in RUNNING)
                            Scenario.world_registered))
              = [EvAcquire; EvGet "workflowInvocations/1"; EvGet "workflowInvocations/1";
                 EvRelease]) by (vm_compute; reflexivity).
  rewrite H. split; [reflexivity|]. split; [reflexivity|]. discriminate.
Qed.

(** C3 (as the code has it): at any iteration of the retry loop the service
    is run without waiting.  When that submission succeeds, the handle is
    written to the registry between an acquire and a release of the lock,
    the on_start callback registered for the execution is invoked, and the
    loop ends: at once when no wait was asked; otherwise after the wait,
    whose normal return leaves the handle in a terminal state.  When the
    wait raises instead (its timeout, or a refresh error), the loop goes on
    with its handler, as for a failed submission.  No run of a worker ever
    asks the service to wait. *)
Theorem retry_loop_submits_then_registers
        (env : Env) (self : WorkflowManager.t) (fuel : nat)
        (execution_id : string) (wait : bool) (timeout_seconds : Z) (full_refresh : bool)
        (iterations : nat) (retries : Z) (workflow : option nat) (w : World)
        (wf : nat) (w1 : World)
        (Hretries : retries <= WorkflowManager.max_retries self)
        (Hrun : DataformService.run_workflow env (WorkflowManager.config self) fuel
                  (Some execution_id) false timeout_seconds full_refresh w = (Ret wf, w1))
        (Hcb : forall cb, workflow_callbacks w1 !! execution_id ≫= on_start = Some cb ->
                          cb_raises cb = None) :
  (exists w2,
      trace w2 = trace w1 ++ [EvAcquire; EvRegister execution_id wf; EvRelease]
                          ++ started execution_id w1 wf
      /\ WorkflowManager.dict_get execution_id (active_workflows w2) = Some wf
      /\ (wait = false ->
          WorkflowManager.retry_loop env self fuel (S iterations) execution_id wait
            timeout_seconds full_refresh retries workflow w = (Ret tt, w2))
      /\ (wait = true ->
          forall r w3,
            DataformWorkflow.wait_for_completion env fuel wf 30 timeout_seconds w2 = (r, w3) ->
            match r with
            | Ret _ =>
                WorkflowManager.retry_loop env self fuel (S iterations) execution_id wait
                  timeout_seconds full_refresh retries workflow w = (Ret tt, w3)
                /\ wi_state (heap w3 wf) ∈ DataformWorkflow.terminal_states
            | Raise e =>
                WorkflowManager.retry_loop env self fuel (S iterations) execution_id wait
                  timeout_seconds full_refresh retries workflow w
                = bind (WorkflowManager.on_failure self execution_id retries (Some wf) e)
                       (fun retries' =>
                          WorkflowManager.retry_loop env self fuel iterations execution_id
                            wait timeout_seconds full_refresh retries' (Some wf)) w3
            | Diverge =>
                WorkflowManager.retry_loop env self fuel (S iterations) execution_id wait
                  timeout_seconds full_refresh retries workflow w = (Diverge, w3)
            end))
  /\ (forall task w0,
         emits (all_events nonblocking_submission) w0
               (snd (WorkflowManager.run_task env self fuel task w0))).
Proof.
  split.
  - now apply successful_attempt.
  - intros task w0.
    apply (run_task_emits (all_events nonblocking_submission)); try reflexivity.
    + apply all_events_app.
    + intros e He. unfold all_events. cbn. rewrite andb_true_r.
      destruct e as [| | | | | | | |? [|] ? ?| | |]; cbn in *; auto; discriminate.
Qed.

(** ** The statements at concrete inputs *)

Lemma always_failing_submission_calls_on_error_witness :
  cb_raises (Scenario.quiet "error") = None
  /\ 0 <= WorkflowManager.retry_delay_seconds (Scenario.manager 2)
  /\ -1 <= WorkflowManager.max_retries (Scenario.manager 2)
  /\ exists eid w1 w2,
      WorkflowManager.run_workflow (Scenario.manager 2) (Some "job"%string) true 100 true
        None None (Some (Scenario.quiet "error")) Scenario.world0 = (Ret eid, w1)
      /\ executor_queue w1 = executor_queue Scenario.world0 ++ [mkTask eid true 100 true]
      /\ WorkflowManager.run_task Scenario.remote_down (Scenario.manager 2) 3
           (mkTask eid true 100 true) w1 = (Ret tt, w2)
      /\ Z.of_nat (count_role OnError (trace w2))
         = Z.of_nat (count_role OnError (trace Scenario.world0))
           + (WorkflowManager.max_retries (Scenario.manager 2) + 1)
      /\ count_role OnStart (trace w2) = count_role OnStart (trace Scenario.world0)
      /\ count_role OnComplete (trace w2) = count_role OnComplete (trace Scenario.world0).
Proof.
  split; [reflexivity|]. split; [cbn; lia|]. split; [cbn; lia|].
  apply (always_failing_submission_calls_on_error Scenario.remote_down (Scenario.manager 2) 3
           (Some "job"%string) true 100 true None None (Scenario.quiet "error")
           Scenario.world0).
  - intros eid w0.
    unfold DataformService.run_workflow, DataformService.compile, remote_call, emit, bind.
    cbn. eexists _, _. reflexivity.
  - reflexivity.
  - cbn. lia.
  - cbn. lia.
Defined.

(** The scenario evaluated: three attempts, three on_error calls. *)
Example always_failing_scenario :
  let m := bind (WorkflowManager.run_workflow (Scenario.manager 2) (Some "job"%string) true
                   100 true (Some (Scenario.quiet "start")) (Some (Scenario.quiet "complete"))
                   (Some (Scenario.quiet "error")))
                (fun eid => WorkflowManager._run_workflow_with_retry Scenario.remote_down
                              (Scenario.manager 2) 3 eid true 100 true) in
  let w' := snd (m Scenario.world0) in
  fst (m Scenario.world0) = Ret tt
  /\ count_role OnError (trace w') = 3%nat
  /\ count_role OnStart (trace w') = 0%nat
  /\ count_role OnComplete (trace w') = 0%nat
  /\ count_events (fun e => match e with EvServiceRun _ _ _ _ => true | _ => false end)
                  (trace w') = 3%nat.
Proof. cbv zeta. repeat split; vm_compute; reflexivity. Qed.

(** An on_error callback that raises ends the loop at its first call, and
    no callback is invoked when none was given. *)
Example raising_on_error_scenario :
  let m := bind (WorkflowManager.run_workflow (Scenario.manager 2) (Some "job"%string) true
                   100 true None None (Some (Scenario.faulty "error")))
                (fun eid => WorkflowManager._run_workflow_with_retry Scenario.remote_down
                              (Scenario.manager 2) 3 eid true 100 true) in
  fst (m Scenario.world0) = Raise (CallbackError "error")
  /\ count_role OnError (trace (snd (m Scenario.world0))) = 1%nat.
Proof. cbv zeta. split; vm_compute; reflexivity. Qed.

Example absent_on_error_scenario :
  let m := bind (WorkflowManager.run_workflow (Scenario.manager 2) (Some "job"%string) true
                   100 true None None None)
                (fun eid => WorkflowManager._run_workflow_with_retry Scenario.remote_down
                              (Scenario.manager 2) 3 eid true 100 true) in
  fst (m Scenario.world0) = Ret tt
  /\ count_role OnError (trace (snd (m Scenario.world0))) = 0%nat.
Proof. cbv zeta. split; vm_compute; reflexivity. Qed.

Lemma retry_loop_submits_then_registers_witness :
  let w1 := snd (DataformService.run_workflow (Scenario.remote_in SUCCEEDED)
                   (WorkflowManager.config (Scenario.manager 2)) 3 (Some "job"%string)
                   false 100 true Scenario.world_registered) in
  0 <= WorkflowManager.max_retries (Scenario.manager 2)
  /\ DataformService.run_workflow (Scenario.remote_in SUCCEEDED)
       (WorkflowManager.config (Scenario.manager 2)) 3 (Some "job"%string)
       false 100 true Scenario.world_registered = (Ret 1%nat, w1)
  /\ exists w2,
      trace w2 = trace w1 ++ [EvAcquire; EvRegister "job" 1; EvRelease]
                          ++ started "job" w1 1
      /\ WorkflowManager.dict_get "job" (active_workflows w2) = Some 1%nat.
Proof.
  cbv zeta. split; [cbn; lia|]. split; [reflexivity|].
  destruct (retry_loop_submits_then_registers (Scenario.remote_in SUCCEEDED)
              (Scenario.manager 2) 3 "job" true 100 true 3 0 None
              Scenario.world_registered 1
              (snd (DataformService.run_workflow (Scenario.remote_in SUCCEEDED)
                      (WorkflowManager.config (Scenario.manager 2)) 3 (Some "job"%string)
                      false 100 true Scenario.world_registered)))
    as [(w2 & Htrace & Hdict & _) _].
  - cbn. lia.
  - reflexivity.
  - intros cb H. vm_compute in H. injection H as <-. reflexivity.
  - exists w2. split; [exact Htrace|exact Hdict].
Defined.

(** C3 (as stated) fails in its last part: the worker does not always block
    until the handle is in a terminal state.  Against invocations that stay
    RUNNING, with a timeout of 60 and one retry, the wait of each attempt
    times out: on_error is called with the timeout, the workflow is
    submitted a second time, and the worker ends while the registered
    handle is still RUNNING. *)
Lemma worker_stops_waiting_at_timeout :
  let r := WorkflowManager._run_workflow_with_retry (Scenario.remote_in RUNNING)
             (Scenario.manager 1) 3 "job" true 60 true Scenario.world_registered in
  fst r = Ret tt
  /\ active_workflows (snd r) = [("job"%string, 2%nat)]
  /\ wi_state (heap (snd r) 2%nat) = RUNNING
  /\ (wi_state (heap (snd r) 2%nat) ∉ DataformWorkflow.terminal_states)
  /\ (List.filter (is_callback OnError) (trace (snd r)))
     = [EvCallback OnError "job" (Scenario.quiet "error") (Some 1%nat)
                   (Some (TimeoutError 60));
        EvCallback OnError "job" (Scenario.quiet "error") (Some 2%nat)
                   (Some (TimeoutError 60))]
  /\ count_events (fun e => match e with EvServiceRun _ _ _ _ => true | _ => false end)
                  (trace (snd r)) = 2%nat.
Proof.
  cbv zeta.
  assert (Hstate : wi_state (heap (snd (WorkflowManager._run_workflow_with_retry
                                          (Scenario.remote_in RUNNING) (Scenario.manager 1) 3
                                          "job" true 60 true Scenario.world_registered)) 2%nat)
                   = RUNNING) by (vm_compute; reflexivity).
  split; [vm_compute; reflexivity|]. split; [vm_compute; reflexivity|].
  split; [exact Hstate|]. split.
  - rewrite Hstate, terminal_states_spec. intuition discriminate.
  - split; vm_compute; reflexivity.
Qed.

(** The scenario evaluated: the worker was asked to wait, the service was
    not; the handle is registered, on_start is called, then the worker
    polls. *)
Example successful_submission_scenario :
  let r := WorkflowManager._run_workflow_with_retry (Scenario.remote_in SUCCEEDED)
             (Scenario.manager 2) 3 "job" true 100 true Scenario.world_registered in
  fst r = Ret tt
  /\ List.map (fun e => match e with EvServiceRun _ wait _ _ => Some wait | _ => None end)
              (List.filter (fun e => match e with EvServiceRun _ _ _ _ => true | _ => false end)
                           (trace (snd r))) = [Some false]
  /\ skipn 3 (trace (snd r))
     = [EvAcquire; EvRegister "job" 1; EvRelease;
        EvCallback OnStart "job" (Scenario.quiet "start") (Some 1%nat) None;
        EvGet "workflowInvocations/1"; EvGet "workflowInvocations/1"]
  /\ active_workflows (snd r) = [("job"%string, 1%nat)]
  /\ wi_state (heap (snd r) 1%nat) = SUCCEEDED.
Proof. cbv zeta. repeat split; vm_compute; reflexivity. Qed.

(** A pass over two entries: the refresh of the first fails and is logged;
    the second is still fetched, found finished, reported and evicted. *)
Example poller_pass_scenario :
  let r := WorkflowManager.monitor_pass Scenario.remote_recovering
             Scenario.world_two_registered in
  fst r = Ret tt
  /\ trace (snd r)
     = [EvAcquire;
        EvGet "workflowInvocations/1"; EvLogError (Remote RemoteUnavailable);
        EvGet "workflowInvocations/1"; EvGet "workflowInvocations/1";
        EvCallback OnComplete "second" (Scenario.quiet "second done") (Some 1%nat) None;
        EvEvict "second"; EvRelease]
  /\ active_workflows (snd r) = [("first"%string, 0%nat)]
  /\ workflow_callbacks (snd r) !! "second"%string = None.
Proof. cbv zeta. repeat split; vm_compute; reflexivity. Qed.

(** * Further properties of the handle *)

Section Queries.
Variable env : Env.

(** Every state query is a refresh followed by a read of the new snapshot. *)
Lemma refresh_then_read {A} (f : WorkflowInvocation -> A) self w :
  bind (DataformWorkflow.refresh env self) (fun _ w' => (Ret (f (heap w' self)), w')) w
  = match get_workflow_invocation env (ncalls w) (wi_name (heap w self)) with
    | inl r => (Raise (Remote r),
                charge (EvGet (wi_name (heap w self))) (latency env (ncalls w)) w)
    | inr wi => (Ret (f wi),
                 set_heap (<[self := wi]> (heap w))
                   (charge (EvGet (wi_name (heap w self))) (latency env (ncalls w)) w))
    end.
Proof.
  unfold bind. rewrite refresh_eq. cbv zeta.
  destruct (get_workflow_invocation env (ncalls w) (wi_name (heap w self))); cbn;
    [reflexivity|]. now rewrite fn_lookup_insert.
Qed.

Lemma str_eq self w :
  DataformWorkflow.__str__ env self w
  = match get_workflow_invocation env (ncalls w) (wi_name (heap w self)) with
    | inl r => (Raise (Remote r),
                charge (EvGet (wi_name (heap w self))) (latency env (ncalls w)) w)
    | inr wi => (Ret ("DataformWorkflow(name="
                        +:+ DataformWorkflow.last_segment (wi_name (heap w self))
                        +:+ ", state=" +:+ DataformWorkflow.state_name (wi_state wi) +:+ ")"),
                 set_heap (<[self := wi]> (heap w))
                   (charge (EvGet (wi_name (heap w self))) (latency env (ncalls w)) w))
    end.
Proof.
  unfold DataformWorkflow.__str__, DataformWorkflow.name, DataformWorkflow.state.
  unfold bind at 1. unfold bind at 1.
  rewrite (refresh_then_read (fun wi => DataformWorkflow.state_name (wi_state wi))).
  destruct (get_workflow_invocation env (ncalls w) (wi_name (heap w self))); reflexivity.
Qed.
End Queries.

(** X1: when the fetch fails, every operation that refreshes raises the
    error of the remote and leaves the stored snapshot as it was, so that
    the timing accessors still answer from it; the failed call is counted. *)
Theorem failed_fetch_propagates_and_keeps_snapshot
        (env : Env) (self : nat) (w : World) (r : RemoteError)
        (Hfail : get_workflow_invocation env (ncalls w) (wi_name (heap w self)) = inl r) :
  let failed {A} (res : Outcome A * World) :=
    fst res = Raise (Remote r)
    /\ heap (snd res) = heap w
    /\ ncalls (snd res) = S (ncalls w)
    /\ DataformWorkflow.duration_seconds self (snd res)
       = (fst (DataformWorkflow.duration_seconds self w), snd res) in
  failed (DataformWorkflow.refresh env self w)
  /\ failed (DataformWorkflow.raw_state env self w)
  /\ failed (DataformWorkflow.state env self w)
  /\ failed (DataformWorkflow.is_complete env self w)
  /\ failed (DataformWorkflow.is_successful env self w)
  /\ failed (DataformWorkflow.is_failed env self w)
  /\ failed (DataformWorkflow.is_cancelled env self w)
  /\ failed (DataformWorkflow.is_running env self w)
  /\ failed (DataformWorkflow.__str__ env self w).
Proof.
  cbv zeta.
  assert (Hd : forall w', heap w' = heap w ->
             DataformWorkflow.duration_seconds self w'
             = (fst (DataformWorkflow.duration_seconds self w), w')).
  { intros w' Hh. rewrite !duration_seconds_eq, Hh. reflexivity. }
  repeat split;
    first [ rewrite str_eq
          | unfold DataformWorkflow.raw_state, DataformWorkflow.state,
              DataformWorkflow.is_complete, DataformWorkflow.is_successful,
              DataformWorkflow.is_failed, DataformWorkflow.is_cancelled,
              DataformWorkflow.is_running, bind; rewrite refresh_eq ];
    cbv zeta; rewrite ?Hfail; try reflexivity; apply Hd; reflexivity.
Qed.

(** X2: against a remote that keeps answering a request for the handle's
    invocation with the same snapshot, the five flags read one after the
    other agree with each other: is_complete is the disjunction of
    is_successful, is_failed and is_cancelled, at most one of those three
    and is_running holds, and the five queries cost five remote calls. *)
Theorem state_flags_agree_on_a_steady_remote
        (env : Env) (self : nat) (w : World) (wi : WorkflowInvocation)
        (Hname : wi_name wi = wi_name (heap w self))
        (Hsteady : forall k, get_workflow_invocation env k (wi_name (heap w self)) = inr wi) :
  exists c s f x r w',
    bind (DataformWorkflow.is_complete env self) (fun c =>
    bind (DataformWorkflow.is_successful env self) (fun s =>
    bind (DataformWorkflow.is_failed env self) (fun f =>
    bind (DataformWorkflow.is_cancelled env self) (fun x =>
    bind (DataformWorkflow.is_running env self) (fun r =>
    ret (c, s, f, x, r)))))) w = (Ret (c, s, f, x, r), w')
    /\ c = s || f || x
    /\ (r = true -> c = false)
    /\ (s && f = false /\ s && x = false /\ f && x = false)
    /\ ncalls w' = (ncalls w + 5)%nat
    /\ heap w' self = wi.
Proof.
  assert (Hstep : forall {A} (f : WorkflowInvocation -> A) v,
             wi_name (heap v self) = wi_name (heap w self) ->
             exists v',
               bind (DataformWorkflow.refresh env self)
                    (fun _ w' => (Ret (f (heap w' self)), w')) v = (Ret (f wi), v')
               /\ wi_name (heap v' self) = wi_name (heap w self)
               /\ ncalls v' = S (ncalls v)
               /\ heap v' self = wi).
  { intros A f v Hv. rewrite refresh_then_read, Hv, Hsteady.
    eexists. split; [reflexivity|]. cbn. rewrite fn_lookup_insert. auto. }
  destruct (Hstep _ (fun wi => bool_decide (wi_state wi ∈ DataformWorkflow.terminal_states))
              w eq_refl) as (w1 & H1 & N1 & C1 & _).
  destruct (Hstep _ (fun wi => bool_decide (wi_state wi = SUCCEEDED)) w1 N1)
    as (w2 & H2 & N2 & C2 & _).
  destruct (Hstep _ (fun wi => bool_decide (wi_state wi = FAILED)) w2 N2)
    as (w3 & H3 & N3 & C3 & _).
  destruct (Hstep _ (fun wi => bool_decide (wi_state wi = CANCELLED)) w3 N3)
    as (w4 & H4 & N4 & C4 & _).
  destruct (Hstep _ (fun wi => bool_decide (wi_state wi = RUNNING)) w4 N4)
    as (w5 & H5 & N5 & C5 & Hheap).
  eexists _, _, _, _, _, w5. split.
  - rewrite (bind_ret_eq _ _ _ _ _ H1), (bind_ret_eq _ _ _ _ _ H2),
      (bind_ret_eq _ _ _ _ _ H3), (bind_ret_eq _ _ _ _ _ H4), (bind_ret_eq _ _ _ _ _ H5).
    reflexivity.
  - split; [|split; [|split; [|split; [lia|exact Hheap]]]];
      destruct (wi_state wi); try reflexivity; try discriminate; repeat split.
Qed.

(** X3: with a timeout that is not positive, wait_for_completion raises
    Timeout at once: no fetch is made and nothing changes, whatever the state
    of the invocation. *)
Theorem wait_for_completion_without_time_raises_at_once
        (env : Env) (fuel : nat) (self : nat) (poll_interval_seconds timeout_seconds : Z)
        (w : World)
        (Htimeout : timeout_seconds <= 0) :
  DataformWorkflow.wait_for_completion env (S fuel) self poll_interval_seconds
                                       timeout_seconds w
  = (Raise (TimeoutError timeout_seconds), w).
Proof.
  unfold DataformWorkflow.wait_for_completion, bind at 1, time_time.
  rewrite wait_loop_S.
  replace (clock w - clock w <? timeout_seconds) with false; [reflexivity|].
  symmetry. apply Z.ltb_ge. lia.
Qed.

Lemma wait_loop_outcomes (env : Env) (self : nat) (poll timeout start : Z) (fuel : nat) :
  forall w,
    match DataformWorkflow.wait_loop env fuel self poll timeout start w with
    | (Ret workflow, w') =>
        workflow = self /\ wi_state (heap w' self) ∈ DataformWorkflow.terminal_states
    | (Raise e, w') =>
        (e = TimeoutError timeout /\ timeout <= clock w' - start)
        \/ (exists r, e = Remote r)
        \/ (e = ValueError /\ poll < 0)
    | (Diverge, _) => True
    end.
Proof.
  induction fuel as [|fuel IH]; intros w; [exact I|].
  rewrite wait_loop_S.
  destruct (clock w - start <? timeout) eqn:Hnow.
  - rewrite refresh_eq. cbv zeta.
    destruct (get_workflow_invocation env (ncalls w) (wi_name (heap w self)));
      [right; left; eauto|].
    rewrite is_complete_eq. cbv zeta.
    match goal with |- context [get_workflow_invocation env ?k ?n] =>
      destruct (get_workflow_invocation env k n) as [|wi] end; [right; left; eauto|].
    destruct (bool_decide _) eqn:Hterm.
    + split; [reflexivity|]. cbn. rewrite fn_lookup_insert.
      now apply bool_decide_eq_true in Hterm.
    + unfold time_sleep. destruct (poll <? 0) eqn:Hp.
      * right; right. split; [reflexivity|]. now apply Z.ltb_lt.
      * apply IH.
  - apply Z.ltb_ge in Hnow. left. split; [reflexivity|lia].
Qed.

Lemma wait_for_completion_cases
      (env : Env) (fuel : nat) (self : nat) (poll timeout : Z) (w : World) :
  match DataformWorkflow.wait_for_completion env fuel self poll timeout w with
  | (Ret workflow, w') =>
      workflow = self /\ wi_state (heap w' self) ∈ DataformWorkflow.terminal_states
  | (Raise e, w') =>
      (e = TimeoutError timeout /\ timeout <= clock w' - clock w)
      \/ (exists r, e = Remote r)
      \/ (e = ValueError /\ poll < 0)
  | (Diverge, _) => True
  end.
Proof.
  unfold DataformWorkflow.wait_for_completion, bind at 1, time_time.
  apply wait_loop_outcomes.
Qed.

(** X4: the outcomes of wait_for_completion.  It returns only the handle
    itself, in a terminal state; what it raises is its own Timeout, an error
    of the remote, or the error of a sleep of negative length, never
    anything else. *)
Theorem wait_for_completion_outcomes
        (env : Env) (fuel : nat) (self : nat) (poll_interval_seconds timeout_seconds : Z)
        (w : World) :
  match DataformWorkflow.wait_for_completion env fuel self poll_interval_seconds
                                             timeout_seconds w with
  | (Ret workflow, w') =>
      workflow = self /\ wi_state (heap w' self) ∈ DataformWorkflow.terminal_states
  | (Raise e, w') =>
      (e = TimeoutError timeout_seconds /\ timeout_seconds <= clock w' - clock w)
      \/ (exists r, e = Remote r)
      \/ (e = ValueError /\ poll_interval_seconds < 0)
  | (Diverge, _) => True
  end.
Proof. apply wait_for_completion_cases. Qed.

(** X5: when the deadline has not passed and the remote answers the two
    fetches of the first iteration, the second with a finished invocation,
    wait_for_completion returns the handle after these two calls, without
    sleeping; the handle holds the second answer. *)
Theorem wait_for_completion_returns_at_first_terminal_observation
        (env : Env) (fuel : nat) (self : nat) (poll_interval_seconds timeout_seconds : Z)
        (w : World) (wi1 wi2 : WorkflowInvocation)
        (Htimeout : 0 < timeout_seconds)
        (Hfirst : get_workflow_invocation env (ncalls w) (wi_name (heap w self)) = inr wi1)
        (Hsecond : get_workflow_invocation env (S (ncalls w)) (wi_name wi1) = inr wi2)
        (Hdone : wi_state wi2 ∈ DataformWorkflow.terminal_states) :
  exists w',
    DataformWorkflow.wait_for_completion env (S fuel) self poll_interval_seconds
                                         timeout_seconds w = (Ret self, w')
    /\ trace w' = trace w ++ [EvGet (wi_name (heap w self)); EvGet (wi_name wi1)]
    /\ clock w' = clock w + latency env (ncalls w) + latency env (S (ncalls w))
    /\ heap w' self = wi2.
Proof.
  unfold DataformWorkflow.wait_for_completion, bind at 1, time_time.
  rewrite wait_loop_S.
  replace (clock w - clock w <? timeout_seconds) with true
    by (symmetry; apply Z.ltb_lt; lia).
  rewrite refresh_eq, Hfirst. cbv beta iota zeta. rewrite is_complete_eq. cbn.
  rewrite fn_lookup_insert, Hsecond.
  rewrite bool_decide_eq_true_2 by exact Hdone.
  eexists. split; [reflexivity|]. cbn.
  rewrite <- app_assoc, fn_lookup_insert. auto.
Qed.

Lemma add_zero_r (f : PyFloat.t) z :
  PyFloat.is_int f z -> PyFloat.add f (S754_zero false) = f.
Proof.
  destruct f as [[|]| | |]; cbn; intros H; try reflexivity; destruct H; discriminate.
Qed.

(** X6: a duration of whole seconds is exact.  When the two timestamps
    have the same nanos and their seconds differ by less than 2^53 in
    absolute value, duration_seconds is that difference itself, as a float:
    the quotient is zero, nothing is rounded and nothing is raised.  Its
    sign is that of the difference: it is negative exactly when the end
    lies before the start. *)
Theorem duration_seconds_of_whole_seconds_is_exact
        (self : nat) (w : World) (s e : Timestamp)
        (Hstart : wi_invocation_timing (heap w self) ≫= timing_start_time = Some s)
        (Hend : wi_invocation_timing (heap w self) ≫= timing_end_time = Some e)
        (Hnanos : nanos e = nanos s)
        (Hrange : Z.abs (seconds e - seconds s) < 2 ^ 53) :
  exists f,
    DataformWorkflow.duration_seconds self w = (Ret (Some f), w)
    /\ PyFloat.is_int f (seconds e - seconds s).
Proof.
  rewrite duration_seconds_eq, Hstart, Hend, Hnanos, Z.sub_diag.
  destruct (of_int_exact _ Hrange) as (whole & -> & Hwhole).
  change (PyFloat.of_int 0) with (Some (S754_zero false)). cbv beta iota.
  change (PyFloat.div (S754_zero false) PyFloat.lit_1e9) with (S754_zero false).
  rewrite (add_zero_r _ _ Hwhole). eauto.
Qed.

(** * Splitting a resource name *)

Lemma str_split_nonempty sep s : DataformWorkflow.str_split sep s <> [].
Proof.
  destruct s as [|c rest]; cbn; [discriminate|].
  destruct (Ascii.eqb c sep); [discriminate|].
  destruct (DataformWorkflow.str_split sep rest); discriminate.
Qed.

Lemma str_split_join sep s :
  String.concat (String sep EmptyString) (DataformWorkflow.str_split sep s) = s.
Proof.
  induction s as [|c rest IH]; [reflexivity|].
  cbn [DataformWorkflow.str_split].
  destruct (Ascii.eqb c sep) eqn:Hc.
  - apply Ascii.eqb_eq in Hc. subst c.
    destruct (DataformWorkflow.str_split sep rest) as [|seg segs] eqn:Hs;
      [now apply str_split_nonempty in Hs|].
    rewrite <- IH. reflexivity.
  - destruct (DataformWorkflow.str_split sep rest) as [|seg segs] eqn:Hs;
      [now apply str_split_nonempty in Hs|].
    rewrite <- IH. destruct segs; reflexivity.
Qed.

Lemma str_split_segments sep s :
  Forall (fun seg => str_contains sep seg = false) (DataformWorkflow.str_split sep s).
Proof.
  induction s as [|c rest IH]; cbn; [repeat constructor|].
  destruct (Ascii.eqb c sep) eqn:Hc.
  - constructor; [reflexivity|exact IH].
  - destruct (DataformWorkflow.str_split sep rest) as [|seg segs]; cbn.
    + repeat constructor. cbn. now rewrite Hc.
    + inversion IH; subst. constructor; [cbn; now rewrite Hc|assumption].
Qed.

Lemma str_split_plain sep s :
  str_contains sep s = false -> DataformWorkflow.str_split sep s = [s].
Proof.
  induction s as [|c rest IH]; cbn; [reflexivity|].
  destruct (Ascii.eqb c sep); cbn; [discriminate|]. intros H. now rewrite IH.
Qed.

Lemma str_split_app sep a b :
  DataformWorkflow.str_split sep (a +:+ String sep b)
  = DataformWorkflow.str_split sep a ++ DataformWorkflow.str_split sep b.
Proof.
  induction a as [|c a IH].
  - change (DataformWorkflow.str_split sep (String sep b)
            = [EmptyString] ++ DataformWorkflow.str_split sep b).
    cbn [DataformWorkflow.str_split]. now rewrite Ascii.eqb_refl.
  - change (DataformWorkflow.str_split sep (String c (a +:+ String sep b))
            = DataformWorkflow.str_split sep (String c a)
              ++ DataformWorkflow.str_split sep b).
    cbn [DataformWorkflow.str_split].
    destruct (Ascii.eqb c sep); [now rewrite IH|].
    rewrite IH.
    destruct (DataformWorkflow.str_split sep a) as [|seg segs] eqn:Hs;
      [now apply str_split_nonempty in Hs|reflexivity].
Qed.

(** X7: splitting at a separator loses nothing: joining the segments with
    the separator gives the string back; there is at least one segment and
    none contains the separator.  Hence the last segment of a name without a
    slash is the name, and the last segment of [prefix/b] is [b] when [b]
    has no slash. *)
Theorem str_split_round_trip (sep : Ascii.ascii) (s : string) :
  String.concat (String sep EmptyString) (DataformWorkflow.str_split sep s) = s
  /\ DataformWorkflow.str_split sep s <> []
  /\ Forall (fun seg => str_contains sep seg = false) (DataformWorkflow.str_split sep s)
  /\ (str_contains "/" s = false -> DataformWorkflow.last_segment s = s)
  /\ (forall pre, str_contains "/" s = false ->
                    DataformWorkflow.last_segment (pre +:+ "/" +:+ s) = s).
Proof.
  split; [apply str_split_join|]. split; [apply str_split_nonempty|].
  split; [apply str_split_segments|]. unfold DataformWorkflow.last_segment. split.
  - intros H. now rewrite (str_split_plain _ _ H).
  - intros pre H.
    change (pre +:+ "/" +:+ s)%string with (pre +:+ String "/" s)%string.
    rewrite str_split_app, (str_split_plain _ _ H). apply last_last.
Qed.

(** X8: printing a handle whose stored name is [prefix/b], [b] without a
    slash, shows [b] and the state that a fetch made for the purpose
    returns; the snapshot is replaced by the one fetched. *)
Theorem str_shows_last_segment_and_fetched_state
        (env : Env) (self : nat) (w : World) (pre b : string) (wi : WorkflowInvocation)
        (Hname : wi_name (heap w self) = (pre +:+ "/" +:+ b)%string)
        (Hplain : str_contains "/" b = false)
        (Hfetch : get_workflow_invocation env (ncalls w) (wi_name (heap w self)) = inr wi) :
  exists w',
    DataformWorkflow.__str__ env self w
    = (Ret ("DataformWorkflow(name=" +:+ b +:+ ", state="
              +:+ DataformWorkflow.state_name (wi_state wi) +:+ ")")%string, w')
    /\ ncalls w' = S (ncalls w)
    /\ heap w' self = wi.
Proof.
  rewrite str_eq, Hfetch, Hname.
  change (pre +:+ "/" +:+ b)%string with (pre +:+ String "/" b)%string.
  unfold DataformWorkflow.last_segment.
  rewrite str_split_app, (str_split_plain _ _ Hplain), last_last.
  eexists. split; [reflexivity|]. split; [reflexivity|]. cbn.
  apply fn_lookup_insert.
Qed.

(** * Further properties of the service *)

Section ServiceRuns.
Variable env : Env.
Variable config : DataformConfig.t.

(** The compilation request of a run for an execution id. *)
Lemma run_workflow_compiles fuel execution_id wait timeout_seconds full_refresh w :
  let vars := match execution_id with
              | Some i => if DataformService.truthy execution_id
                          then [("defaultExecutionId"%string, i)] else []
              | None => []
              end in
  let request := mkCompileRequest (DataformConfig.repo_uri config)
                                  (DataformConfig.git_branch config) vars None in
  let w0 := set_trace (trace w ++ [EvServiceRun execution_id wait timeout_seconds
                                                full_refresh]) w in
  let w1 := charge (EvCompile request) (latency env (ncalls w)) w0 in
  DataformService.run_workflow env config fuel execution_id wait timeout_seconds
                               full_refresh w
  = match create_compilation_result env (ncalls w) request with
    | inl r => (Raise (Remote r), w1)
    | inr compilation_name =>
        bind (DataformService.create_workflow env config compilation_name full_refresh
                                              true true)
             (fun workflow =>
                bind (if wait
                      then DataformWorkflow.wait_for_completion env fuel workflow 30
                                                                timeout_seconds
                      else ret workflow)
                     (fun _ => ret workflow)) w1
    end.
Proof.
  cbv zeta. unfold DataformService.run_workflow.
  unfold bind at 1, emit. unfold bind at 1.
  unfold DataformService.compile, remote_call.
  cbn [ncalls set_trace].
  assert (Hvars : match (match execution_id with
                         | Some i => if DataformService.truthy execution_id
                                     then [("defaultExecutionId"%string, i)] else []
                         | None => []
                         end) with
                  | p :: ps => p :: ps
                  | [] => []
                  end
                  = match execution_id with
                    | Some i => if DataformService.truthy execution_id
                                then [("defaultExecutionId"%string, i)] else []
                    | None => []
                    end).
  { destruct execution_id as [i|]; [destruct (DataformService.truthy (Some i))|];
      reflexivity. }
  cbn [DataformService.truthy]. rewrite Hvars.
  match goal with |- context [create_compilation_result env ?k ?r] =>
    destruct (create_compilation_result env k r) end; reflexivity.
Qed.

Lemma create_workflow_eq compilation_name full_refresh deps dependents w :
  let request := mkInvokeRequest (DataformConfig.repo_uri config) compilation_name
                                 full_refresh deps dependents in
  let w1 := charge (EvInvoke request) (latency env (ncalls w)) w in
  DataformService.create_workflow env config compilation_name full_refresh deps dependents w
  = match create_workflow_invocation env (ncalls w) request with
    | inl r => (Raise (Remote r), w1)
    | inr wi =>
        (Ret (next_ref w),
         set_latest_workflow (Some (next_ref w))
           (set_next_ref (S (next_ref w)) (set_heap (<[next_ref w := wi]> (heap w)) w1)))
    end.
Proof.
  cbv zeta. unfold DataformService.create_workflow, DataformService._invoke_workflow,
    remote_call, bind.
  destruct (create_workflow_invocation env (ncalls w) _); reflexivity.
Qed.
End ServiceRuns.

Lemma handle_step_refl w : handle_step w w.
Proof. repeat split. Qed.

Lemma handle_step_trans a b c : handle_step a b -> handle_step b c -> handle_step a c.
Proof.
  intros (H1 & H2 & H3 & H4 & H5) (K1 & K2 & K3 & K4 & K5).
  repeat split; congruence.
Qed.

Section HandleFrame.
Variable env : Env.

Lemma refresh_handle_step self : respects handle_step (DataformWorkflow.refresh env self).
Proof.
  intros w. rewrite refresh_eq. cbv zeta.
  destruct (get_workflow_invocation env (ncalls w) (wi_name (heap w self)));
    repeat split.
Qed.

Lemma is_complete_handle_step self :
  respects handle_step (DataformWorkflow.is_complete env self).
Proof.
  intros w. rewrite is_complete_eq. cbv zeta.
  destruct (get_workflow_invocation env (ncalls w) (wi_name (heap w self)));
    repeat split.
Qed.

Lemma time_sleep_handle_step secs : respects handle_step (time_sleep secs).
Proof. intros w. unfold time_sleep. destruct (secs <? 0); repeat split. Qed.

Lemma wait_loop_handle_step fuel self poll timeout start :
  respects handle_step (DataformWorkflow.wait_loop env fuel self poll timeout start).
Proof.
  induction fuel as [|fuel IH]; cbn [DataformWorkflow.wait_loop].
  - apply respects_diverge, handle_step_refl.
  - apply respects_bind; [apply handle_step_trans|apply respects_read, handle_step_refl|].
    intros now. destruct (now - start <? timeout);
      [|apply respects_raise, handle_step_refl].
    apply respects_bind; [apply handle_step_trans|apply refresh_handle_step|intros _].
    apply respects_bind; [apply handle_step_trans|apply is_complete_handle_step|intros c].
    destruct c; [apply respects_ret, handle_step_refl|].
    apply respects_bind; [apply handle_step_trans| |intros _].
    { intros w. repeat split. }
    apply respects_bind; [apply handle_step_trans|apply time_sleep_handle_step|intros _].
    exact IH.
Qed.

Lemma wait_for_completion_handle_step fuel self poll timeout :
  respects handle_step (DataformWorkflow.wait_for_completion env fuel self poll timeout).
Proof.
  apply respects_bind; [apply handle_step_trans|apply respects_read, handle_step_refl|].
  intros now. apply wait_loop_handle_step.
Qed.
End HandleFrame.

(** X9: a run of the service that is not asked to wait, when the remote
    accepts the compilation and the invocation: the compilation carries the
    execution id as the variable defaultExecutionId, or no variable when the
    id is absent or empty; the invocation names the compilation result just
    returned and includes dependencies and dependents; the handle returned is
    a new object holding the answer of the remote, and it becomes
    latest_workflow.  Two remote calls are made and the registry is not
    touched. *)
Theorem service_run_submits_compilation_then_invocation
        (env : Env) (config : DataformConfig.t) (fuel : nat)
        (execution_id : option string) (timeout_seconds : Z) (full_refresh : bool)
        (w : World) (compilation_name : string) (wi : WorkflowInvocation) :
  let vars := match execution_id with
              | Some i => if String.eqb i "" then [] else [("defaultExecutionId"%string, i)]
              | None => []
              end in
  let compilation := mkCompileRequest (DataformConfig.repo_uri config)
                                      (DataformConfig.git_branch config) vars None in
  let invocation := mkInvokeRequest (DataformConfig.repo_uri config) compilation_name
                                    full_refresh true true in
  create_compilation_result env (ncalls w) compilation = inr compilation_name ->
  create_workflow_invocation env (S (ncalls w)) invocation = inr wi ->
  exists w',
    DataformService.run_workflow env config fuel execution_id false timeout_seconds
                                 full_refresh w = (Ret (next_ref w), w')
    /\ trace w' = trace w ++ [EvServiceRun execution_id false timeout_seconds full_refresh;
                              EvCompile compilation; EvInvoke invocation]
    /\ heap w' (next_ref w) = wi
    /\ (forall h, h <> next_ref w -> heap w' h = heap w h)
    /\ latest_workflow w' = Some (next_ref w)
    /\ next_ref w' = S (next_ref w)
    /\ ncalls w' = S (S (ncalls w))
    /\ active_workflows w' = active_workflows w
    /\ workflow_callbacks w' = workflow_callbacks w.
Proof.
  cbv zeta. intros Hcompile Hinvoke.
  rewrite run_workflow_compiles. cbv zeta.
  assert (Hvars : match execution_id with
                  | Some i => if DataformService.truthy execution_id
                              then [("defaultExecutionId"%string, i)] else []
                  | None => []
                  end
                  = match execution_id with
                    | Some i => if String.eqb i "" then []
                                else [("defaultExecutionId"%string, i)]
                    | None => []
                    end).
  { destruct execution_id as [i|]; [|reflexivity]. cbn.
    destruct (String.eqb i ""); reflexivity. }
  rewrite Hvars, Hcompile. unfold bind at 1. rewrite create_workflow_eq. cbn.
  rewrite Hinvoke. cbn. eexists. split; [reflexivity|]. cbn.
  rewrite <- !app_assoc, fn_lookup_insert.
  repeat split; auto. intros h Hh. now apply fn_lookup_insert_ne.
Qed.

(** X10: a run of the service that raises before or at the invocation
    creates nothing: no handle is allocated and latest_workflow keeps its
    value.  What it raises is the error of the remote: that of the
    compilation, in which case no invocation is requested, or that of the
    invocation of the compilation result just returned. *)
Theorem service_run_failure_creates_no_handle
        (env : Env) (config : DataformConfig.t) (fuel : nat)
        (execution_id : option string) (timeout_seconds : Z) (full_refresh : bool)
        (w : World) (e : Exn) (w' : World)
        (Hrun : DataformService.run_workflow env config fuel execution_id false
                  timeout_seconds full_refresh w = (Raise e, w')) :
  next_ref w' = next_ref w
  /\ heap w' = heap w
  /\ latest_workflow w' = latest_workflow w
  /\ exists compilation,
      match create_compilation_result env (ncalls w) compilation with
      | inl r =>
          e = Remote r
          /\ trace w' = trace w ++ [EvServiceRun execution_id false timeout_seconds
                                                 full_refresh; EvCompile compilation]
      | inr compilation_name =>
          exists invocation r,
            create_workflow_invocation env (S (ncalls w)) invocation = inl r
            /\ ir_compilation_result invocation = compilation_name
            /\ e = Remote r
            /\ trace w' = trace w ++ [EvServiceRun execution_id false timeout_seconds
                                                   full_refresh; EvCompile compilation;
                                      EvInvoke invocation]
      end.
Proof.
  rewrite run_workflow_compiles in Hrun. cbv zeta in Hrun.
  match type of Hrun with context [create_compilation_result env ?k ?r] =>
    destruct (create_compilation_result env k r) as [r0|name] eqn:Hc end.
  - injection Hrun as <- <-.
    split; [reflexivity|]. split; [reflexivity|]. split; [reflexivity|].
    eexists. rewrite Hc. split; [reflexivity|].
    cbn [trace charge set_trace set_clock set_ncalls]. now rewrite <- app_assoc.
  - unfold bind at 1 in Hrun. rewrite create_workflow_eq in Hrun. cbv zeta in Hrun.
    match type of Hrun with context [create_workflow_invocation env ?k ?r] =>
      destruct (create_workflow_invocation env k r) as [r0|wi] eqn:Hi end;
      [|discriminate].
    injection Hrun as <- <-.
    split; [reflexivity|]. split; [reflexivity|]. split; [reflexivity|].
    eexists. rewrite Hc. eexists _, _. split; [exact Hi|].
    split; [reflexivity|]. split; [reflexivity|].
    cbn [trace charge set_trace set_clock set_ncalls]. now rewrite <- !app_assoc.
Qed.

(** X11: a run of the service that is asked to wait, after the remote has
    accepted the compilation and the invocation.  It returns the new handle
    only in a terminal state; otherwise it raises Timeout, once the deadline
    has passed, or an error of the remote.  In every case the invocation was
    created: the new handle is latest_workflow when the call ends, also when
    it raises. *)
Theorem service_run_with_wait_keeps_the_created_handle
        (env : Env) (config : DataformConfig.t) (fuel : nat)
        (execution_id : option string) (timeout_seconds : Z) (full_refresh : bool)
        (w : World) (compilation_name : string) (wi : WorkflowInvocation) :
  let vars := match execution_id with
              | Some i => if String.eqb i "" then [] else [("defaultExecutionId"%string, i)]
              | None => []
              end in
  let compilation := mkCompileRequest (DataformConfig.repo_uri config)
                                      (DataformConfig.git_branch config) vars None in
  let invocation := mkInvokeRequest (DataformConfig.repo_uri config) compilation_name
                                    full_refresh true true in
  create_compilation_result env (ncalls w) compilation = inr compilation_name ->
  create_workflow_invocation env (S (ncalls w)) invocation = inr wi ->
  let res := DataformService.run_workflow env config fuel execution_id true
               timeout_seconds full_refresh w in
  latest_workflow (snd res) = Some (next_ref w)
  /\ next_ref (snd res) = S (next_ref w)
  /\ match fst res with
     | Ret workflow =>
         workflow = next_ref w
         /\ wi_state (heap (snd res) workflow) ∈ DataformWorkflow.terminal_states
     | Raise e =>
         (e = TimeoutError timeout_seconds \/ exists r, e = Remote r)
     | Diverge => True
     end.
Proof.
  intros vars compilation invocation Hcompile Hinvoke res.
  assert (Hres : exists w1,
             latest_workflow w1 = Some (next_ref w)
             /\ next_ref w1 = S (next_ref w)
             /\ res = bind (DataformWorkflow.wait_for_completion env fuel (next_ref w) 30
                              timeout_seconds)
                           (fun _ => ret (next_ref w)) w1).
  { unfold res. rewrite run_workflow_compiles. cbv zeta.
    assert (Hvars : match execution_id with
                    | Some i => if DataformService.truthy execution_id
                                then [("defaultExecutionId"%string, i)] else []
                    | None => []
                    end = vars).
    { unfold vars. destruct execution_id as [i|]; [|reflexivity]. cbn.
      destruct (String.eqb i ""); reflexivity. }
    rewrite Hvars. fold compilation. rewrite Hcompile.
    unfold bind at 1. rewrite create_workflow_eq.
    cbv zeta. cbn [ncalls charge set_trace set_clock set_ncalls].
    fold invocation. rewrite Hinvoke. eexists. split; [|split; [|reflexivity]]; reflexivity. }
  destruct Hres as (w1 & Hl1 & Hn1 & ->).
  pose proof (wait_for_completion_handle_step env fuel (next_ref w) 30 timeout_seconds w1)
    as (Hnext & Hlatest & _).
  pose proof (wait_for_completion_cases env fuel (next_ref w) 30 timeout_seconds w1) as Hout.
  unfold bind, ret.
  destruct (DataformWorkflow.wait_for_completion env fuel (next_ref w) 30 timeout_seconds w1)
    as [[workflow|e|] w2]; cbn [fst snd] in *;
    (split; [congruence|]); (split; [congruence|]).
  - split; [reflexivity|]. apply Hout.
  - destruct Hout as [[-> _]|[Hr|[_ Hneg]]]; [auto|auto|lia].
  - exact I.
Qed.

(** * Listing recent invocations *)

Lemma wrap_invocations_spec (response : list WorkflowInvocation) :
  forall (workflows : list nat) (w : World),
  exists w',
    DataformService.wrap_invocations response workflows w
    = (Ret (workflows ++ seq (next_ref w) (length response)), w')
    /\ next_ref w' = (next_ref w + length response)%nat
    /\ (forall i wi, response !! i = Some wi -> heap w' (next_ref w + i)%nat = wi)
    /\ (forall h, (h < next_ref w)%nat -> heap w' h = heap w h)
    /\ handle_step (set_next_ref (next_ref w') w) w'
    /\ trace w' = trace w /\ clock w' = clock w /\ ncalls w' = ncalls w.
Proof.
  induction response as [|wi rest IH]; intros workflows w;
    cbn [DataformService.wrap_invocations length seq].
  - exists w. rewrite app_nil_r, Nat.add_0_r. repeat split; auto.
    intros i wi H. discriminate.
  - unfold bind at 1, DataformWorkflow.init.
    match goal with |- context [DataformService.wrap_invocations rest ?ws ?v] =>
      destruct (IH ws v) as (w' & Hrun & Hnext & Hnew & Hold & Hstep & Htr & Hcl & Hnc) end.
    cbn [next_ref set_next_ref set_heap heap trace clock ncalls] in *.
    exists w'. rewrite Hrun, <- app_assoc. split; [reflexivity|].
    split; [lia|]. split; [|split; [|split; [|auto]]].
    + intros [|i] wi' Hi.
      * cbn in Hi. injection Hi as <-. rewrite Nat.add_0_r, Hold by lia.
        apply fn_lookup_insert.
      * cbn in Hi. rewrite <- (Hnew i wi' Hi). f_equal. lia.
    + intros h Hh. rewrite Hold by lia. apply fn_lookup_insert_ne. lia.
    + destruct Hstep as (H1 & H2 & H3 & H4 & H5). repeat split; auto.
Qed.

(** X12: list_recent_workflows makes one call to the remote.  When the call
    fails its error is raised and no handle is created.  Otherwise there is
    one new handle per invocation of the answer, in the order of the answer:
    the i-th handle holds the i-th invocation; the handles that existed keep
    their snapshots, latest_workflow is not changed, and an empty answer
    gives an empty list. *)
Theorem list_recent_workflows_wraps_the_answer_in_order
        (env : Env) (config : DataformConfig.t)
        (list_workflow_invocations :
           nat -> string -> Z -> RemoteError + list WorkflowInvocation)
        (limit : Z) (w : World) :
  match list_workflow_invocations (ncalls w) (DataformConfig.repo_uri config) limit with
  | inl r =>
      exists w',
        DataformService.list_recent_workflows env config list_workflow_invocations limit w
        = (Raise (Remote r), w')
        /\ next_ref w' = next_ref w /\ heap w' = heap w /\ ncalls w' = S (ncalls w)
  | inr response =>
      exists w',
        DataformService.list_recent_workflows env config list_workflow_invocations limit w
        = (Ret (seq (next_ref w) (length response)), w')
        /\ (forall i wi, response !! i = Some wi -> heap w' (next_ref w + i)%nat = wi)
        /\ (forall h, (h < next_ref w)%nat -> heap w' h = heap w h)
        /\ next_ref w' = (next_ref w + length response)%nat
        /\ latest_workflow w' = latest_workflow w
        /\ ncalls w' = S (ncalls w)
        /\ (response = [] -> heap w' = heap w)
  end.
Proof.
  unfold DataformService.list_recent_workflows, bind.
  destruct (list_workflow_invocations (ncalls w) (DataformConfig.repo_uri config) limit)
    as [r|response].
  - eexists. repeat split.
  - match goal with |- context [DataformService.wrap_invocations response [] ?v] =>
      destruct (wrap_invocations_spec response [] v)
        as (w' & Hrun & Hnext & Hnew & Hold & Hstep & _ & _ & Hnc) end.
    cbn [next_ref set_clock set_ncalls heap ncalls] in *.
    exists w'. rewrite Hrun. split; [reflexivity|].
    split; [exact Hnew|]. split; [exact Hold|]. split; [exact Hnext|].
    split; [apply Hstep|]. split; [exact Hnc|].
    intros ->. cbn in Hrun. injection Hrun as <-. reflexivity.
Qed.

(** * Further properties of the manager *)

Lemma string_length_app (a b : string) :
  String.length (a +:+ b) = (String.length a + String.length b)%nat.
Proof.
  induction a as [|c a IH]; [reflexivity|].
  change (S (String.length (a +:+ b)) = S (String.length a + String.length b)).
  now rewrite IH.
Qed.

Lemma string_app_inv_tail (a b s : string) : (a +:+ s = b +:+ s)%string -> a = b.
Proof.
  revert b. induction a as [|c a IH]; intros [|c' b] H.
  - reflexivity.
  - apply (f_equal String.length) in H. rewrite !string_length_app in H.
    cbn [String.length] in H. lia.
  - apply (f_equal String.length) in H. rewrite !string_length_app in H.
    cbn [String.length] in H. lia.
  - change (String c (a +:+ s) = String c' (b +:+ s)) in H.
    injection H as -> H. f_equal. now apply IH.
Qed.

Lemma string_app_inv_head (s a b : string) : (s +:+ a = s +:+ b)%string -> a = b.
Proof.
  induction s as [|c s IH]; [auto|].
  intros H. change (String c (s +:+ a) = String c (s +:+ b)) in H.
  injection H as H. auto.
Qed.

Section ManagerCalls.
Variable self : WorkflowManager.t.

(** The id a call of run_workflow uses. *)
Lemma manager_run_workflow_eq execution_id wait timeout_seconds full_refresh
      cb_start cb_complete cb_error w :
  let generated := ("workflow-" +:+ pretty (clock w) +:+ "-"
                      +:+ pretty (WorkflowManager.object_id self))%string in
  let eid := match execution_id with
             | Some i => if String.eqb i "" then generated else i
             | None => generated
             end in
  WorkflowManager.run_workflow self execution_id wait timeout_seconds full_refresh
                               cb_start cb_complete cb_error w
  = (Ret eid,
     set_executor_queue
       (executor_queue w ++ [mkTask eid wait timeout_seconds full_refresh])
       (set_workflow_callbacks
          (<[eid := mkCallbacks cb_start cb_complete cb_error]> (workflow_callbacks w)) w)).
Proof.
  cbv zeta. unfold WorkflowManager.run_workflow, WorkflowManager.executor_submit,
    time_time, bind, ret.
  destruct execution_id as [i|]; [|reflexivity]. cbn [DataformService.truthy].
  destruct (String.eqb i ""); reflexivity.
Qed.
End ManagerCalls.

(** X13: a call of the manager's run_workflow returns at once: it makes no
    remote call, emits nothing, does not sleep and does not touch the
    registry; it records the three callbacks under the id and queues one
    task.  The id is the one given, unless it is absent or empty: then it is
    the word workflow, the clock reading in whole seconds and the identity
    of the manager, joined by dashes. *)
Theorem manager_run_workflow_returns_at_once
        (self : WorkflowManager.t) (execution_id : option string) (wait : bool)
        (timeout_seconds : Z) (full_refresh : bool)
        (cb_start cb_complete cb_error : option Callback) (w : World) :
  let generated := ("workflow-" +:+ pretty (clock w) +:+ "-"
                      +:+ pretty (WorkflowManager.object_id self))%string in
  let eid := match execution_id with
             | Some i => if String.eqb i "" then generated else i
             | None => generated
             end in
  exists w',
    WorkflowManager.run_workflow self execution_id wait timeout_seconds full_refresh
                                 cb_start cb_complete cb_error w = (Ret eid, w')
    /\ workflow_callbacks w' !! eid = Some (mkCallbacks cb_start cb_complete cb_error)
    /\ (forall j, j <> eid -> workflow_callbacks w' !! j = workflow_callbacks w !! j)
    /\ executor_queue w' = executor_queue w ++ [mkTask eid wait timeout_seconds full_refresh]
    /\ trace w' = trace w /\ clock w' = clock w /\ ncalls w' = ncalls w
    /\ active_workflows w' = active_workflows w /\ heap w' = heap w.
Proof.
  cbv zeta. rewrite manager_run_workflow_eq. cbv zeta. eexists. split; [reflexivity|].
  cbn. split; [apply lookup_insert_eq|]. split; [|repeat split].
  intros j Hj. now apply lookup_insert_ne.
Qed.

(** X14: two calls in a row with the same id argument use the same id, also
    when the id is generated and both calls read the same second on the
    clock: the callbacks of the second call replace those of the first,
    while both tasks are queued under that id.  Ids generated by one manager
    at different seconds differ. *)
Theorem manager_run_workflow_duplicate_id_overwrites_callbacks
        (self : WorkflowManager.t) (execution_id : option string)
        (wait1 wait2 : bool) (timeout1 timeout2 : Z) (refresh1 refresh2 : bool)
        (s1 c1 e1 s2 c2 e2 : option Callback) (w : World) :
  (exists eid w',
      bind (WorkflowManager.run_workflow self execution_id wait1 timeout1 refresh1 s1 c1 e1)
           (fun i1 =>
              bind (WorkflowManager.run_workflow self execution_id wait2 timeout2 refresh2
                                                 s2 c2 e2)
                   (fun i2 => ret (i1, i2))) w
      = (Ret (eid, eid), w')
      /\ workflow_callbacks w' !! eid = Some (mkCallbacks s2 c2 e2)
      /\ executor_queue w'
         = executor_queue w ++ [mkTask eid wait1 timeout1 refresh1;
                                mkTask eid wait2 timeout2 refresh2])
  /\ (forall w2,
         clock w2 <> clock w ->
         fst (WorkflowManager.run_workflow self None wait1 timeout1 refresh1 s1 c1 e1 w2)
         <> fst (WorkflowManager.run_workflow self None wait1 timeout1 refresh1 s1 c1 e1 w)).
Proof.
  split.
  - unfold bind at 1. rewrite manager_run_workflow_eq. cbv zeta.
    unfold bind at 1. rewrite manager_run_workflow_eq. cbv zeta.
    cbn [clock set_executor_queue set_workflow_callbacks executor_queue workflow_callbacks].
    eexists _, _. split; [reflexivity|].
    cbn [workflow_callbacks executor_queue set_executor_queue set_workflow_callbacks].
    split; [apply lookup_insert_eq|]. now rewrite <- app_assoc.
  - intros w2 Hclock. rewrite !manager_run_workflow_eq. cbn [fst].
    intros [= H]. apply Hclock.
    apply string_app_inv_head in H. apply string_app_inv_tail in H.
    now apply (inj pretty) in H.
Qed.

Lemma catch_ret_eq {A} (m : M A) w a w1 :
  m w = (Ret a, w1) -> catch m w = (Ret (inr a), w1).
Proof. intros H. unfold catch. now rewrite H. Qed.

Lemma catch_raise_eq {A} (m : M A) w e w1 :
  m w = (Raise e, w1) -> catch m w = (Ret (inl e), w1).
Proof. intros H. unfold catch. now rewrite H. Qed.

Lemma catch_diverge_eq {A} (m : M A) w w1 :
  m w = (Diverge, w1) -> catch m w = (Diverge, w1).
Proof. intros H. unfold catch. now rewrite H. Qed.

(** ** What a worker does to the tables of the manager *)

Lemma dict_get_set_ne {V} k j (v : V) d :
  j <> k ->
  WorkflowManager.dict_get j (WorkflowManager.dict_set k v d) = WorkflowManager.dict_get j d.
Proof.
  intros Hne. induction d as [|[k' v'] d IH]; cbn.
  - destruct (String.eqb j k) eqn:E; [apply String.eqb_eq in E; congruence|reflexivity].
  - destruct (String.eqb k k') eqn:E; cbn.
    + apply String.eqb_eq in E. subst k'.
      destruct (String.eqb j k) eqn:E'; [apply String.eqb_eq in E'; congruence|reflexivity].
    + now rewrite IH.
Qed.

Lemma dict_get_None_keys {V} k (d : list (string * V)) :
  WorkflowManager.dict_get k d = None <-> ~ In k (List.map fst d).
Proof.
  induction d as [|[k' v'] d IH]; cbn; [tauto|].
  destruct (String.eqb k k') eqn:E.
  - apply String.eqb_eq in E. subst. split; [discriminate|]. intros H. destruct H. now left.
  - apply String.eqb_neq in E. rewrite IH. split.
    + intros H [Hk|Hk]; [congruence|auto].
    + intros H Hk. apply H. now right.
Qed.

Lemma dict_set_keys {V} k (v : V) d :
  List.map fst (WorkflowManager.dict_set k v d)
  = match WorkflowManager.dict_get k d with
    | Some _ => List.map fst d
    | None => List.map fst d ++ [k]
    end.
Proof.
  induction d as [|[k' v'] d IH]; cbn; [reflexivity|].
  destruct (String.eqb k k') eqn:E; cbn.
  - apply String.eqb_eq in E. now subst.
  - rewrite IH. now destruct (WorkflowManager.dict_get k d).
Qed.

Lemma dict_set_keys_NoDup {V} k (v : V) d :
  NoDup (List.map fst d) -> NoDup (List.map fst (WorkflowManager.dict_set k v d)).
Proof.
  intros H. rewrite dict_set_keys.
  destruct (WorkflowManager.dict_get k d) eqn:E; [exact H|].
  apply dict_get_None_keys in E. apply NoDup_app. split; [exact H|].
  split; [|apply NoDup_singleton].
  intros x Hx Hk. apply list_elem_of_In in Hx. apply list_elem_of_In in Hk.
  cbn in Hk. destruct Hk as [<-|[]]. auto.
Qed.

Lemma worker_step_refl i w : worker_step i w w.
Proof. repeat split; auto. Qed.

Lemma worker_step_trans i a b c : worker_step i a b -> worker_step i b c -> worker_step i a c.
Proof.
  intros (H1 & H2 & H3 & H4) (K1 & K2 & K3 & K4).
  split; [congruence|]. split; [intros j Hj; rewrite K2, H2; auto|]. split; auto.
Qed.

Lemma worker_step_same i w w' :
  workflow_callbacks w' = workflow_callbacks w ->
  active_workflows w' = active_workflows w ->
  worker_step i w w'.
Proof.
  intros H1 H2. unfold worker_step, registry_keys. rewrite H1, H2. repeat split; auto.
Qed.

Lemma quiet_worker_refl i w : quiet_worker_step i w w.
Proof. split; [apply worker_step_refl|apply emits_refl; reflexivity]. Qed.

Lemma quiet_worker_trans i a b c :
  quiet_worker_step i a b -> quiet_worker_step i b c -> quiet_worker_step i a c.
Proof.
  intros [H1 H2] [K1 K2]. split; [eapply worker_step_trans; eauto|].
  eapply emits_trans; eauto using all_events_app.
Qed.

Lemma quiet_worker_of_quiet i q w w' :
  (forall e, q e = true -> is_service_run e = false) ->
  quiet_step q w w' -> quiet_worker_step i w w'.
Proof.
  intros Hq (H1 & H2 & evs & Ht & Hevs). split; [now apply worker_step_same|].
  exists evs. split; [exact Ht|]. eapply all_events_weaken; [|exact Hevs].
  intros e He. now rewrite (Hq e He).
Qed.

Lemma quiet_worker_one i e w w' :
  trace w' = trace w ++ [e] ->
  workflow_callbacks w' = workflow_callbacks w ->
  active_workflows w' = active_workflows w ->
  is_service_run e = false ->
  quiet_worker_step i w w'.
Proof.
  intros Ht H1 H2 He. split; [now apply worker_step_same|].
  exists [e]. split; [exact Ht|]. unfold all_events. cbn. now rewrite He.
Qed.

Section WorkerTables.
Variable env : Env.
Variable self : WorkflowManager.t.
Variable fuel : nat.
Variable execution_id : string.

Let R := quiet_worker_step execution_id.

Lemma fire_quiet_worker role cbs wf err :
  respects R (WorkflowManager.fire role execution_id cbs wf err).
Proof.
  intros w. unfold WorkflowManager.fire, WorkflowManager.call_callback, emit, bind, ret, raise.
  destruct cbs as [cbs|]; [|apply quiet_worker_refl].
  destruct (match role with
            | OnStart => on_start cbs
            | OnComplete => on_complete cbs
            | OnError => on_error cbs
            end) as [cb|]; [|apply quiet_worker_refl].
  destruct (cb_raises cb); eapply quiet_worker_one; reflexivity.
Qed.

Lemma register_quiet_worker wf :
  respects R (WorkflowManager.register execution_id wf).
Proof.
  intros w. split.
  - unfold worker_step, registry_keys, WorkflowManager.register, WorkflowManager.with_lock,
      emit, bind.
    cbn [snd fst workflow_callbacks active_workflows set_active_workflows set_trace trace].
    split; [reflexivity|]. split; [|split].
    + intros j Hj. now apply dict_get_set_ne.
    + intros _. eexists. apply dict_get_set_eq.
    + apply dict_set_keys_NoDup.
  - exists [EvAcquire; EvRegister execution_id wf; EvRelease]. split; [|reflexivity].
    cbn. now rewrite <- !app_assoc.
Qed.

Lemma wait_quiet_worker wf timeout :
  respects R (DataformWorkflow.wait_for_completion env fuel wf 30 timeout).
Proof.
  intros w. apply (quiet_worker_of_quiet _ polling_event).
  - intros [] He; cbn in *; auto; discriminate.
  - apply wait_for_completion_quiet; reflexivity.
Qed.

Lemma after_submission_quiet_worker wait timeout wf :
  respects R (WorkflowManager.after_submission env fuel execution_id wait timeout wf).
Proof.
  unfold WorkflowManager.after_submission.
  apply respects_bind; [apply quiet_worker_trans|apply register_quiet_worker|intros _].
  apply respects_bind; [apply quiet_worker_trans| |intros cbs].
  { apply respects_read, quiet_worker_refl. }
  apply respects_bind; [apply quiet_worker_trans|apply fire_quiet_worker|intros _].
  destruct wait; [|apply respects_ret, quiet_worker_refl].
  apply respects_bind; [apply quiet_worker_trans|apply wait_quiet_worker|intros _].
  apply respects_ret, quiet_worker_refl.
Qed.

Lemma on_failure_quiet_worker retries wf e :
  respects R (WorkflowManager.on_failure self execution_id retries wf e).
Proof.
  unfold WorkflowManager.on_failure.
  apply respects_bind; [apply quiet_worker_trans| |intros cbs].
  { apply respects_read, quiet_worker_refl. }
  apply respects_bind; [apply quiet_worker_trans|apply fire_quiet_worker|intros _].
  apply respects_bind; [apply quiet_worker_trans| |intros _].
  { intros w. eapply quiet_worker_one; reflexivity. }
  apply respects_bind; [apply quiet_worker_trans| |intros _; apply respects_ret, quiet_worker_refl].
  destruct (retries + 1 <=? WorkflowManager.max_retries self);
    [|apply respects_ret, quiet_worker_refl].
  apply respects_bind; [apply quiet_worker_trans| |intros _].
  { intros w. eapply quiet_worker_one; reflexivity. }
  intros w. apply (quiet_worker_of_quiet _ polling_event).
  - intros [] He; cbn in *; auto; discriminate.
  - apply time_sleep_quiet; reflexivity.
Qed.

(** One run of the service by the worker: the call itself, then remote
    calls only. *)
Lemma submission_trace timeout full_refresh w :
  let w1 := snd (DataformService.run_workflow env (WorkflowManager.config self) fuel
                   (Some execution_id) false timeout full_refresh w) in
  worker_step execution_id w w1
  /\ count_events is_service_run (trace w1) = S (count_events is_service_run (trace w)).
Proof.
  cbv zeta. split.
  - destruct (run_workflow_quiet env (WorkflowManager.config self) submission_event
                (fun _ H => H) fuel (Some execution_id) timeout full_refresh w)
      as (H1 & H2 & _).
    now apply worker_step_same.
  - rewrite run_workflow_compiles. cbv zeta.
    match goal with |- context [create_compilation_result env ?k ?r] =>
      destruct (create_compilation_result env k r) end.
    + cbn [snd trace charge set_trace set_clock set_ncalls].
      rewrite <- app_assoc, count_events_app. cbn. lia.
    + unfold bind at 1. rewrite create_workflow_eq. cbv zeta.
      match goal with |- context [create_workflow_invocation env ?k ?r] =>
        destruct (create_workflow_invocation env k r) end;
        cbn [snd trace charge set_trace set_clock set_ncalls set_heap set_next_ref
             set_latest_workflow bind ret];
        rewrite <- !app_assoc, count_events_app; cbn; lia.
Qed.

Lemma quiet_worker_count w w' :
  R w w' -> count_events is_service_run (trace w') = count_events is_service_run (trace w).
Proof.
  intros (_ & evs & -> & Hevs).
  rewrite count_events_app,
    (count_events_none (fun e => negb (is_service_run e)) is_service_run evs);
    [lia| |exact Hevs].
  intros e He. now destruct (is_service_run e).
Qed.

(** The [except] block returns the incremented count or raises. *)
Lemma on_failure_outcome retries wf e w :
  match fst (WorkflowManager.on_failure self execution_id retries wf e w) with
  | Ret r => r = retries + 1
  | Raise _ => True
  | Diverge => False
  end.
Proof.
  unfold WorkflowManager.on_failure, WorkflowManager.lookup_callbacks, WorkflowManager.fire,
    WorkflowManager.call_callback, logger_error, logger_info, emit, bind, ret, raise, time_sleep.
  destruct (workflow_callbacks w !! execution_id) as [cbs|]; cbn;
    [destruct (on_error cbs) as [cb|]; cbn; [destruct (cb_raises cb); cbn; [exact I|]|]|];
    (destruct (retries + 1 <=? WorkflowManager.max_retries self); cbn; [|reflexivity];
     destruct (WorkflowManager.retry_delay_seconds self <? 0); cbn; auto).
Qed.

Lemma retry_loop_worker wait timeout full_refresh iterations : forall retries workflow w,
  let w' := snd (WorkflowManager.retry_loop env self fuel iterations execution_id wait timeout
                   full_refresh retries workflow w) in
  worker_step execution_id w w'
  /\ (count_events is_service_run (trace w')
      <= count_events is_service_run (trace w)
         + Z.to_nat (WorkflowManager.max_retries self + 1 - retries))%nat.
Proof.
  induction iterations as [|n IH]; intros retries workflow w; cbv zeta;
    cbn [WorkflowManager.retry_loop].
  - split; [apply worker_step_refl|cbn; lia].
  - destruct (retries <=? WorkflowManager.max_retries self) eqn:Hmore;
      [|split; [apply worker_step_refl|cbn; lia]].
    apply Z.leb_le in Hmore.
    assert (Htail : forall wfo e w2,
               let w' := snd (bind (WorkflowManager.on_failure self execution_id retries wfo e)
                                   (fun retries =>
                                      WorkflowManager.retry_loop env self fuel n execution_id
                                        wait timeout full_refresh retries wfo) w2) in
               worker_step execution_id w2 w'
               /\ (count_events is_service_run (trace w') + 1
                   <= count_events is_service_run (trace w2)
                      + Z.to_nat (WorkflowManager.max_retries self + 1 - retries))%nat).
    { intros wfo e w2. cbv zeta.
      pose proof (on_failure_quiet_worker retries wfo e w2) as Hf.
      pose proof (on_failure_outcome retries wfo e w2) as Ho.
      destruct (WorkflowManager.on_failure self execution_id retries wfo e w2)
        as [[r|e'|] w3] eqn:Hof; cbn [fst snd] in *; [| |contradiction].
      - rewrite (bind_ret_eq _ _ _ _ _ Hof).
        subst r. destruct (IH (retries + 1) wfo w3) as [Hs Hc].
        split; [eapply worker_step_trans; [apply Hf|exact Hs]|].
        rewrite (quiet_worker_count _ _ Hf) in Hc. lia.
      - rewrite (bind_raise_eq _ _ _ _ _ Hof). cbn [snd].
        split; [apply Hf|]. rewrite (quiet_worker_count _ _ Hf). lia. }
    destruct (submission_trace timeout full_refresh w) as [Hs1 Hc1]. cbv zeta in Hs1, Hc1.
    destruct (DataformService.run_workflow env (WorkflowManager.config self) fuel
                (Some execution_id) false timeout full_refresh w) as [[wf|e|] w1] eqn:Hrun;
      cbn [snd] in *.
    + rewrite (bind_ret_eq _ _ _ _ _ (catch_ret_eq _ _ _ _ Hrun)).
      pose proof (after_submission_quiet_worker wait timeout wf w1) as Ha.
      destruct (WorkflowManager.after_submission env fuel execution_id wait timeout wf w1)
        as [[[]|e|] w2] eqn:Hafter; cbn [snd] in *.
      * rewrite (bind_ret_eq _ _ _ _ _ (catch_ret_eq _ _ _ _ Hafter)). cbn [ret snd].
        split; [eapply worker_step_trans; [exact Hs1|apply Ha]|].
        rewrite (quiet_worker_count _ _ Ha). lia.
      * rewrite (bind_ret_eq _ _ _ _ _ (catch_raise_eq _ _ _ _ Hafter)).
        destruct (Htail (Some wf) e w2) as [Hs Hc]. cbv zeta in Hs, Hc.
        split; [eapply worker_step_trans; [exact Hs1|];
                eapply worker_step_trans; [apply Ha|exact Hs]|].
        rewrite (quiet_worker_count _ _ Ha) in Hc. lia.
      * rewrite (bind_diverge_eq _ _ _ _ (catch_diverge_eq _ _ _ Hafter)). cbn [snd].
        split; [eapply worker_step_trans; [exact Hs1|apply Ha]|].
        rewrite (quiet_worker_count _ _ Ha). lia.
    + rewrite (bind_ret_eq _ _ _ _ _ (catch_raise_eq _ _ _ _ Hrun)).
      destruct (Htail workflow e w1) as [Hs Hc]. cbv zeta in Hs, Hc.
      split; [eapply worker_step_trans; [exact Hs1|exact Hs]|]. lia.
    + rewrite (bind_diverge_eq _ _ _ _ (catch_diverge_eq _ _ _ Hrun)). cbn [snd].
      split; [exact Hs1|lia].
Qed.
End WorkerTables.

(** X15: a worker leaves the callback table alone and, in the registry,
    touches the entry of its own execution id only: the entries of the
    other ids read as before, an entry of its own id is never removed, and
    the keys of the registry stay distinct. *)
Theorem worker_touches_only_its_own_entry
        (env : Env) (self : WorkflowManager.t) (fuel : nat) (task : Task) (w : World) :
  let i := task_execution_id task in
  let w' := snd (WorkflowManager.run_task env self fuel task w) in
  workflow_callbacks w' = workflow_callbacks w
  /\ (forall j, j <> i ->
        WorkflowManager.dict_get j (active_workflows w')
        = WorkflowManager.dict_get j (active_workflows w))
  /\ (is_Some (WorkflowManager.dict_get i (active_workflows w)) ->
      is_Some (WorkflowManager.dict_get i (active_workflows w')))
  /\ (NoDup (registry_keys w) -> NoDup (registry_keys w')).
Proof.
  cbv zeta. unfold WorkflowManager.run_task, WorkflowManager._run_workflow_with_retry.
  exact (proj1 (retry_loop_worker env self fuel (task_execution_id task) (task_wait task)
                  (task_timeout_seconds task) (task_full_refresh task) _ 0 None w)).
Qed.

(** X16: a worker calls the service at most max_retries + 1 times, whatever
    the remote answers and whatever the callbacks do; with a negative
    max_retries it does nothing at all, not even a first attempt. *)
Theorem worker_submission_budget
        (env : Env) (self : WorkflowManager.t) (fuel : nat) (task : Task) (w : World) :
  let w' := snd (WorkflowManager.run_task env self fuel task w) in
  (count_events is_service_run (trace w')
   <= count_events is_service_run (trace w)
      + Z.to_nat (WorkflowManager.max_retries self + 1))%nat
  /\ (WorkflowManager.max_retries self < 0 ->
      WorkflowManager.run_task env self fuel task w = (Ret tt, w)).
Proof.
  cbv zeta. split.
  - unfold WorkflowManager.run_task, WorkflowManager._run_workflow_with_retry.
    pose proof (proj2 (retry_loop_worker env self fuel (task_execution_id task)
                         (task_wait task) (task_timeout_seconds task)
                         (task_full_refresh task)
                         (S (Z.to_nat (WorkflowManager.max_retries self + 1))) 0 None w)) as H.
    cbv zeta in H. rewrite Z.sub_0_r in H. exact H.
  - intros Hneg. unfold WorkflowManager.run_task, WorkflowManager._run_workflow_with_retry.
    cbn [WorkflowManager.retry_loop].
    destruct (0 <=? WorkflowManager.max_retries self) eqn:E; [|reflexivity].
    apply Z.leb_le in E. lia.
Qed.

(** ** A worker whose on_error callback returns *)

Lemma on_error_returns_same i w w' :
  workflow_callbacks w' = workflow_callbacks w -> on_error_returns i w -> on_error_returns i w'.
Proof. unfold on_error_returns. intros ->. auto. Qed.

Section WorkerOutcome.
Variable env : Env.
Variable self : WorkflowManager.t.
Variable fuel : nat.
Variable execution_id : string.
Hypothesis Hdelay : 0 <= WorkflowManager.retry_delay_seconds self.

Lemma on_failure_returns retries wf e w :
  on_error_returns execution_id w ->
  exists w', WorkflowManager.on_failure self execution_id retries wf e w
             = (Ret (retries + 1), w').
Proof.
  intros Hcb.
  unfold WorkflowManager.on_failure, WorkflowManager.lookup_callbacks, WorkflowManager.fire,
    WorkflowManager.call_callback, logger_error, logger_info, emit, bind, ret, raise, time_sleep.
  destruct (WorkflowManager.retry_delay_seconds self <? 0) eqn:E; [lia|].
  destruct (workflow_callbacks w !! execution_id) as [cbs|] eqn:Hreg; cbn;
    [destruct (on_error cbs) as [cb|] eqn:Hoe; cbn; [rewrite (Hcb cbs cb Hreg Hoe); cbn|]|];
    (destruct (retries + 1 <=? WorkflowManager.max_retries self); cbn; eauto).
Qed.

Lemma service_run_lands timeout full_refresh w :
  fst (DataformService.run_workflow env (WorkflowManager.config self) fuel
         (Some execution_id) false timeout full_refresh w) <> Diverge.
Proof.
  rewrite run_workflow_compiles. cbv zeta.
  match goal with |- context [create_compilation_result env ?k ?r] =>
    destruct (create_compilation_result env k r) end; [discriminate|].
  unfold bind at 1. rewrite create_workflow_eq. cbv zeta.
  match goal with |- context [create_workflow_invocation env ?k ?r] =>
    destruct (create_workflow_invocation env k r) end; discriminate.
Qed.

Lemma after_submission_lands timeout wf w :
  fst (WorkflowManager.after_submission env fuel execution_id false timeout wf w) <> Diverge.
Proof.
  unfold WorkflowManager.after_submission, WorkflowManager.register, WorkflowManager.with_lock,
    WorkflowManager.lookup_callbacks, WorkflowManager.fire, WorkflowManager.call_callback,
    emit, bind, ret, raise.
  cbn [workflow_callbacks set_trace set_active_workflows].
  destruct (workflow_callbacks w !! execution_id) as [cbs|]; cbn; [|discriminate].
  destruct (on_start cbs) as [cb|]; cbn; [|discriminate].
  destruct (cb_raises cb); discriminate.
Qed.

Lemma retry_loop_outcome wait timeout full_refresh iterations : forall retries workflow w,
  on_error_returns execution_id w ->
  match fst (WorkflowManager.retry_loop env self fuel iterations execution_id wait timeout
               full_refresh retries workflow w) with
  | Ret _ => True
  | Raise _ => False
  | Diverge =>
      wait = true
      \/ (iterations <= Z.to_nat (WorkflowManager.max_retries self + 1 - retries))%nat
  end.
Proof.
  induction iterations as [|n IH]; intros retries workflow w Hcb;
    cbn [WorkflowManager.retry_loop].
  - cbn. right. lia.
  - destruct (retries <=? WorkflowManager.max_retries self) eqn:Hmore; [|exact I].
    apply Z.leb_le in Hmore.
    assert (Htail : forall wfo e w2,
               on_error_returns execution_id w2 ->
               match fst (bind (WorkflowManager.on_failure self execution_id retries wfo e)
                               (fun retries =>
                                  WorkflowManager.retry_loop env self fuel n execution_id
                                    wait timeout full_refresh retries wfo) w2) with
               | Ret _ => True
               | Raise _ => False
               | Diverge =>
                   wait = true
                   \/ (S n <= Z.to_nat (WorkflowManager.max_retries self + 1 - retries))%nat
               end).
    { intros wfo e w2 Hcb2.
      destruct (on_failure_returns retries wfo e w2 Hcb2) as (w3 & Hof).
      pose proof (on_failure_quiet_worker self execution_id retries wfo e w2) as Hf.
      rewrite Hof in Hf. cbn [snd] in Hf.
      rewrite (bind_ret_eq _ _ _ _ _ Hof).
      specialize (IH (retries + 1) wfo w3
                     (on_error_returns_same _ _ _ (proj1 (proj1 Hf)) Hcb2)).
      destruct (fst (WorkflowManager.retry_loop env self fuel n execution_id wait timeout
                       full_refresh (retries + 1) wfo w3)); auto.
      destruct IH as [IH|IH]; [now left|right; lia]. }
    destruct (submission_trace env self fuel execution_id timeout full_refresh w) as [Hs1 _].
    cbv zeta in Hs1.
    pose proof (service_run_lands timeout full_refresh w) as Hl1.
    destruct (DataformService.run_workflow env (WorkflowManager.config self) fuel
                (Some execution_id) false timeout full_refresh w) as [[wf|e|] w1] eqn:Hrun;
      cbn [fst snd] in *; [| |congruence].
    + rewrite (bind_ret_eq _ _ _ _ _ (catch_ret_eq _ _ _ _ Hrun)).
      pose proof (after_submission_quiet_worker env fuel execution_id wait timeout wf w1) as Ha.
      pose proof (after_submission_lands timeout wf w1) as Hl2.
      destruct (WorkflowManager.after_submission env fuel execution_id wait timeout wf w1)
        as [[[]|e|] w2] eqn:Hafter; cbn [snd] in *.
      * rewrite (bind_ret_eq _ _ _ _ _ (catch_ret_eq _ _ _ _ Hafter)). exact I.
      * rewrite (bind_ret_eq _ _ _ _ _ (catch_raise_eq _ _ _ _ Hafter)).
        apply Htail. eapply on_error_returns_same; [|exact Hcb].
        rewrite (proj1 (proj1 Ha)). exact (proj1 Hs1).
      * rewrite (bind_diverge_eq _ _ _ _ (catch_diverge_eq _ _ _ Hafter)). cbn [fst].
        destruct wait; [now left|]. rewrite Hafter in Hl2. cbn in Hl2. congruence.
    + rewrite (bind_ret_eq _ _ _ _ _ (catch_raise_eq _ _ _ _ Hrun)).
      apply Htail. eapply on_error_returns_same; [exact (proj1 Hs1)|exact Hcb].
Qed.
End WorkerOutcome.

(** X17: a worker swallows every error.  When the on_error callback
    registered for its id, if any, returns normally and the retry delay is a
    valid sleep length, the worker never ends with an exception: neither a
    failure of the remote, nor a timeout of the wait, nor an exception of
    the on_start callback leaves it.  When it is not asked to wait it always
    returns. *)
Theorem worker_swallows_every_error
        (env : Env) (self : WorkflowManager.t) (fuel : nat) (task : Task) (w : World)
        (Hcb : on_error_returns (task_execution_id task) w)
        (Hdelay : 0 <= WorkflowManager.retry_delay_seconds self) :
  let r := fst (WorkflowManager.run_task env self fuel task w) in
  (forall e, r <> Raise e)
  /\ (task_wait task = false -> r = Ret tt).
Proof.
  cbv zeta. unfold WorkflowManager.run_task, WorkflowManager._run_workflow_with_retry.
  pose proof (retry_loop_outcome env self fuel (task_execution_id task) Hdelay
                (task_wait task) (task_timeout_seconds task) (task_full_refresh task)
                (S (Z.to_nat (WorkflowManager.max_retries self + 1))) 0 None w Hcb) as H.
  destruct (fst (WorkflowManager.retry_loop env self fuel
                   (S (Z.to_nat (WorkflowManager.max_retries self + 1)))
                   (task_execution_id task) (task_wait task) (task_timeout_seconds task)
                   (task_full_refresh task) 0 None w)) as [[]|e|].
  - split; [discriminate|reflexivity].
  - contradiction.
  - split; [discriminate|]. intros Hwait. destruct H as [H|H]; [congruence|].
    rewrite Z.sub_0_r in H. lia.
Qed.

(** X18: an exception of the on_error callback ends the retrying.  When the
    first compilation fails and the callback registered for the id raises,
    the worker ends with the exception of the callback after a single
    attempt: the callback is given no workflow and the error of the remote,
    nothing is logged, and no second attempt is made, whatever max_retries
    allows. *)
Theorem raising_on_error_callback_ends_the_retrying
        (env : Env) (self : WorkflowManager.t) (fuel : nat) (task : Task) (w : World)
        (cbs : Callbacks) (cb : Callback) (msg : string) (r : RemoteError)
        (Hreg : workflow_callbacks w !! task_execution_id task = Some cbs)
        (Hcb : on_error cbs = Some cb)
        (Hraises : cb_raises cb = Some msg)
        (Hretries : 0 <= WorkflowManager.max_retries self)
        (Hdown : forall req, create_compilation_result env (ncalls w) req = inl r) :
  exists req w',
    WorkflowManager.run_task env self fuel task w = (Raise (CallbackError msg), w')
    /\ trace w'
       = trace w ++ [EvServiceRun (Some (task_execution_id task)) false
                                  (task_timeout_seconds task) (task_full_refresh task);
                     EvCompile req;
                     EvCallback OnError (task_execution_id task) cb None (Some (Remote r))]
    /\ active_workflows w' = active_workflows w.
Proof.
  unfold WorkflowManager.run_task, WorkflowManager._run_workflow_with_retry.
  cbn [WorkflowManager.retry_loop].
  destruct (0 <=? WorkflowManager.max_retries self) eqn:E; [|apply Z.leb_gt in E; lia].
  pose proof (run_workflow_compiles env (WorkflowManager.config self) fuel
                (Some (task_execution_id task)) false (task_timeout_seconds task)
                (task_full_refresh task) w) as Hrun.
  cbv zeta in Hrun. rewrite Hdown in Hrun.
  rewrite (bind_ret_eq _ _ _ _ _ (catch_raise_eq _ _ _ _ Hrun)).
  unfold WorkflowManager.on_failure, WorkflowManager.lookup_callbacks.
  unfold bind at 1. unfold bind at 1.
  cbn [workflow_callbacks charge set_clock set_ncalls set_trace].
  rewrite Hreg. unfold WorkflowManager.fire. rewrite Hcb.
  unfold WorkflowManager.call_callback, emit, bind, raise. rewrite Hraises.
  eexists _, _. split; [reflexivity|].
  cbn [trace active_workflows charge set_clock set_ncalls set_trace].
  split; [|reflexivity]. now rewrite <- !app_assoc.
Qed.

(** ** The poller when nothing has finished *)

Section IdlePoller.
Variable env : Env.
Hypothesis Hopen : forall k n wi,
    get_workflow_invocation env k n = inr wi ->
    wi_state wi ∉ DataformWorkflow.terminal_states.

Lemma observation_not_terminal wf w w1 :
  bind (DataformWorkflow.refresh env wf)
       (fun _ => DataformWorkflow.is_complete env wf) w <> (Ret true, w1).
Proof.
  unfold bind. rewrite refresh_eq. cbv zeta.
  destruct (get_workflow_invocation env (ncalls w) (wi_name (heap w wf))) as [r|wi];
    [discriminate|].
  rewrite is_complete_eq. cbv zeta.
  match goal with |- context [get_workflow_invocation env ?k ?n] =>
    destruct (get_workflow_invocation env k n) as [r'|wi'] eqn:Hget end; [discriminate|].
  rewrite (bool_decide_eq_false_2 _ (Hopen _ _ _ Hget)). discriminate.
Qed.

Lemma monitor_entry_idle i wf completed w :
  exists w',
    WorkflowManager.monitor_entry env (i, wf) completed w = (Ret completed, w')
    /\ quiet_step idle_pass_event w w'.
Proof.
  pose proof (observation_not_terminal wf w) as Hobs.
  unfold WorkflowManager.monitor_entry.
  assert (Hq : quiet_step idle_pass_event w
                 (snd (bind (DataformWorkflow.refresh env wf)
                            (fun _ => DataformWorkflow.is_complete env wf) w))).
  { apply quiet_bind; [|intros _].
    - intros w0. rewrite refresh_eq. cbv zeta.
      destruct (get_workflow_invocation env (ncalls w0) (wi_name (heap w0 wf)));
        eapply quiet_one; reflexivity.
    - intros w0. rewrite is_complete_eq. cbv zeta.
      destruct (get_workflow_invocation env (ncalls w0) (wi_name (heap w0 wf)));
        eapply quiet_one; reflexivity. }
  pose proof (observe_spec env wf w) as (_ & _ & Hland). cbv zeta in Hland.
  destruct (bind (DataformWorkflow.refresh env wf)
                 (fun _ => DataformWorkflow.is_complete env wf) w)
    as [[[|]|e|] w1] eqn:Hrun; cbn [fst snd] in *; [| | |congruence].
  - exfalso. now apply (Hobs w1).
  - rewrite (bind_ret_eq _ _ _ _ _ (catch_ret_eq _ _ _ _ Hrun)). eauto.
  - rewrite (bind_ret_eq _ _ _ _ _ (catch_raise_eq _ _ _ _ Hrun)).
    unfold logger_error, emit, bind, ret. eexists. split; [reflexivity|].
    eapply quiet_trans; [exact Hq|]. eapply quiet_one; reflexivity.
Qed.

Lemma monitor_entries_idle entries : forall completed w,
  exists w',
    WorkflowManager.monitor_entries env entries completed w = (Ret completed, w')
    /\ quiet_step idle_pass_event w w'.
Proof.
  induction entries as [|[i wf] rest IH]; intros completed w;
    cbn [WorkflowManager.monitor_entries].
  - exists w. split; [reflexivity|apply quiet_refl].
  - destruct (monitor_entry_idle i wf completed w) as (w1 & Hentry & Hq1).
    rewrite (bind_ret_eq _ _ _ _ _ Hentry).
    destruct (IH completed w1) as (w2 & Hrest & Hq2).
    exists w2. split; [exact Hrest|eapply quiet_trans; eauto].
Qed.
End IdlePoller.

(** X19: a pass of the poller evicts nothing as long as nothing has
    finished.  When no answer of the remote is an invocation in a terminal
    state (failures of the remote included), the pass leaves the registry
    and the callback table as they were and calls no callback: between
    taking and releasing the lock it only fetches and logs errors. *)
Theorem poller_pass_keeps_unfinished_entries
        (env : Env) (w : World)
        (Hopen : forall k n wi,
            get_workflow_invocation env k n = inr wi ->
            wi_state wi ∉ DataformWorkflow.terminal_states) :
  exists w' evs,
    WorkflowManager.monitor_pass env w = (Ret tt, w')
    /\ active_workflows w' = active_workflows w
    /\ workflow_callbacks w' = workflow_callbacks w
    /\ trace w' = trace w ++ [EvAcquire] ++ evs ++ [EvRelease]
    /\ all_events idle_pass_event evs.
Proof.
  destruct (monitor_entries_idle env Hopen (active_workflows w) []
              (set_trace (trace w ++ [EvAcquire]) w)) as (w1 & Hentries & Hc & Ha & evs & Ht & He).
  exists (set_trace (trace w1 ++ [EvRelease]) w1), evs.
  split.
  - unfold WorkflowManager.monitor_pass, WorkflowManager.with_lock, emit.
    unfold bind at 1. unfold bind at 1. cbn [active_workflows set_trace].
    unfold bind at 1. rewrite Hentries. reflexivity.
  - cbn [active_workflows workflow_callbacks trace set_trace] in *.
    split; [exact Ha|]. split; [exact Hc|]. split; [|exact He].
    rewrite Ht, <- !app_assoc. reflexivity.
Qed.

(** ** The loop of the poller *)

Lemma sleeps_app a b : sleeps (a ++ b) = sleeps a ++ sleeps b.
Proof. apply omap_app. Qed.

Lemma sleeps_none q evs :
  (forall e, q e = true -> sleep_length e = None) -> all_events q evs -> sleeps evs = [].
Proof.
  intros H. unfold all_events, sleeps.
  induction evs as [|e evs IH]; cbn; [reflexivity|].
  intros [He Hevs]%andb_prop. rewrite (H e He). auto.
Qed.

Lemma monitor_pass_sleepless env w :
  exists w',
    WorkflowManager.monitor_pass env w = (Ret tt, w')
    /\ sleeps (trace w') = sleeps (trace w).
Proof.
  destruct (monitor_pass_eq env w) as (c & w1 & w2 & Hentries & Hremove & Hpass).
  cbv zeta in Hentries.
  eexists. split; [exact Hpass|].
  destruct (monitor_entries_spec env (active_workflows w) []
              (set_trace (trace w ++ [EvAcquire]) w))
    as (c' & w1' & Hentries' & (_ & _ & evs & Hevs & He) & _).
  rewrite Hentries in Hentries'. injection Hentries' as <- <-.
  destruct (remove_completed_spec c w1) as (w2' & Hremove' & (evr & Hevr & Hr) & _).
  rewrite Hremove in Hremove'. injection Hremove' as <-.
  assert (Hno : forall e, poller_event e = true -> sleep_length e = None)
    by (intros []; cbn; auto; discriminate).
  cbn [trace set_trace] in *. rewrite Hevr, Hevs, !sleeps_app.
  rewrite (sleeps_none poller_event evr Hno Hr), (sleeps_none poller_event evs Hno He).
  cbn. now rewrite !app_nil_r.
Qed.

(** X20: the poller never ends.  However many passes it is given, its loop
    has neither returned nor raised after them: no failure of the remote
    and no exception of a callback stops it.  It has slept five seconds
    once per pass, and never inside a pass. *)
Theorem poller_never_ends (env : Env) (passes : nat) (w : World) :
  exists w',
    WorkflowManager._monitor_workflows env passes w = (Diverge, w')
    /\ sleeps (trace w') = sleeps (trace w) ++ repeat 5 passes.
Proof.
  revert w. induction passes as [|n IH]; intros w; cbn [WorkflowManager._monitor_workflows].
  - exists w. split; [reflexivity|]. cbn. now rewrite app_nil_r.
  - destruct (monitor_pass_sleepless env w) as (w1 & Hpass & Hs1).
    rewrite (bind_ret_eq _ _ _ _ _ Hpass).
    assert (Hsleep : time_sleep 5 w1
                     = (Ret tt, set_clock (clock w1 + 5)
                                  (set_trace (trace w1 ++ [EvSleep 5]) w1))) by reflexivity.
    rewrite (bind_ret_eq _ _ _ _ _ Hsleep).
    destruct (IH (set_clock (clock w1 + 5) (set_trace (trace w1 ++ [EvSleep 5]) w1)))
      as (w' & Hloop & Hs).
    exists w'. split; [exact Hloop|].
    rewrite Hs. cbn [trace set_clock set_trace]. rewrite sleeps_app, Hs1.
    cbn. now rewrite <- app_assoc.
Qed.

(** ** Shutting the manager down *)




(** ** Looking a workflow up by its name *)

(** X22: the service's get_workflow makes one call to the remote.  When the
    call fails the exception leaves and no handle is created.  Otherwise
    the result is a new handle on the invocation of the answer, under the
    name of that answer whatever name was asked for; the handles that exist
    keep their snapshots and, unlike a creation, the lookup does not become
    the latest workflow of the service. *)
Theorem service_get_workflow_wraps_the_answer
        (env : Env) (workflow_name : string) (w : World) :
  let w1 := charge (EvGet workflow_name) (latency env (ncalls w)) w in
  match get_workflow_invocation env (ncalls w) workflow_name with
  | inl r => DataformService.get_workflow env workflow_name w = (Raise (Remote r), w1)
  | inr wi =>
      exists w',
        DataformService.get_workflow env workflow_name w = (Ret (next_ref w), w')
        /\ DataformWorkflow.name (next_ref w) w' = (Ret (wi_name wi), w')
        /\ heap w' (next_ref w) = wi
        /\ (forall h, h <> next_ref w -> heap w' h = heap w h)
        /\ next_ref w' = S (next_ref w)
        /\ latest_workflow w' = latest_workflow w
        /\ trace w' = trace w ++ [EvGet workflow_name]
  end.
Proof.
  cbv zeta. unfold DataformService.get_workflow, DataformWorkflow.client_get_workflow_invocation,
    DataformWorkflow.init, DataformWorkflow.name, remote_call, bind.
  destruct (get_workflow_invocation env (ncalls w) workflow_name) as [r|wi]; [reflexivity|].
  eexists. split; [reflexivity|].
  cbn [heap next_ref latest_workflow trace charge set_clock set_ncalls set_trace set_heap
       set_next_ref].
  rewrite fn_lookup_insert.
  repeat split; try reflexivity.
  intros h Hh. now rewrite fn_lookup_insert_ne.
Qed.

(** ** Reading the registry *)

Lemma dict_set_length {V} k (v : V) d :
  length (WorkflowManager.dict_set k v d)
  = match WorkflowManager.dict_get k d with
    | Some _ => length d
    | None => S (length d)
    end.
Proof.
  rewrite <- (length_map fst (WorkflowManager.dict_set k v d)), dict_set_keys.
  destruct (WorkflowManager.dict_get k d); [apply length_map|].
  rewrite length_app, length_map. cbn. lia.
Qed.

Lemma dict_set_In {V} k (v : V) d : In v (List.map snd (WorkflowManager.dict_set k v d)).
Proof.
  induction d as [|[k' v'] d IH]; cbn; [now left|].
  destruct (String.eqb k k'); cbn; auto.
Qed.

(** X23: a handle a worker has registered is what the readers return.
    After the registration under [i], get_workflow gives that handle for [i]
    and, for any other id, what was registered before (nothing for an id
    that is not registered); get_all_workflows contains the handle, and
    holds one handle per id: registering again under an id replaces its
    handle and adds none.  The readers change neither table. *)
Theorem registered_handle_is_what_the_readers_return
        (i j : string) (wf : nat) (w : World) :
  exists all w',
    bind (WorkflowManager.register i wf)
         (fun _ =>
            bind (WorkflowManager.get_workflow j)
                 (fun found =>
                    bind WorkflowManager.get_all_workflows
                         (fun all => ret (found, all)))) w
    = (Ret (if String.eqb j i then Some wf
            else WorkflowManager.dict_get j (active_workflows w), all), w')
    /\ In wf all
    /\ length all = match WorkflowManager.dict_get i (active_workflows w) with
                    | Some _ => length (active_workflows w)
                    | None => S (length (active_workflows w))
                    end
    /\ active_workflows w' = active_workflows (snd (WorkflowManager.register i wf w))
    /\ workflow_callbacks w' = workflow_callbacks w.
Proof.
  unfold WorkflowManager.register, WorkflowManager.get_workflow,
    WorkflowManager.get_all_workflows, WorkflowManager.with_lock, emit, bind, ret.
  cbn [active_workflows workflow_callbacks set_trace set_active_workflows snd].
  assert (Hfound : WorkflowManager.dict_get j (WorkflowManager.dict_set i wf (active_workflows w))
                   = if String.eqb j i then Some wf
                     else WorkflowManager.dict_get j (active_workflows w)).
  { destruct (String.eqb j i) eqn:E.
    - apply String.eqb_eq in E. subst j. apply dict_get_set_eq.
    - apply String.eqb_neq in E. now apply dict_get_set_ne. }
  rewrite Hfound. eexists _, _. split; [reflexivity|].
  cbn [active_workflows workflow_callbacks set_trace set_active_workflows snd].
  split; [apply dict_set_In|]. split; [|split; reflexivity].
  rewrite length_map. apply dict_set_length.
Qed.

(** * The properties above on concrete runs *)

Lemma failed_fetch_propagates_and_keeps_snapshot_witness :
  get_workflow_invocation Scenario.remote_down (ncalls Scenario.world0)
    (wi_name (heap Scenario.world0 0%nat)) = inl NotFound
  /\ (let failed {A} (res : Outcome A * World) :=
        fst res = Raise (Remote NotFound)
        /\ heap (snd res) = heap Scenario.world0
        /\ ncalls (snd res) = S (ncalls Scenario.world0)
        /\ DataformWorkflow.duration_seconds 0 (snd res)
           = (fst (DataformWorkflow.duration_seconds 0 Scenario.world0), snd res) in
      failed (DataformWorkflow.refresh Scenario.remote_down 0 Scenario.world0)
      /\ failed (DataformWorkflow.raw_state Scenario.remote_down 0 Scenario.world0)
      /\ failed (DataformWorkflow.state Scenario.remote_down 0 Scenario.world0)
      /\ failed (DataformWorkflow.is_complete Scenario.remote_down 0 Scenario.world0)
      /\ failed (DataformWorkflow.is_successful Scenario.remote_down 0 Scenario.world0)
      /\ failed (DataformWorkflow.is_failed Scenario.remote_down 0 Scenario.world0)
      /\ failed (DataformWorkflow.is_cancelled Scenario.remote_down 0 Scenario.world0)
      /\ failed (DataformWorkflow.is_running Scenario.remote_down 0 Scenario.world0)
      /\ failed (DataformWorkflow.__str__ Scenario.remote_down 0 Scenario.world0)).
Proof.
  split; [reflexivity|].
  exact (failed_fetch_propagates_and_keeps_snapshot Scenario.remote_down 0 Scenario.world0
           NotFound eq_refl).
Defined.

Lemma state_flags_agree_on_a_steady_remote_witness :
  wi_name (Scenario.snapshot "workflowInvocations/1" RUNNING)
  = wi_name (heap Scenario.world0 0%nat)
  /\ (forall k, get_workflow_invocation (Scenario.remote_in RUNNING) k
                  (wi_name (heap Scenario.world0 0%nat))
                = inr (Scenario.snapshot "workflowInvocations/1" RUNNING))
  /\ exists c s f x r w',
      bind (DataformWorkflow.is_complete (Scenario.remote_in RUNNING) 0) (fun c =>
      bind (DataformWorkflow.is_successful (Scenario.remote_in RUNNING) 0) (fun s =>
      bind (DataformWorkflow.is_failed (Scenario.remote_in RUNNING) 0) (fun f =>
      bind (DataformWorkflow.is_cancelled (Scenario.remote_in RUNNING) 0) (fun x =>
      bind (DataformWorkflow.is_running (Scenario.remote_in RUNNING) 0) (fun r =>
      ret (c, s, f, x, r)))))) Scenario.world0 = (Ret (c, s, f, x, r), w')
      /\ c = s || f || x
      /\ (r = true -> c = false)
      /\ (s && f = false /\ s && x = false /\ f && x = false)
      /\ ncalls w' = (ncalls Scenario.world0 + 5)%nat
      /\ heap w' 0%nat = Scenario.snapshot "workflowInvocations/1" RUNNING.
Proof.
  split; [reflexivity|]. split; [intros k; reflexivity|].
  exact (state_flags_agree_on_a_steady_remote (Scenario.remote_in RUNNING) 0 Scenario.world0
           (Scenario.snapshot "workflowInvocations/1" RUNNING) eq_refl (fun k => eq_refl)).
Defined.

Lemma wait_for_completion_without_time_raises_at_once_witness :
  0 <= 0
  /\ DataformWorkflow.wait_for_completion (Scenario.remote_in SUCCEEDED) 1 0 30 0
       Scenario.world0
     = (Raise (TimeoutError 0), Scenario.world0).
Proof.
  split; [lia|].
  apply (wait_for_completion_without_time_raises_at_once (Scenario.remote_in SUCCEEDED) 0 0
           30 0 Scenario.world0).
  lia.
Defined.

Lemma wait_for_completion_returns_at_first_terminal_observation_witness :
  0 < 10
  /\ get_workflow_invocation (Scenario.remote_in SUCCEEDED) (ncalls Scenario.world0)
       (wi_name (heap Scenario.world0 0%nat))
     = inr (Scenario.snapshot "workflowInvocations/1" SUCCEEDED)
  /\ get_workflow_invocation (Scenario.remote_in SUCCEEDED) (S (ncalls Scenario.world0))
       (wi_name (Scenario.snapshot "workflowInvocations/1" SUCCEEDED))
     = inr (Scenario.snapshot "workflowInvocations/1" SUCCEEDED)
  /\ wi_state (Scenario.snapshot "workflowInvocations/1" SUCCEEDED)
     ∈ DataformWorkflow.terminal_states
  /\ exists w',
      DataformWorkflow.wait_for_completion (Scenario.remote_in SUCCEEDED) 1 0 30 10
        Scenario.world0 = (Ret 0%nat, w')
      /\ trace w' = trace Scenario.world0
                    ++ [EvGet (wi_name (heap Scenario.world0 0%nat));
                        EvGet (wi_name (Scenario.snapshot "workflowInvocations/1" SUCCEEDED))]
      /\ clock w' = clock Scenario.world0
                    + latency (Scenario.remote_in SUCCEEDED) (ncalls Scenario.world0)
                    + latency (Scenario.remote_in SUCCEEDED) (S (ncalls Scenario.world0))
      /\ heap w' 0%nat = Scenario.snapshot "workflowInvocations/1" SUCCEEDED.
Proof.
  assert (Hdone : wi_state (Scenario.snapshot "workflowInvocations/1" SUCCEEDED)
                  ∈ DataformWorkflow.terminal_states) by constructor.
  split; [lia|]. split; [reflexivity|]. split; [reflexivity|]. split; [exact Hdone|].
  apply (wait_for_completion_returns_at_first_terminal_observation
           (Scenario.remote_in SUCCEEDED) 0 0 30 10 Scenario.world0
           (Scenario.snapshot "workflowInvocations/1" SUCCEEDED)
           (Scenario.snapshot "workflowInvocations/1" SUCCEEDED));
    [lia|reflexivity|reflexivity|exact Hdone].
Defined.

Lemma duration_seconds_of_whole_seconds_is_exact_witness :
  wi_invocation_timing (heap Scenario.world_timed 0%nat) ≫= timing_start_time
  = Some (mkTimestamp 100 250000000)
  /\ wi_invocation_timing (heap Scenario.world_timed 0%nat) ≫= timing_end_time
     = Some (mkTimestamp 160 250000000)
  /\ nanos (mkTimestamp 160 250000000) = nanos (mkTimestamp 100 250000000)
  /\ Z.abs (seconds (mkTimestamp 160 250000000) - seconds (mkTimestamp 100 250000000))
     < 2 ^ 53
  /\ exists f,
      DataformWorkflow.duration_seconds 0 Scenario.world_timed
      = (Ret (Some f), Scenario.world_timed)
      /\ PyFloat.is_int f 60.
Proof.
  assert (Hrange : Z.abs (seconds (mkTimestamp 160 250000000)
                          - seconds (mkTimestamp 100 250000000)) < 2 ^ 53)
    by (cbn; lia).
  split; [reflexivity|]. split; [reflexivity|]. split; [reflexivity|].
  split; [exact Hrange|].
  exact (duration_seconds_of_whole_seconds_is_exact 0 Scenario.world_timed
           (mkTimestamp 100 250000000) (mkTimestamp 160 250000000)
           eq_refl eq_refl eq_refl Hrange).
Defined.

Lemma str_shows_last_segment_and_fetched_state_witness :
  wi_name (heap Scenario.world0 0%nat) = ("workflowInvocations" +:+ "/" +:+ "1")%string
  /\ str_contains "/" "1" = false
  /\ get_workflow_invocation (Scenario.remote_in SUCCEEDED) (ncalls Scenario.world0)
       (wi_name (heap Scenario.world0 0%nat))
     = inr (Scenario.snapshot "workflowInvocations/1" SUCCEEDED)
  /\ exists w',
      DataformWorkflow.__str__ (Scenario.remote_in SUCCEEDED) 0 Scenario.world0
      = (Ret "DataformWorkflow(name=1, state=SUCCEEDED)"%string, w')
      /\ ncalls w' = S (ncalls Scenario.world0)
      /\ heap w' 0%nat = Scenario.snapshot "workflowInvocations/1" SUCCEEDED.
Proof.
  split; [reflexivity|]. split; [reflexivity|]. split; [reflexivity|].
  exact (str_shows_last_segment_and_fetched_state (Scenario.remote_in SUCCEEDED) 0
           Scenario.world0 "workflowInvocations" "1"
           (Scenario.snapshot "workflowInvocations/1" SUCCEEDED) eq_refl eq_refl eq_refl).
Defined.

Lemma service_run_submits_compilation_then_invocation_witness :
  let compilation := mkCompileRequest (DataformConfig.repo_uri Scenario.test_config)
                                      (DataformConfig.git_branch Scenario.test_config)
                                      [("defaultExecutionId"%string, "job"%string)] None in
  let invocation := mkInvokeRequest (DataformConfig.repo_uri Scenario.test_config)
                                    "compilationResults/1" true true true in
  create_compilation_result (Scenario.remote_in RUNNING) (ncalls Scenario.world0) compilation
  = inr "compilationResults/1"%string
  /\ create_workflow_invocation (Scenario.remote_in RUNNING) (S (ncalls Scenario.world0))
       invocation
     = inr (Scenario.snapshot "workflowInvocations/1" RUNNING)
  /\ exists w',
      DataformService.run_workflow (Scenario.remote_in RUNNING) Scenario.test_config 0
        (Some "job"%string) false 60 true Scenario.world0
      = (Ret (next_ref Scenario.world0), w')
      /\ trace w' = trace Scenario.world0
                    ++ [EvServiceRun (Some "job"%string) false 60 true;
                        EvCompile compilation; EvInvoke invocation]
      /\ heap w' (next_ref Scenario.world0)
         = Scenario.snapshot "workflowInvocations/1" RUNNING
      /\ (forall h, h <> next_ref Scenario.world0 -> heap w' h = heap Scenario.world0 h)
      /\ latest_workflow w' = Some (next_ref Scenario.world0)
      /\ next_ref w' = S (next_ref Scenario.world0)
      /\ ncalls w' = S (S (ncalls Scenario.world0))
      /\ active_workflows w' = active_workflows Scenario.world0
      /\ workflow_callbacks w' = workflow_callbacks Scenario.world0.
Proof.
  cbv zeta. split; [reflexivity|]. split; [reflexivity|].
  exact (service_run_submits_compilation_then_invocation (Scenario.remote_in RUNNING)
           Scenario.test_config 0 (Some "job"%string) 60 true Scenario.world0
           "compilationResults/1" (Scenario.snapshot "workflowInvocations/1" RUNNING)
           eq_refl eq_refl).
Defined.

Lemma service_run_failure_creates_no_handle_witness :
  let res := DataformService.run_workflow Scenario.remote_down Scenario.test_config 0
               (Some "job"%string) false 60 true Scenario.world0 in
  res = (Raise (Remote RemoteUnavailable), snd res)
  /\ next_ref (snd res) = next_ref Scenario.world0
  /\ heap (snd res) = heap Scenario.world0
  /\ latest_workflow (snd res) = latest_workflow Scenario.world0.
Proof.
  cbv zeta.
  assert (Hrun : DataformService.run_workflow Scenario.remote_down Scenario.test_config 0
                   (Some "job"%string) false 60 true Scenario.world0
                 = (Raise (Remote RemoteUnavailable),
                    snd (DataformService.run_workflow Scenario.remote_down
                           Scenario.test_config 0 (Some "job"%string) false 60 true
                           Scenario.world0))) by reflexivity.
  split; [exact Hrun|].
  pose proof (service_run_failure_creates_no_handle Scenario.remote_down Scenario.test_config
                0 (Some "job"%string) 60 true Scenario.world0 _ _ Hrun) as (H1 & H2 & H3 & _).
  auto.
Defined.

Lemma service_run_with_wait_keeps_the_created_handle_witness :
  let compilation := mkCompileRequest (DataformConfig.repo_uri Scenario.test_config)
                                      (DataformConfig.git_branch Scenario.test_config)
                                      [("defaultExecutionId"%string, "job"%string)] None in
  let invocation := mkInvokeRequest (DataformConfig.repo_uri Scenario.test_config)
                                    "compilationResults/1" true true true in
  let res := DataformService.run_workflow (Scenario.remote_in RUNNING) Scenario.test_config 3
               (Some "job"%string) true 60 true Scenario.world0 in
  create_compilation_result (Scenario.remote_in RUNNING) (ncalls Scenario.world0) compilation
  = inr "compilationResults/1"%string
  /\ create_workflow_invocation (Scenario.remote_in RUNNING) (S (ncalls Scenario.world0))
       invocation
     = inr (Scenario.snapshot "workflowInvocations/1" RUNNING)
  /\ latest_workflow (snd res) = Some (next_ref Scenario.world0)
  /\ next_ref (snd res) = S (next_ref Scenario.world0)
  /\ match fst res with
     | Ret workflow =>
         workflow = next_ref Scenario.world0
         /\ wi_state (heap (snd res) workflow) ∈ DataformWorkflow.terminal_states
     | Raise e => (e = TimeoutError 60 \/ exists r, e = Remote r)
     | Diverge => True
     end.
Proof.
  cbv zeta. split; [reflexivity|]. split; [reflexivity|].
  exact (service_run_with_wait_keeps_the_created_handle (Scenario.remote_in RUNNING)
           Scenario.test_config 3 (Some "job"%string) 60 true Scenario.world0
           "compilationResults/1" (Scenario.snapshot "workflowInvocations/1" RUNNING)
           eq_refl eq_refl).
Defined.

Lemma on_error_returns_world_registered :
  on_error_returns "job" Scenario.world_registered.
Proof.
  intros cbs cb Hreg Hcb. vm_compute in Hreg. injection Hreg as <-.
  cbn in Hcb. injection Hcb as <-. reflexivity.
Qed.

Lemma worker_swallows_every_error_witness :
  on_error_returns "job" Scenario.world_registered
  /\ 0 <= WorkflowManager.retry_delay_seconds (Scenario.manager 2)
  /\ let r := fst (WorkflowManager.run_task Scenario.remote_down (Scenario.manager 2) 3
                     (mkTask "job" false 60 true) Scenario.world_registered) in
     (forall e, r <> Raise e) /\ (false = false -> r = Ret tt).
Proof.
  assert (Hdelay : 0 <= WorkflowManager.retry_delay_seconds (Scenario.manager 2))
    by (cbn; lia).
  split; [exact on_error_returns_world_registered|]. split; [exact Hdelay|].
  exact (worker_swallows_every_error Scenario.remote_down (Scenario.manager 2) 3
           (mkTask "job" false 60 true) Scenario.world_registered
           on_error_returns_world_registered Hdelay).
Defined.

Lemma world_faulty_on_error_callbacks :
  workflow_callbacks Scenario.world_faulty_on_error !! "job"%string
  = Some (mkCallbacks None None (Some (Scenario.faulty "boom"))).
Proof. reflexivity. Qed.

Lemma raising_on_error_callback_ends_the_retrying_witness :
  workflow_callbacks Scenario.world_faulty_on_error !! "job"%string
  = Some (mkCallbacks None None (Some (Scenario.faulty "boom")))
  /\ cb_raises (Scenario.faulty "boom") = Some "boom"%string
  /\ 0 <= WorkflowManager.max_retries (Scenario.manager 2)
  /\ (forall req, create_compilation_result Scenario.remote_down
                    (ncalls Scenario.world_faulty_on_error) req = inl RemoteUnavailable)
  /\ exists req w',
      WorkflowManager.run_task Scenario.remote_down (Scenario.manager 2) 3
        (mkTask "job" true 60 true) Scenario.world_faulty_on_error
      = (Raise (CallbackError "boom"), w')
      /\ trace w'
         = trace Scenario.world_faulty_on_error
           ++ [EvServiceRun (Some "job"%string) false 60 true;
               EvCompile req;
               EvCallback OnError "job" (Scenario.faulty "boom") None
                          (Some (Remote RemoteUnavailable))]
      /\ active_workflows w' = active_workflows Scenario.world_faulty_on_error.
Proof.
  assert (Hretries : 0 <= WorkflowManager.max_retries (Scenario.manager 2)) by (cbn; lia).
  split; [exact world_faulty_on_error_callbacks|]. split; [reflexivity|].
  split; [exact Hretries|]. split; [intros req; reflexivity|].
  exact (raising_on_error_callback_ends_the_retrying Scenario.remote_down (Scenario.manager 2)
           3 (mkTask "job" true 60 true) Scenario.world_faulty_on_error
           (mkCallbacks None None (Some (Scenario.faulty "boom"))) (Scenario.faulty "boom")
           "boom" RemoteUnavailable world_faulty_on_error_callbacks eq_refl eq_refl Hretries
           (fun req => eq_refl)).
Defined.

Lemma remote_in_RUNNING_open k n wi :
  get_workflow_invocation (Scenario.remote_in RUNNING) k n = inr wi ->
  wi_state wi ∉ DataformWorkflow.terminal_states.
Proof.
  intros [= <-]. cbn. rewrite terminal_states_spec. intuition discriminate.
Qed.

Lemma poller_pass_keeps_unfinished_entries_witness :
  (forall k n wi,
      get_workflow_invocation (Scenario.remote_in RUNNING) k n = inr wi ->
      wi_state wi ∉ DataformWorkflow.terminal_states)
  /\ exists w' evs,
      WorkflowManager.monitor_pass (Scenario.remote_in RUNNING) Scenario.world_two_registered
      = (Ret tt, w')
      /\ active_workflows w' = active_workflows Scenario.world_two_registered
      /\ workflow_callbacks w' = workflow_callbacks Scenario.world_two_registered
      /\ trace w' = trace Scenario.world_two_registered ++ [EvAcquire] ++ evs ++ [EvRelease]
      /\ all_events idle_pass_event evs.
Proof.
  split; [exact remote_in_RUNNING_open|].
  exact (poller_pass_keeps_unfinished_entries (Scenario.remote_in RUNNING)
           Scenario.world_two_registered remote_in_RUNNING_open).
Defined.


(** * Further properties of the configuration and of compile *)

(** X24: compile treats an empty parameter dict and an empty schema suffix
    as absent ones: the request sent is the same.  In every case it makes
    one call, for the repository and the branch of the configuration, and
    returns the name the remote answers or raises its error. *)
Theorem compile_treats_empty_as_absent
        (env : Env) (config : DataformConfig.t)
        (params : option (list (string * string))) (schema_suffix : option string)
        (w : World) :
  DataformService.compile env config (Some []) schema_suffix w
  = DataformService.compile env config None schema_suffix w
  /\ DataformService.compile env config params (Some ""%string) w
     = DataformService.compile env config params None w
  /\ exists req,
      cr_parent req = DataformConfig.repo_uri config
      /\ cr_git_commitish req = DataformConfig.git_branch config
      /\ cr_vars req = default [] params
      /\ DataformService.compile env config params schema_suffix w
         = (match create_compilation_result env (ncalls w) req with
            | inl r => Raise (Remote r)
            | inr name => Ret name
            end,
            charge (EvCompile req) (latency env (ncalls w)) w).
Proof.
  split; [reflexivity|]. split; [reflexivity|].
  unfold DataformService.compile, remote_call.
  exists (mkCompileRequest (DataformConfig.repo_uri config) (DataformConfig.git_branch config)
            (match params with Some (p :: ps) => p :: ps | _ => [] end)
            (if DataformService.truthy schema_suffix then schema_suffix else None)).
  split; [reflexivity|]. split; [reflexivity|].
  split; [cbn; destruct params as [[|p ps]|]; reflexivity|].
  match goal with |- context [create_compilation_result env ?k ?r] =>
    destruct (create_compilation_result env k r) end; reflexivity.
Qed.

Lemma repo_uri_segments (c : DataformConfig.t) :
  str_contains "/" (DataformConfig.project_id c) = false ->
  str_contains "/" (DataformConfig.location c) = false ->
  str_contains "/" (DataformConfig.repo_name c) = false ->
  DataformWorkflow.str_split "/" (DataformConfig.repo_uri c)
  = ["projects"; DataformConfig.project_id c; "locations"; DataformConfig.location c;
     "repositories"; DataformConfig.repo_name c]%string.
Proof.
  intros Hp Hl Hr. unfold DataformConfig.repo_uri.
  change ("projects/" +:+ DataformConfig.project_id c +:+ "/locations/"
            +:+ DataformConfig.location c +:+ "/repositories/"
            +:+ DataformConfig.repo_name c)%string
    with ("projects" +:+ String "/"
            (DataformConfig.project_id c +:+ String "/"
               ("locations" +:+ String "/"
                  (DataformConfig.location c +:+ String "/"
                     ("repositories" +:+ String "/" (DataformConfig.repo_name c))))))%string.
  rewrite !str_split_app.
  rewrite (str_split_plain _ _ Hp), (str_split_plain _ _ Hl), (str_split_plain _ _ Hr).
  reflexivity.
Qed.

(** X25: the repository URI can be read back.  When the project, the
    location and the repository name contain no slash, splitting the URI at
    the slashes gives the three of them at the odd positions, after the
    fixed words; hence two configurations with the same URI have the same
    project, location and repository. *)
Theorem repo_uri_reads_back
        (c : DataformConfig.t)
        (Hproject : str_contains "/" (DataformConfig.project_id c) = false)
        (Hlocation : str_contains "/" (DataformConfig.location c) = false)
        (Hrepo : str_contains "/" (DataformConfig.repo_name c) = false) :
  DataformWorkflow.str_split "/" (DataformConfig.repo_uri c)
  = ["projects"; DataformConfig.project_id c; "locations"; DataformConfig.location c;
     "repositories"; DataformConfig.repo_name c]%string
  /\ DataformWorkflow.last_segment (DataformConfig.repo_uri c) = DataformConfig.repo_name c
  /\ forall c',
      str_contains "/" (DataformConfig.project_id c') = false ->
      str_contains "/" (DataformConfig.location c') = false ->
      str_contains "/" (DataformConfig.repo_name c') = false ->
      DataformConfig.repo_uri c' = DataformConfig.repo_uri c ->
      DataformConfig.project_id c' = DataformConfig.project_id c
      /\ DataformConfig.location c' = DataformConfig.location c
      /\ DataformConfig.repo_name c' = DataformConfig.repo_name c.
Proof.
  pose proof (repo_uri_segments c Hproject Hlocation Hrepo) as Hc.
  split; [exact Hc|]. split.
  - unfold DataformWorkflow.last_segment. rewrite Hc. reflexivity.
  - intros c' Hp Hl Hr Huri.
    pose proof (repo_uri_segments c' Hp Hl Hr) as Hc'.
    rewrite Huri, Hc in Hc'. injection Hc' as -> -> ->. auto.
Qed.

Lemma repo_uri_reads_back_witness :
  str_contains "/" (DataformConfig.project_id Scenario.test_config) = false
  /\ str_contains "/" (DataformConfig.location Scenario.test_config) = false
  /\ str_contains "/" (DataformConfig.repo_name Scenario.test_config) = false
  /\ DataformWorkflow.str_split "/" (DataformConfig.repo_uri Scenario.test_config)
     = ["projects"; "test-project"; "locations"; "us-central1"; "repositories";
        "test-repo"]%string.
Proof.
  split; [reflexivity|]. split; [reflexivity|]. split; [reflexivity|].
  exact (proj1 (repo_uri_reads_back Scenario.test_config eq_refl eq_refl eq_refl)).
Defined.

(** * A manager that was just created *)

